(** * get_tieba: the crawl-and-extract pipeline of [fetch_data.py] and the
    connection wrapper of [database_sqlite.py], embedded in Rocq.

    Python values are an inductive type with Python's truth test and [==];
    exceptions are an [outcome]; the interpreter state the code touches
    (standard output, the class attribute [PageItem.db], the database
    server, the tornado event loop) is a record threaded through a small
    state-and-exception monad.  The third-party libraries the code calls
    (lxml's parser, [json.loads], the codecs, the HTTP clients, the database
    engine) are the fields of the class [Library]. *)

From Stdlib Require Import List String Ascii ZArith Bool Lia Floats Uint63.
Import ListNotations.
Open Scope string_scope.

Set Warnings "-register-all".

(** ** Python values *)

Inductive pyvalue : Type :=
| PyNone
| PyBool (b : bool)
| PyInt (z : Z)
| PyStr (s : string)
| PyList (l : list pyvalue)
| PyDict (d : list (string * pyvalue)).

(** [d.get(k)] on the association list of a decoded JSON object (every key
    occurs once in it: [json.loads] keeps one binding per key). *)
Fixpoint dict_get (d : list (string * pyvalue)) (k : string) : option pyvalue :=
  match d with
  | [] => None
  | (k', v) :: d' => if String.eqb k k' then Some v else dict_get d' k
  end.

(** Python's truth test: [None], [False], [0], the empty string, list and
    dict are false. *)
Definition truthy (v : pyvalue) : bool :=
  match v with
  | PyNone => false
  | PyBool b => b
  | PyInt z => negb (Z.eqb z 0)
  | PyStr s => negb (String.eqb s "")
  | PyList l => match l with [] => false | _ => true end
  | PyDict d => match d with [] => false | _ => true end
  end.

(** Python's [==]: [bool] is a subtype of [int] ([True == 1]); values of
    different kinds are otherwise unequal. *)
Fixpoint py_eq (a b : pyvalue) : bool :=
  match a, b with
  | PyNone, PyNone => true
  | PyBool x, PyBool y => Bool.eqb x y
  | PyBool x, PyInt y => Z.eqb (Z.b2z x) y
  | PyInt x, PyBool y => Z.eqb x (Z.b2z y)
  | PyInt x, PyInt y => Z.eqb x y
  | PyStr x, PyStr y => String.eqb x y
  | PyList x, PyList y =>
      (fix go (x y : list pyvalue) : bool :=
         match x, y with
         | [], [] => true
         | a :: x', b :: y' => py_eq a b && go x' y'
         | _, _ => false
         end) x y
  | PyDict x, PyDict y =>
      Nat.eqb (List.length x) (List.length y) &&
      (fix go (x : list (string * pyvalue)) : bool :=
         match x with
         | [] => true
         | (k, v) :: x' =>
             match dict_get y k with
             | Some w => py_eq v w
             | None => false
             end && go x'
         end) x
  | _, _ => false
  end.

(** [a != b] *)
Definition py_ne (a b : pyvalue) : bool := negb (py_eq a b).

(** [v is None] *)
Definition is_None (v : pyvalue) : bool :=
  match v with PyNone => true | _ => false end.

(** ** Exceptions and outcomes *)

Inductive exn : Type :=
| IndexError
| KeyError
| TypeError
| AttributeError
| UnboundLocalError
| UnicodeDecodeError
| LookupError
| ValueError
| HTTPError
| OperationalError
| OtherError (name : string).

(** What a call does: return a value, raise, or never come back (an event
    loop nobody stops). *)
Inductive outcome (A : Type) : Type :=
| Return (a : A)
| Raise (e : exn)
| Blocks.

Arguments Return {A} a.
Arguments Raise {A} e.
Arguments Blocks {A}.

(** What a call into a library does: it returns a value or raises. *)
Inductive result (A : Type) : Type :=
| Ok (a : A)
| Err (e : exn).

Arguments Ok {A} a.
Arguments Err {A} e.

Definition of_result {A} (r : result A) : outcome A :=
  match r with
  | Ok a => Return a
  | Err e => Raise e
  end.

Definition failed {A} (r : result A) : bool :=
  match r with Err _ => true | Ok _ => false end.

(** [v[k]] for a string key [k]: only a dict can be indexed by a string. *)
Definition py_getitem (v : pyvalue) (k : string) : outcome pyvalue :=
  match v with
  | PyDict d => match dict_get d k with
                | Some x => Return x
                | None => Raise KeyError
                end
  | _ => Raise TypeError
  end.

(** [v.get(k)]: only a dict has the method. *)
Definition py_get (v : pyvalue) (k : string) : outcome pyvalue :=
  match v with
  | PyDict d => match dict_get d k with
                | Some x => Return x
                | None => Return PyNone
                end
  | _ => Raise AttributeError
  end.

(** [_author.get("id") or _author.get("name")] (line 76): [or] evaluates
    its second operand only when the first is false. *)
Definition user_id_of (_author : pyvalue) : outcome pyvalue :=
  match py_get _author "id" with
  | Return id => if truthy id then Return id else py_get _author "name"
  | Raise e => Raise e
  | Blocks => Blocks
  end.

(** ** Strings *)

Definition newline : string := String "010"%char EmptyString.

Definition is_newline (c : ascii) : bool := Ascii.eqb c "010"%char.

Definition is_digit (c : ascii) : bool :=
  let n := nat_of_ascii c in Nat.leb 48 n && Nat.leb n 57.

(** XML white space, which separates the names of a [class] attribute. *)
Definition is_space (c : ascii) : bool :=
  let n := nat_of_ascii c in
  Nat.eqb n 32 || Nat.eqb n 9 || Nat.eqb n 10 || Nat.eqb n 13.

Definition lower_char (c : ascii) : ascii :=
  let n := nat_of_ascii c in
  if Nat.leb 65 n && Nat.leb n 90 then ascii_of_nat (n + 32) else c.

(** [s.lower()] *)
Fixpoint lower (s : string) : string :=
  match s with
  | EmptyString => EmptyString
  | String c s' => String (lower_char c) (lower s')
  end.

(** [sep.join(l)] *)
Fixpoint join (sep : string) (l : list string) : string :=
  match l with
  | [] => ""
  | [x] => x
  | x :: l' => x ++ sep ++ join sep l'
  end.

(** The rest of [s] after the prefix [p], when [s] starts with [p]. *)
Fixpoint strip_prefix (p s : string) : option string :=
  match p, s with
  | EmptyString, _ => Some s
  | String a p', String b s' => if Ascii.eqb a b then strip_prefix p' s' else None
  | String _ _, EmptyString => None
  end.

(** The longest prefix of [s] whose characters satisfy [f]. *)
Fixpoint span_while (f : ascii -> bool) (s : string) : string :=
  match s with
  | EmptyString => EmptyString
  | String c s' => if f c then String c (span_while f s') else EmptyString
  end.

(** The names of a white-space separated list: [acc] is the name being read. *)
Fixpoint words_from (acc : string) (s : string) : list string :=
  match s with
  | EmptyString => if String.eqb acc "" then [] else [acc]
  | String c s' =>
      if is_space c
      then (if String.eqb acc "" then words_from "" s' else acc :: words_from "" s')
      else words_from (acc ++ String c EmptyString) s'
  end.

Definition words (s : string) : list string := words_from "" s.

(** [int(s)] on a string of decimal digits. *)
Fixpoint int_of_digits (acc : Z) (s : string) : Z :=
  match s with
  | EmptyString => acc
  | String c s' => int_of_digits (10 * acc + Z.of_nat (nat_of_ascii c - 48)) s'
  end.

(** ** Regular expressions of the code

    [re.match] anchors at the start of the string and backtracks; [.] is any
    character but a newline, and [.+] is greedy: it first takes as much as
    it can and gives characters back until the rest of the pattern matches.
    [dot_plus k s] matches [.+] on [s] and then the continuation [k] on
    what is left. *)

Fixpoint dot_plus_rest {A} (k : string -> option A) (s : string) : option A :=
  match s with
  | EmptyString => k EmptyString
  | String c s' =>
      match (if is_newline c then None else dot_plus_rest k s') with
      | Some r => Some r
      | None => k s
      end
  end.

Definition dot_plus {A} (k : string -> option A) (s : string) : option A :=
  match s with
  | EmptyString => None
  | String c s' => if is_newline c then None else dot_plus_rest k s'
  end.

(** [(\d+)]: the digits at the head, at least one. *)
Definition digits_group (s : string) : option string :=
  match span_while is_digit s with
  | EmptyString => None
  | ds => Some ds
  end.

(** [(.+)] at the end of a pattern: the rest of the line, at least one
    character. *)
Definition line_group (s : string) : option string :=
  match span_while (fun c => negb (is_newline c)) s with
  | EmptyString => None
  | g => Some g
  end.

(** [PageItem.regex_num = re.compile(".+/p/(\d+)")]: [match(s).group(1)],
    [None] when [match] returns [None]. *)
Definition regex_num (s : string) : option string :=
  dot_plus (fun rest => match strip_prefix "/p/" rest with
                        | Some r => digits_group r
                        | None => None
                        end) s.

(** [re.match(".+charset=(.+)", s)], likewise. *)
Definition regex_charset (s : string) : option string :=
  dot_plus (fun rest => match strip_prefix "charset=" rest with
                        | Some r => line_group r
                        | None => None
                        end) s.

(** ** Documents: lxml's element tree *)

Inductive element : Type :=
| Element (tag : string) (attrib : list (string * string))
          (text : option string) (children : list element)
          (tail : option string).

Definition tag (e : element) : string :=
  match e with Element t _ _ _ _ => t end.
Definition attrib (e : element) : list (string * string) :=
  match e with Element _ a _ _ _ => a end.
Definition text (e : element) : option string :=
  match e with Element _ _ t _ _ => t end.
Definition children (e : element) : list element :=
  match e with Element _ _ _ c _ => c end.
Definition tail (e : element) : option string :=
  match e with Element _ _ _ _ t => t end.

(** [e.get(name)] *)
Fixpoint get_attr_in (a : list (string * string)) (name : string) : option string :=
  match a with
  | [] => None
  | (k, v) :: a' => if String.eqb name k then Some v else get_attr_in a' name
  end.

Definition get_attr (e : element) (name : string) : option string :=
  get_attr_in (attrib e) name.

Definition has_class (e : element) (c : string) : bool :=
  match get_attr e "class" with
  | Some v => existsb (String.eqb c) (words v)
  | None => false
  end.

(** The selectors of the code: [tag.class], [.class], and the descendant
    combinator [anc tag.class]. *)
Inductive selector : Type :=
| TagClass (t c : string)
| AnyClass (c : string)
| Under (anc : string) (t c : string).

Definition matches_simple (t : option string) (c : string) (e : element) : bool :=
  match t with
  | Some t => String.eqb (tag e) t
  | None => true
  end && has_class e c.

(** The elements of the tree of [e], [e] first, in document order. *)
Fixpoint descendants_or_self (e : element) : list element :=
  match e with
  | Element _ _ _ cs _ => e :: flat_map descendants_or_self cs
  end.

(** The elements below [e] (or [e] itself) that match and lie strictly
    inside an [anc] element of the tree of [e], in document order;
    [inside] says that such an ancestor has been passed. *)
Fixpoint select_under (anc : string) (t c : string) (inside : bool) (e : element)
  : list element :=
  match e with
  | Element tg _ _ cs _ =>
      (if inside && matches_simple (Some t) c e then [e] else []) ++
      flat_map (select_under anc t c (inside || String.eqb tg anc)) cs
  end.

(** [CSSSelector(sel)(e)]: the matching elements among [e] and its
    descendants, in document order. *)
Definition css (sel : selector) (e : element) : list element :=
  match sel with
  | TagClass t c => filter (matches_simple (Some t) c) (descendants_or_self e)
  | AnyClass c => filter (matches_simple None c) (descendants_or_self e)
  | Under anc t c => select_under anc t c false e
  end.

Definition or_empty (o : option string) : string :=
  match o with Some s => s | None => "" end.

(** [tostring(e, encoding="UTF-8", method="text")]: the text of the tree of
    [e], its tail included. *)
Fixpoint tostring_text (e : element) : string :=
  match e with
  | Element _ _ tx cs tl =>
      (or_empty tx ++ String.concat "" (map tostring_text cs) ++ or_empty tl)%string
  end.

(** [l[0]] *)
Definition first {A} (l : list A) : outcome A :=
  match l with
  | x :: _ => Return x
  | [] => Raise IndexError
  end.

(** ** The crawler: [fetch_data.py] *)

(** An HTTP response as the code reads it: [response.error],
    [response.headers] and [response.body]. *)
Record response : Type := {
  error : option string;
  headers : list (string * string);
  body : string
}.

(** A [PageItem] object.  [title], [content] and [created_at] are the
    attributes [parse_detail_page] sets: [None] while the attribute does not
    exist. *)
Record PageItem : Type := {
  url : string;
  reply_date : element;
  page_num : Z;
  title : option string;
  content : option string;
  created_at : option pyvalue
}.

(** [PageItem._page_num]: [None.group] raises [AttributeError] when the
    pattern does not match. *)
Definition _page_num (u : string) : outcome Z :=
  match regex_num u with
  | Some ds => Return (int_of_digits 0 ds)
  | None => Raise AttributeError
  end.

(** [PageItem.__init__] *)
Definition new_PageItem (u : string) (rd : element) : outcome PageItem :=
  match _page_num u with
  | Return n => Return {| url := u; reply_date := rd; page_num := n;
                          title := None; content := None; created_at := None |}
  | Raise e => Raise e
  | Blocks => Blocks
  end.

(** The callback [handle_request(page_item.parse_detail_page, exit_flag)]. *)
Record callback : Type := {
  cb_item : PageItem;
  cb_exit_flag : bool
}.

(** The local variables of the loop of [parse_detail_page]. *)
Record loop_vars : Type := {
  main_author : pyvalue;
  contents : list string;
  lv_created_at : pyvalue
}.

(** How an iteration of a [for] loop ends: it goes on to the next element
    (the end of the body, or [continue]) or leaves the loop ([break]). *)
Inductive control : Type := Next | Break.

(** The value of a local variable that an assignment may not have reached. *)
Inductive local (A : Type) : Type :=
| Unbound
| Bound (a : A).

Arguments Unbound {A}.
Arguments Bound {A} a.

Definition base_url (href : option string) : string :=
  "http://tieba.baidu.com" ++
  match href with Some h => h | None => "None" end.

Definition migrate_str : string := "
CREATE TABLE page_items (
    `id` int(11) NOT NULL AUTO_INCREMENT,
    `keyword` varchar(255) DEFAULT NULL,
    `page_num` int(11) DEFAULT NUll,
    `title` text DEFAULT NULL,
    `content` text DEFAULT NUll,
    `created_at` DATETIME NULL,
    `reply_date` DATETIME NULL,
    `active` tinyint(1) DEFAULT '0',
    PRIMARY KEY (`id`)
) ENGINE=MyISAM AUTO_INCREMENT=12 DEFAULT CHARSET=utf8;
            ".

Definition insert_str : string :=
  "insert into page_items(page_num, title, content, created_at) values(%s,%s,%s,%s)".

Definition is_UnicodeDecodeError (e : exn) : bool :=
  match e with UnicodeDecodeError => true | _ => false end.

(** The third-party code the crawler calls. *)
Class Library : Type := {
  (** The state of the database server behind [tornado.database]. *)
  store : Type;
  (** [Connection.execute(query, *parameters)] on the server. *)
  db_execute : string -> list pyvalue -> store -> result Z * store;
  (** [etree.HTML(html)] *)
  etree_HTML : string -> result element;
  (** [json.loads] on the value of an attribute ([None]: no such attribute). *)
  json_loads : option string -> result pyvalue;
  (** [body.decode(charset)] and, with [true], [body.decode(charset, "ignore")]. *)
  decode : string -> bool -> string -> result string;
  (** [HTTPClient().fetch(url)] *)
  http_fetch : string -> result response;
  (** The URLs on which [AsyncHTTPClient().fetch] raises at once. *)
  fetch_refused : string -> bool;
  (** The responses that arrive while the event loop runs for the n-th time,
      in their order of arrival, each with the number of its request. *)
  arrivals : nat -> list (nat * response);
  (** [raw_word.decode("UTF-8").encode("GBK")] and [urllib.quote]. *)
  to_gbk : string -> result string;
  urllib_quote : string -> string
}.

Section Crawler.

Context {L : Library}.

(** The interpreter state the code reads and writes. *)
Record world : Type := {
  stdout : list string;            (* what [print] wrote *)
  PageItem_db : bool;              (* the class attribute [PageItem.db] is set *)
  server : store;                  (* the database behind it *)
  stopped : bool;                  (* [IOLoop._stopped] *)
  requests : nat;                  (* requests handed to the async client *)
  pending : list (nat * callback); (* requests without a response yet *)
  loop_runs : nat;                 (* how often [IOLoop.start] has run *)
  logged : list exn                (* exceptions of callbacks, logged by the loop *)
}.

Definition M (A : Type) : Type := world -> outcome A * world.

Definition ret {A} (a : A) : M A := fun w => (Return a, w).

Definition bind {A B} (c : M A) (k : A -> M B) : M B :=
  fun w => match c w with
           | (Return a, w') => k a w'
           | (Raise e, w') => (Raise e, w')
           | (Blocks, w') => (Blocks, w')
           end.

Definition lift {A} (o : outcome A) : M A := fun w => (o, w).

Definition raise {A} (e : exn) : M A := lift (Raise e).

(** [try: c / except: h] *)
Definition try_except {A} (c : M A) (h : M A) : M A :=
  fun w => match c w with
           | (Raise _, w') => h w'
           | r => r
           end.

Notation "x <- c ;; k" := (bind c (fun x => k))
  (at level 61, c at next level, right associativity).
Notation "c ;;; k" := (bind c (fun _ => k))
  (at level 61, right associativity).

Definition print (line : string) : M unit :=
  fun w => (Return tt,
            {| stdout := (stdout w ++ [line])%list; PageItem_db := PageItem_db w;
               server := server w; stopped := stopped w; requests := requests w;
               pending := pending w; loop_runs := loop_runs w; logged := logged w |}).

(** [for x in l: body], with the loop's variables as [s]. *)
Fixpoint for_each {S A} (body : A -> S -> M (control * S)) (l : list A) (s : S) : M S :=
  match l with
  | [] => ret s
  | x :: l' =>
      r <- body x s ;;
      match r with
      | (Next, s') => for_each body l' s'
      | (Break, s') => ret s'
      end
  end.

(** [PageItem.db.execute(query, *parameters)] *)
Definition PageItem_db_execute (query : string) (parameters : list pyvalue) : M Z :=
  fun w =>
    if PageItem_db w then
      let (r, s') := db_execute query parameters (server w) in
      (of_result r, {| stdout := stdout w; PageItem_db := PageItem_db w;
             server := s'; stopped := stopped w; requests := requests w;
             pending := pending w; loop_runs := loop_runs w; logged := logged w |})
    else (Raise AttributeError, w).

(** [PageItem.save_to_sqlite] *)
Definition save_to_sqlite (self : PageItem) : M PageItem :=
  print (or_empty (title self)) ;;;
  PageItem_db_execute insert_str
    [PyInt (page_num self); PyStr (or_empty (title self));
     PyStr (or_empty (content self));
     match created_at self with Some v => v | None => PyNone end] ;;;
  ret self.

(** The body of the loop of [parse_detail_page] (lines 67 to 85). *)
Definition post_body (div : element) (v : loop_vars) : M (control * loop_vars) :=
  let dumped_data := get_attr div "data-field" in
  match json_loads dumped_data with
  | Err _ => print "Parse json error" ;;; ret (Next, v)
  | Ok data =>
      _content <- lift (py_getitem data "content") ;;
      _author <- lift (py_getitem data "author") ;;
      user_id <- lift (user_id_of _author) ;;
      let main_author' := if is_None (main_author v) then user_id else main_author v in
      date <- lift (py_getitem _content "date") ;;
      if py_ne main_author' user_id
      then ret (Break, {| main_author := main_author'; contents := contents v;
                          lv_created_at := date |})
      else
        post_content <- lift (first (css (Under "cc" "div" "d_post_content") div)) ;;
        let current_content := tostring_text post_content in
        ret (Next, {| main_author := main_author';
                      contents := (contents v ++ [current_content])%list;
                      lv_created_at := date |})
  end.

(** [PageItem.parse_detail_page]; the result is [self] after the call. *)
Definition parse_detail_page (self : PageItem) (html : string) : M PageItem :=
  doc <- lift (of_result (etree_HTML html)) ;;
  match css (TagClass "div" "core") doc with
  | [] => ret self
  | content_list :: _ =>
      let post_contents := css (TagClass "div" "l_post") content_list in
      v <- for_each post_body post_contents
             {| main_author := PyNone; contents := []; lv_created_at := PyNone |} ;;
      title_node <- lift (first (css (AnyClass "core_title_txt") content_list)) ;;
      t <- lift (match text title_node with
                 | Some t => Return t
                 | None => Raise AttributeError
                 end) ;;
      save_to_sqlite
        {| url := url self; reply_date := reply_date self; page_num := page_num self;
           title := Some t;
           content := Some (join (newline ++ newline) (contents v));
           created_at := Some (lv_created_at v) |}
  end.

(** [PageItem.init_sqlite]: the connection object is made (the library's
    constructor logs a failed connection and returns), then the table is
    created inside [try: ... except: pass]. *)
Definition init_sqlite : M unit :=
  (fun w => (Return tt,
             {| stdout := stdout w; PageItem_db := true;
                server := server w; stopped := stopped w; requests := requests w;
                pending := pending w; loop_runs := loop_runs w; logged := logged w |})) ;;;
  try_except (PageItem_db_execute migrate_str [] ;;; ret tt) (ret tt).

(** The body of the loop of [parse_summary_page] (lines 132 to 135). *)
Definition summary_body (li : element) (link_items : list PageItem)
  : outcome (list PageItem) :=
  match first (css (TagClass "a" "j_th_tit") li) with
  | Return link =>
      let href := base_url (get_attr link "href") in
      match first (css (TagClass "span" "j_reply_data") li) with
      | Return reply_date =>
          match new_PageItem href reply_date with
          | Return item => Return (link_items ++ [item])%list
          | Raise e => Raise e
          | Blocks => Blocks
          end
      | Raise e => Raise e
      | Blocks => Blocks
      end
  | Raise e => Raise e
  | Blocks => Blocks
  end.

Fixpoint summary_loop (li_elms : list element) (link_items : list PageItem)
  : outcome (list PageItem) :=
  match li_elms with
  | [] => Return link_items
  | li :: rest =>
      match summary_body li link_items with
      | Return link_items' => summary_loop rest link_items'
      | Raise e => Raise e
      | Blocks => Blocks
      end
  end.

(** [parse_summary_page] *)
Definition parse_summary_page (html : string) : M (option string * list PageItem) :=
  doc <- lift (of_result (etree_HTML html)) ;;
  let li_elms := css (TagClass "li" "j_thread_list") doc in
  link_items <- lift (summary_loop li_elms []) ;;
  let next_page_links := css (TagClass "a" "next") doc in
  let next_link := match next_page_links with
                   | l :: _ => Some (base_url (get_attr l "href"))
                   | [] => None
                   end in
  ret (next_link, link_items).

(** [ioloop.IOLoop.instance().stop()] *)
Definition ioloop_stop : M unit :=
  fun w => (Return tt,
            {| stdout := stdout w; PageItem_db := PageItem_db w;
               server := server w; stopped := true; requests := requests w;
               pending := pending w; loop_runs := loop_runs w; logged := logged w |}).

(** Lines 27 to 35 of [handle_request.__call__]: the local [html] after
    the [try] statement. *)
Definition decode_body (charset : string) (body : string) : M (local (option string)) :=
  match decode charset false body with
  | Ok html => ret (Bound (Some html))
  | Err e =>
      if is_UnicodeDecodeError e then
        if String.eqb (lower charset) "gbk" then
          match decode "gb18030" true body with
          | Ok html => ret (Bound (Some html))
          | Err _ => print "Decode error" ;;; ret (Bound None)
          end
        else ret Unbound
      else raise e
  end.

(** [handle_request(func_parser, exit_flag).__call__(response)]; the result
    [None] is Python's [None]. *)
Definition handle_request {R} (func_parser : string -> M R) (exit_flag : bool)
    (response : response) : M (option R) :=
  match error response with
  | Some e => print ("Error: " ++ e) ;;; ret None
  | None =>
      content_type <- lift (match get_attr_in (headers response) "Content-Type" with
                            | Some c => Return c
                            | None => Raise KeyError
                            end) ;;
      charset <- lift (match regex_charset content_type with
                       | Some c => Return c
                       | None => Raise AttributeError
                       end) ;;
      html <- decode_body charset (body response) ;;
      (if exit_flag then ioloop_stop else ret tt) ;;;
      match html with
      | Unbound => raise UnboundLocalError
      | Bound None => ret None
      | Bound (Some h) =>
          if String.eqb h "" then ret None
          else r <- func_parser h ;; ret (Some r)
      end
  end.

(** [get_keyword] *)
Definition get_keyword (raw_word : string) : outcome string :=
  match to_gbk raw_word with
  | Ok gbk_str => Return (urllib_quote gbk_str)
  | Err e => Raise e
  end.

(** [fetch_summary_page] *)
Definition fetch_summary_page (page_url : string)
  : M (option (option string * list PageItem)) :=
  response <- lift (of_result (http_fetch page_url)) ;;
  handle_request parse_summary_page false response.

(** [async_client.fetch(url, callback)]: the request gets the next number
    and waits for its response. *)
Definition async_client_fetch (u : string) (cb : callback) : M unit :=
  fun w =>
    if fetch_refused u then (Raise (OtherError "fetch"), w)
    else (Return tt,
          {| stdout := stdout w; PageItem_db := PageItem_db w;
             server := server w; stopped := stopped w;
             requests := S (requests w);
             pending := (pending w ++ [(requests w, cb)])%list;
             loop_runs := loop_runs w; logged := logged w |}).

(** The callback of request [id] and the other waiting requests. *)
Fixpoint take_pending (id : nat) (p : list (nat * callback))
  : option (callback * list (nat * callback)) :=
  match p with
  | [] => None
  | (n, cb) :: p' =>
      if Nat.eqb n id then Some (cb, p')
      else match take_pending id p' with
           | Some (c, rest) => Some (c, (n, cb) :: rest)
           | None => None
           end
  end.

Definition set_pending (p : list (nat * callback)) (w : world) : world :=
  {| stdout := stdout w; PageItem_db := PageItem_db w; server := server w;
     stopped := stopped w; requests := requests w; pending := p;
     loop_runs := loop_runs w; logged := logged w |}.

Definition set_stopped (b : bool) (w : world) : world :=
  {| stdout := stdout w; PageItem_db := PageItem_db w; server := server w;
     stopped := b; requests := requests w; pending := pending w;
     loop_runs := loop_runs w; logged := logged w |}.

Definition log_exception (e : exn) (w : world) : world :=
  {| stdout := stdout w; PageItem_db := PageItem_db w; server := server w;
     stopped := stopped w; requests := requests w; pending := pending w;
     loop_runs := loop_runs w; logged := (logged w ++ [e])%list |}.

Definition next_run (w : world) : world :=
  {| stdout := stdout w; PageItem_db := PageItem_db w; server := server w;
     stopped := stopped w; requests := requests w; pending := pending w;
     loop_runs := S (loop_runs w); logged := logged w |}.

(** The event loop, one response an iteration: the callback of the request
    runs (the loop logs an exception of a callback and goes on), and the loop
    returns once a callback has called [stop].  With no response left and
    nobody to stop it, the loop waits for ever. *)
Fixpoint run_callbacks (arr : list (nat * response)) (w : world) : outcome unit * world :=
  match arr with
  | [] => (Blocks, w)
  | (id, resp) :: arr' =>
      match take_pending id (pending w) with
      | None => run_callbacks arr' w
      | Some (cb, rest) =>
          match handle_request (parse_detail_page (cb_item cb)) (cb_exit_flag cb)
                  resp (set_pending rest w) with
          | (Blocks, w') => (Blocks, w')
          | (Raise e, w') =>
              let w'' := log_exception e w' in
              if stopped w'' then (Return tt, set_stopped false w'')
              else run_callbacks arr' w''
          | (Return _, w') =>
              if stopped w' then (Return tt, set_stopped false w')
              else run_callbacks arr' w'
          end
      end
  end.

(** [ioloop.IOLoop.instance().start()]: a loop stopped before it starts
    returns at once. *)
Definition ioloop_start : M unit :=
  fun w =>
    if stopped w then (Return tt, set_stopped false w)
    else run_callbacks (arrivals (loop_runs w)) (next_run w).

(** The loop of [async_fetch] (lines 154 to 159); [n] is [len(page_items)]. *)
Fixpoint fetch_all (n idx : nat) (page_items : list PageItem) : M unit :=
  match page_items with
  | [] => ret tt
  | page_item :: rest =>
      let exit_flag := Nat.eqb n (idx + 1) in
      try_except
        (async_client_fetch (url page_item)
           {| cb_item := page_item; cb_exit_flag := exit_flag |})
        (print "fetch error") ;;;
      fetch_all n (S idx) rest
  end.

(** [async_fetch] *)
Definition async_fetch (page_items : list PageItem) : M unit :=
  match page_items with
  | [] => ret tt
  | _ => fetch_all (List.length page_items) 0 page_items ;;; ioloop_start
  end.

(** [next_link, detail_items = r]: [None] cannot be unpacked. *)
Definition unpack {A} (r : option A) : M A :=
  match r with
  | Some p => ret p
  | None => raise TypeError
  end.

(** [next_link, detail_items = fetch_summary_page(page_url)] (lines 185
    and 191). *)
Definition next_listing (page_url : string) : M (option string * list PageItem) :=
  r <- fetch_summary_page page_url ;;
  unpack r.

(** The [while True] loop of [main], for at most [fuel] listing pages; the
    result says whether the loop was left by its [break]. *)
Fixpoint main_loop (fuel : nat) (next_link : option string)
    (detail_items : list PageItem) : M bool :=
  match fuel with
  | O => ret false
  | S fuel' =>
      async_fetch detail_items ;;;
      print (match next_link with Some l => l | None => "None" end) ;;;
      match next_link with
      | Some l =>
          if String.eqb l "" then ret true
          else
            p <- next_listing l ;;
            main_loop fuel' (fst p) (snd p)
      | None => ret true
      end
  end.

(** [main], with [sys.argv] as [args]. *)
Definition main (fuel : nat) (args : list string) : M bool :=
  keyword <- match args with
             | _ :: k :: _ => ret k
             | _ => print "Keyword is blank!!" ;;; ret "java"
             end ;;
  init_sqlite ;;;
  kw <- lift (get_keyword keyword) ;;
  let main_url := "http://tieba.baidu.com/f/good?kw=" ++ kw in
  p <- next_listing main_url ;;
  main_loop fuel (fst p) (snd p).

End Crawler.

(** ** The connection wrapper: [database_sqlite.py] *)

Module Sqlite.

(** What [cursor.execute] leaves in the cursor. *)
Record cursor_result : Type := {
  description : option (list string);
                                   (* the column names; [None] after a
                                      statement that returns no rows *)
  rows : list (list pyvalue);
  lastrowid : pyvalue
}.

(** What the wrapper does to [sqlite3] and to [logging], in order; [h]
    numbers the connection objects [sqlite3.connect] has returned. *)
Inductive event : Type :=
| EvClose (h : nat)
| EvConnect (database : string) (h : nat)
| EvCursor (h : nat)
| EvExecute (h : nat) (query : string) (parameters : list pyvalue)
| EvExecuteMany (h : nat) (query : string) (parameters : list (list pyvalue))
| EvCommit (h : nat)
| EvCursorClose (h : nat)
| EvLogError (message : string).

(** [time.time()] and [sqlite3]. *)
Class Sqlite3 : Type := {
  (** the value of the n-th call of [time.time()] *)
  clock : nat -> float;
  (** the exception of the n-th call of [sqlite3.connect], if it raises *)
  connect_error : string -> nat -> option exn;
  (** [cursor.execute(query, parameters)] on the n-th statement *)
  cursor_execute : string -> list pyvalue -> nat -> outcome cursor_result;
  (** [cursor.executemany(query, parameters)], likewise *)
  cursor_executemany : string -> list (list pyvalue) -> nat -> outcome cursor_result;
  (** the exception of [commit] after the n-th statement, if it raises *)
  commit_error : nat -> option exn
}.

(** A [Connection] object. *)
Record Connection : Type := {
  host : string;
  database : string;
  max_idle_time : float;
  _db : option nat;
  _last_use_time : float
}.

(** The world around it. *)
Record env : Type := {
  ticks : nat;          (* calls of [time.time()] so far *)
  connects : nat;       (* calls of [sqlite3.connect] so far *)
  statements : nat;     (* statements executed so far *)
  trace : list event
}.

(** The default of [max_idle_time]: [7*3600], an integer product. *)
Definition default_max_idle_time : float :=
  PrimFloat.of_uint63 (7 * 3600)%uint63.

Definition is_OperationalError (e : exn) : bool :=
  match e with OperationalError => true | _ => false end.

Section Wrapper.

Context {E : Sqlite3}.

Definition Op (A : Type) : Type := Connection * env -> outcome A * (Connection * env).

Definition ret {A} (a : A) : Op A := fun s => (Return a, s).

Definition bind {A B} (c : Op A) (k : A -> Op B) : Op B :=
  fun s => match c s with
           | (Return a, s') => k a s'
           | (Raise e, s') => (Raise e, s')
           | (Blocks, s') => (Blocks, s')
           end.

Definition raise {A} (e : exn) : Op A := fun s => (Raise e, s).

Notation "x <- c ;; k" := (bind c (fun x => k))
  (at level 61, c at next level, right associativity).
Notation "c ;;; k" := (bind c (fun _ => k))
  (at level 61, right associativity).

(** [try: c / finally: f]: the [finally] is run when [c] returns or
    raises, and is never reached when [c] does not come back. *)
Definition try_finally {A} (c : Op A) (f : Op unit) : Op A :=
  fun s => match c s with
           | (Blocks, s') => (Blocks, s')
           | (r, s') => match f s' with
                        | (Return _, s'') => (r, s'')
                        | (Raise e, s'') => (Raise e, s'')
                        | (Blocks, s'') => (Blocks, s'')
                        end
           end.

(** [try: c / except: h] *)
Definition try_except {A} (c : Op A) (h : Op A) : Op A :=
  fun s => match c s with
           | (Raise _, s') => h s'
           | r => r
           end.

Definition emit (ev : event) : Op unit :=
  fun '(c, e) =>
    (Return tt,
     (c, {| ticks := ticks e; connects := connects e;
            statements := statements e; trace := (trace e ++ [ev])%list |})).

Definition self : Op Connection := fun '(c, e) => (Return c, (c, e)).

Definition set__db (d : option nat) : Op unit :=
  fun '(c, e) =>
    (Return tt,
     ({| host := host c; database := database c;
         max_idle_time := max_idle_time c; _db := d;
         _last_use_time := _last_use_time c |}, e)).

Definition set__last_use_time (t : float) : Op unit :=
  fun '(c, e) =>
    (Return tt,
     ({| host := host c; database := database c;
         max_idle_time := max_idle_time c; _db := _db c;
         _last_use_time := t |}, e)).

(** [time.time()] *)
Definition time_time : Op float :=
  fun '(c, e) =>
    (Return (clock (ticks e)),
     (c, {| ticks := S (ticks e); connects := connects e;
            statements := statements e; trace := trace e |})).

(** [sqlite3.connect(database)] *)
Definition sqlite3_connect (database : string) : Op nat :=
  fun '(c, e) =>
    let e' := {| ticks := ticks e; connects := S (connects e);
                 statements := statements e; trace := trace e |} in
    match connect_error database (connects e) with
    | Some x => (Raise x, (c, e'))
    | None =>
        (Return (connects e),
         (c, {| ticks := ticks e'; connects := connects e';
                statements := statements e';
                trace := (trace e' ++ [EvConnect database (connects e)])%list |}))
    end.

(** [Connection.close] *)
Definition close : Op unit :=
  c <- self ;;
  match _db c with
  | Some h => emit (EvClose h) ;;; set__db None
  | None => ret tt
  end.

(** [Connection.reconnect] *)
Definition reconnect : Op unit :=
  close ;;;
  c <- self ;;
  h <- sqlite3_connect (database c) ;;
  set__db (Some h).

(** [Connection._ensure_connected]; [or] reads the clock only when
    [self._db] is not [None]. *)
Definition _ensure_connected : Op unit :=
  c <- self ;;
  stale <- match _db c with
           | None => ret true
           | Some _ =>
               now <- time_time ;;
               ret (PrimFloat.ltb (max_idle_time c)
                      (PrimFloat.sub now (_last_use_time c)))
           end ;;
  (if stale : bool then reconnect else ret tt) ;;;
  now <- time_time ;;
  set__last_use_time now.

(** [self._db.cursor()]: the cursor is known by its connection. *)
Definition db_cursor : Op nat :=
  c <- self ;;
  match _db c with
  | Some h => emit (EvCursor h) ;;; ret h
  | None => raise AttributeError
  end.

(** [Connection._cursor] *)
Definition _cursor : Op nat :=
  _ensure_connected ;;;
  db_cursor.

Definition next_statement : Op nat :=
  fun '(c, e) =>
    (Return (statements e),
     (c, {| ticks := ticks e; connects := connects e;
            statements := S (statements e); trace := trace e |})).

(** [Connection._execute] *)
Definition _execute (cursor : nat) (query : string) (parameters : list pyvalue)
  : Op cursor_result :=
  n <- next_statement ;;
  emit (EvExecute cursor query parameters) ;;;
  match cursor_execute query parameters n with
  | Return r =>
      c <- self ;;
      match _db c with
      | None => raise AttributeError
      | Some h =>
          match commit_error n with
          | None => emit (EvCommit h) ;;; ret r
          | Some x =>
              if is_OperationalError x
              then c <- self ;;
                   emit (EvLogError ("Error connecting to SQLite3 on " ++ host c)) ;;;
                   raise x
              else raise x
          end
      end
  | Raise x =>
      if is_OperationalError x
      then c <- self ;;
           emit (EvLogError ("Error connecting to SQLite3 on " ++ host c)) ;;;
           raise x
      else raise x
  | Blocks => fun s => (Blocks, s)
  end.

(** [Row(zip(column_names, row))] *)
Fixpoint Row (column_names : list string) (row : list pyvalue)
  : list (string * pyvalue) :=
  match column_names, row with
  | k :: ks, v :: vs => (k, v) :: Row ks vs
  | _, _ => []
  end.

(** [column_names = [d[0] for d in cursor.description]] and the list of the
    rows as [Row]s (lines 80 to 82 and 91 to 92): the description of a
    cursor whose statement returns no rows is [None], which cannot be
    iterated. *)
Definition read_rows (r : cursor_result) : Op (list (list (string * pyvalue))) :=
  match description r with
  | Some column_names => ret (map (Row column_names) (rows r))
  | None => raise TypeError
  end.

(** [Connection.query] *)
Definition query (q : string) (parameters : list pyvalue)
  : Op (list (list (string * pyvalue))) :=
  cursor <- _cursor ;;
  try_finally
    (r <- _execute cursor q parameters ;;
     read_rows r)
    (ret tt).

(** [Connection.iter], run to its end: [list(self.iter(...))]. *)
Definition iter (q : string) (parameters : list pyvalue)
  : Op (list (list (string * pyvalue))) :=
  _ensure_connected ;;;
  cursor <- _cursor ;;
  try_finally
    (r <- _execute cursor q parameters ;;
     read_rows r)
    (emit (EvCursorClose cursor)).

(** [Connection.get] *)
Definition get (q : string) (parameters : list pyvalue)
  : Op (option (list (string * pyvalue))) :=
  rs <- query q parameters ;;
  match rs with
  | [] => ret None
  | [r] => ret (Some r)
  | _ => raise (OtherError "Multiple rows returned for Database.get() query")
  end.

(** [Connection.execute] *)
Definition execute (q : string) (parameters : list pyvalue) : Op pyvalue :=
  cursor <- _cursor ;;
  try_finally
    (r <- _execute cursor q parameters ;;
     ret (lastrowid r))
    (emit (EvCursorClose cursor)).

(** [Connection.executemany] *)
Definition executemany (q : string) (parameters : list (list pyvalue)) : Op pyvalue :=
  cursor <- _cursor ;;
  try_finally
    (n <- next_statement ;;
     emit (EvExecuteMany cursor q parameters) ;;;
     match cursor_executemany q parameters n with
     | Return r => ret (lastrowid r)
     | Raise x => raise x
     | Blocks => fun s => (Blocks, s)
     end)
    (emit (EvCursorClose cursor)).

(** [Connection.__init__]: the object, and the world after the constructor. *)
Definition new_Connection (database host : string) (max_idle_time : float) (e : env)
  : Connection * env :=
  match time_time ({| host := host; database := database;
                      max_idle_time := max_idle_time; _db := None;
                      _last_use_time := 0%float |}, e) with
  | (Return t, s) =>
      snd ((set__last_use_time t ;;;
            try_except reconnect
              (emit (EvLogError ("Cannot connect to Sqlite3 on " ++ host)))) s)
  | (_, s) => s
  end.

(** The operations of a connection on the store. *)
Inductive operation : Type :=
| Iter (q : string) (parameters : list pyvalue)
| Query (q : string) (parameters : list pyvalue)
| Get (q : string) (parameters : list pyvalue)
| Execute (q : string) (parameters : list pyvalue)
| ExecuteMany (q : string) (parameters : list (list pyvalue)).

(** An operation run for its effect on the connection and the world. *)
Definition run (op : operation) (s : Connection * env) : outcome unit * (Connection * env) :=
  match op with
  | Iter q ps => (iter q ps ;;; ret tt) s
  | Query q ps => (query q ps ;;; ret tt) s
  | Get q ps => (get q ps ;;; ret tt) s
  | Execute q ps => (execute q ps ;;; ret tt) s
  | ExecuteMany q ps => (executemany q ps ;;; ret tt) s
  end.

(** The test of [_ensure_connected] (lines 129 and 130) on the connection
    [c], the clock being read at the next tick: there is no connection, or
    the time since the last use is greater than [max_idle_time]. *)
Definition is_stale (c : Connection) (e : env) : bool :=
  match _db c with
  | None => true
  | Some _ =>
      PrimFloat.ltb (max_idle_time c)
        (PrimFloat.sub (clock (ticks e)) (_last_use_time c))
  end.

(** What [close] does to [sqlite3] on the connection [c]. *)
Definition closes (c : Connection) : list event :=
  match _db c with
  | Some h => [EvClose h]
  | None => []
  end.

(** The connection [c] in the world [e] has been used, and is now [c'] in
    the world [e']: the clock was read, the last-use time is the last
    reading, and a stale connection was first closed and opened again. *)
Definition used (c : Connection) (e : env) (c' : Connection) (e' : env) : Prop :=
  database c' = database c /\
  ticks e < ticks e' /\
  connects e <= connects e' /\
  _last_use_time c' = clock (ticks e' - 1) /\
  (is_stale c e = true ->
     exists rest h,
       trace e' = (trace e ++ closes c ++
                   EvConnect (database c) (connects e) :: rest)%list /\
       _db c' = Some h /\ connects e <= h).

(** A computation that leaves the connection and the clock alone. *)
Definition quiet {A} (m : Op A) : Prop :=
  forall c e, exists r st rest,
    m (c, e) = (r, (c, {| ticks := ticks e; connects := connects e;
                          statements := st; trace := (trace e ++ rest)%list |})).

End Wrapper.

End Sqlite.

(** ** Concrete pages and a concrete library *)

Module Sample.

(** A post fragment: [<div class="l_post" data-field=PAYLOAD><cc><div
    class="d_post_content">TEXT</div></cc></div>]. *)
Definition post (payload : string) (txt : string) : element :=
  Element "div" [("class", "l_post"); ("data-field", payload)] None
    [Element "cc" [] None
       [Element "div" [("class", "d_post_content j_d_post_content")] (Some txt) [] None]
       None]
    None.

(** A detail page:
    [<html><body><div class="core"><h1 class="core_title_txt">TITLE</h1>
    POSTS</div></body></html>]. *)
Definition detail_page (ttl : string) (posts : list element) : element :=
  Element "html" [] None
    [Element "body" [] None
       [Element "div" [("class", "core")] None
          (Element "h1" [("class", "core_title_txt")] (Some ttl) [] None :: posts)
          None]
       None]
    None.

(** A listing entry:
    [<li class="j_thread_list"><a class="j_th_tit" href=HREF>t</a><span
    class="j_reply_data">DATE</span></li>]. *)
Definition entry (href : string) (date : string) : element :=
  Element "li" [("class", "j_thread_list clearfix")] None
    [Element "a" [("href", href); ("class", "j_th_tit")] (Some "t") [] None;
     Element "span" [("class", "j_reply_data")] (Some date) [] None]
    None.

(** A listing page, with the link to the next page when [next] gives its
    address. *)
Definition listing_page (entries : list element) (next : option string) : element :=
  Element "html" [] None
    [Element "body" [] None
       [Element "ul" [] None entries None;
        Element "div" [("class", "pager")] None
          match next with
          | Some href => [Element "a" [("href", href); ("class", "next")] (Some ">") [] None]
          | None => []
          end
          None]
       None]
    None.

(** The payload of a fragment: [{"author": AUTHOR, "content": {"date": DATE}}]. *)
Definition payload (author : list (string * pyvalue)) (date : string) : pyvalue :=
  PyDict [("author", PyDict author); ("content", PyDict [("date", PyStr date)])].

(** The payload texts of the sample pages, named after what they decode to;
    any other text is not JSON. *)
Definition sample_json_loads (s : option string) : result pyvalue :=
  match s with
  | None => Err TypeError
  | Some t =>
      if String.eqb t "{author:{id:1},content:{date:d1}}"
      then Ok (payload [("id", PyInt 1)] "d1")
      else if String.eqb t "{author:{id:1},content:{date:d2}}"
      then Ok (payload [("id", PyInt 1)] "d2")
      else if String.eqb t "{author:{id:2},content:{date:d3}}"
      then Ok (payload [("id", PyInt 2)] "d3")
      else if String.eqb t "{author:{id:1},content:{date:d4}}"
      then Ok (payload [("id", PyInt 1)] "d4")
      else if String.eqb t "{author:{},content:{date:d1}}"
      then Ok (payload [] "d1")
      else if String.eqb t "{author:{},content:{date:d2}}"
      then Ok (payload [] "d2")
      else if String.eqb t "{author:{},content:{date:d4}}"
      then Ok (payload [] "d4")
      else if String.eqb t "{author:{id:0,name:bob},content:{date:d1}}"
      then Ok (payload [("id", PyInt 0); ("name", PyStr "bob")] "d1")
      else Err ValueError
  end.

(** Two fragments of author 1, one of author 2, one more of author 1. *)
Definition page_AABA : element :=
  detail_page "Thread"
    [post "{author:{id:1},content:{date:d1}}" "one";
     post "{author:{id:1},content:{date:d2}}" "two";
     post "{author:{id:2},content:{date:d3}}" "three";
     post "{author:{id:1},content:{date:d4}}" "four"].

(** The same page, the author of the first, second and fourth fragment
    having neither an id nor a name. *)
Definition page_NNBN : element :=
  detail_page "Thread"
    [post "{author:{},content:{date:d1}}" "one";
     post "{author:{},content:{date:d2}}" "two";
     post "{author:{id:2},content:{date:d3}}" "three";
     post "{author:{},content:{date:d4}}" "four"].

(** A fragment of an author without id and name, then one of author 1. *)
Definition page_N1 : element :=
  detail_page "Thread"
    [post "{author:{},content:{date:d1}}" "one";
     post "{author:{id:1},content:{date:d2}}" "two"].

(** A fragment of author 1, one whose payload is not JSON, one more of
    author 1. *)
Definition page_1x1 : element :=
  detail_page "Thread"
    [post "{author:{id:1},content:{date:d1}}" "one";
     post "{author:" "broken";
     post "{author:{id:1},content:{date:d2}}" "two"].

(** A listing of two threads and a next page. *)
Definition listing_ok : element :=
  listing_page [entry "/p/1001" "10-01"; entry "/p/1002?pn=1" "10-02"]
    (Some "/f/good?kw=java&pn=50").

(** A listing whose first entry has no thread number in its address. *)
Definition listing_bad : element :=
  listing_page [entry "/f?kz=1001" "10-01"; entry "/p/1002" "10-02"] None.

(** A listing of one entry, with an address without a thread number. *)
Definition listing_bad1 : element :=
  listing_page [entry "/photo/p?kw=java" "10-03"] None.

(** The pages by their text. *)
Definition sample_etree_HTML (html : string) : result element :=
  if String.eqb html "AABA" then Ok page_AABA
  else if String.eqb html "NNBN" then Ok page_NNBN
  else if String.eqb html "N1" then Ok page_N1
  else if String.eqb html "1x1" then Ok page_1x1
  else if String.eqb html "listing_ok" then Ok listing_ok
  else if String.eqb html "listing_bad" then Ok listing_bad
  else if String.eqb html "listing_bad1" then Ok listing_bad1
  else Err (OtherError "XMLSyntaxError").

(** A database of tables and the rows of [page_items]. *)
Record sample_store : Type := {
  tables : list string;
  page_items : list (list pyvalue)
}.

(** The server: a table cannot be created twice, and rows go into a table
    that exists. *)
Definition sample_db_execute (q : string) (ps : list pyvalue) (s : sample_store)
  : result Z * sample_store :=
  if String.eqb q migrate_str then
    if existsb (String.eqb "page_items") (tables s)
    then (Err OperationalError, s)
    else (Ok 0%Z, {| tables := "page_items" :: tables s; page_items := page_items s |})
  else if String.eqb q insert_str then
    if existsb (String.eqb "page_items") (tables s)
    then (Ok (Z.of_nat (List.length (page_items s)) + 12)%Z,
          {| tables := tables s; page_items := (page_items s ++ [ps])%list |})
    else (Err OperationalError, s)
  else (Err OperationalError, s).

(** A codec for the sample bodies: a body holding the byte 255 is not valid
    in any encoding, and ["x-none"] names no codec. *)
Fixpoint drop_invalid (s : string) : string :=
  match s with
  | EmptyString => EmptyString
  | String c s' => if Ascii.eqb c "255"%char then drop_invalid s'
                   else String c (drop_invalid s')
  end.

Definition sample_decode (charset : string) (ignore : bool) (b : string)
  : result string :=
  if String.eqb (lower charset) "x-none" then Err LookupError
  else if String.eqb (drop_invalid b) b then Ok b
  else if ignore then Ok (drop_invalid b)
  else Err UnicodeDecodeError.

Definition ok_response (charset : string) (b : string) : response :=
  {| error := None;
     headers := [("Content-Type", "text/html; charset=" ++ charset)];
     body := b |}.

(** The site: the seed listing, a listing whose body is not valid UTF-8, a
    listing with a bad address. *)
Definition sample_http_fetch (u : string) : result response :=
  if String.eqb u "http://tieba.baidu.com/f/good?kw=java"
  then Ok (ok_response "GBK" "listing_ok")
  else if String.eqb u "http://tieba.baidu.com/f/good?kw=broken"
  then Ok (ok_response "utf-8" (String "255"%char "listing_ok"))
  else if String.eqb u "http://tieba.baidu.com/f/good?kw=bad"
  then Ok (ok_response "GBK" "listing_bad")
  else Err HTTPError.

(** The library of the samples; [arr] is the order in which the responses
    of the detail pages arrive. *)
Definition sample_library (arr : nat -> list (nat * response)) : Library :=
  {| store := sample_store;
     db_execute := sample_db_execute;
     etree_HTML := sample_etree_HTML;
     json_loads := sample_json_loads;
     decode := sample_decode;
     http_fetch := sample_http_fetch;
     fetch_refused := fun _ => false;
     arrivals := arr;
     to_gbk := fun s => Ok s;
     urllib_quote := fun s => s |}.

(** The state at the start of [main], and after [init_sqlite]. *)
Definition world0 (arr : nat -> list (nat * response)) : world (L := sample_library arr) :=
  {| stdout := []; PageItem_db := false;
     server := {| tables := []; page_items := [] |} : @store (sample_library arr);
     stopped := false; requests := 0; pending := []; loop_runs := 0; logged := [] |}.

Definition world1 (arr : nat -> list (nat * response)) : world (L := sample_library arr) :=
  {| stdout := []; PageItem_db := true;
     server := {| tables := ["page_items"]; page_items := [] |} : @store (sample_library arr);
     stopped := false; requests := 0; pending := []; loop_runs := 0; logged := [] |}.

Definition no_arrivals : nat -> list (nat * response) := fun _ => [].

(** The item of thread [n], as [parse_summary_page] makes it. *)
Definition item (n : Z) (u : string) : PageItem :=
  {| url := u; reply_date := Element "span" [("class", "j_reply_data")] (Some "10-01") [] None;
     page_num := n; title := None; content := None; created_at := None |}.

(** Two detail pages are fetched; the response of the second request
    arrives before that of the first. *)
Definition second_first : nat -> list (nat * response) :=
  fun n => match n with
           | O => [(1, ok_response "GBK" "AABA"); (0, ok_response "GBK" "N1")]
           | _ => []
           end.

Definition two_items : list PageItem :=
  [item 1001 "http://tieba.baidu.com/p/1001";
   item 1002 "http://tieba.baidu.com/p/1002"].

(** The loop's variables before the first fragment. *)
Definition vars0 : loop_vars :=
  {| main_author := PyNone; contents := []; lv_created_at := PyNone |}.

End Sample.

(** A clock that jumps eight hours after its first reading, and an
    [sqlite3] that opens every database and runs every statement. *)
Module SqliteSample.

Definition sample_sqlite3 : Sqlite.Sqlite3 :=
  {| Sqlite.clock := fun n => match n with
                              | 0 => 1000%float
                              | 1 => 29801.5%float
                              | _ => 29802%float
                              end;
     Sqlite.connect_error := fun _ _ => None;
     Sqlite.cursor_execute := fun _ _ n =>
       Return {| Sqlite.description := Some ["id"]; Sqlite.rows := [[PyInt 1]];
                 Sqlite.lastrowid := PyInt (Z.of_nat n) |};
     Sqlite.cursor_executemany := fun _ _ n =>
       Return {| Sqlite.description := None; Sqlite.rows := [];
                 Sqlite.lastrowid := PyInt (Z.of_nat n) |};
     Sqlite.commit_error := fun _ => None |}.

Definition env0 : Sqlite.env :=
  {| Sqlite.ticks := 0; Sqlite.connects := 0; Sqlite.statements := 0;
     Sqlite.trace := [] |}.

(** [Connection("bar.db")] at the start. *)
Definition fresh : Sqlite.Connection * Sqlite.env :=
  Sqlite.new_Connection (E := sample_sqlite3) "bar.db" "localhost"
    Sqlite.default_max_idle_time env0.

End SqliteSample.

(** ** Notions the statements below use *)

Section Views.

Context {L : Library}.

(** The world after [print] has written the lines [out]. *)
Definition add_stdout (out : list string) (w : world) : world :=
  {| stdout := (stdout w ++ out)%list; PageItem_db := PageItem_db w;
     server := server w; stopped := stopped w; requests := requests w;
     pending := pending w; loop_runs := loop_runs w; logged := logged w |}.

(** The address [parse_summary_page] gives the entry [li]: the fixed base
    address followed by the [href] of its first title link. *)
Definition entry_url (li : element) : option string :=
  match css (TagClass "a" "j_th_tit") li with
  | link :: _ => Some (base_url (get_attr link "href"))
  | [] => None
  end.

(** The reply-date node of the entry [li]. *)
Definition entry_reply_date (li : element) : option element :=
  match css (TagClass "span" "j_reply_data") li with
  | d :: _ => Some d
  | [] => None
  end.

(** The entry has a title link and a reply-date node. *)
Definition has_link_and_date (li : element) : bool :=
  match entry_url li, entry_reply_date li with
  | Some _, Some _ => true
  | _, _ => false
  end.

(** The [href] of the first title link of the entry [li]. *)
Definition entry_href (li : element) : option string :=
  match css (TagClass "a" "j_th_tit") li with
  | link :: _ => get_attr link "href"
  | [] => None
  end.

(** The address of the entry holds a thread number the pattern finds. *)
Definition has_thread_number (li : element) : bool :=
  match entry_url li with
  | Some u => match regex_num u with Some _ => true | None => false end
  | None => false
  end.

(** What [parse_summary_page] makes of an entry: the item of the entry
    [li]. *)
Definition item_of_entry (li : element) (it : PageItem) : Prop :=
  exists href,
    entry_href li = Some href /\
    url it = "http://tieba.baidu.com" ++ href /\
    entry_reply_date li = Some (reply_date it) /\
    _page_num (url it) = Return (page_num it).

(** The fragment [div] decodes to a payload whose author has the identity
    [uid] and whose content has the date [date]: lines 69 to 78 raise
    nothing on it. *)
Definition decodes (div : element) (uid date : pyvalue) : Prop :=
  exists data _content _author,
    json_loads (get_attr div "data-field") = Ok data /\
    py_getitem data "content" = Return _content /\
    py_getitem data "author" = Return _author /\
    user_id_of _author = Return uid /\
    py_getitem _content "date" = Return date.

(** The plain text of the fragment [div] (lines 83 and 84). *)
Definition fragment_text (div : element) : outcome string :=
  match first (css (Under "cc" "div" "d_post_content") div) with
  | Return post_content => Return (tostring_text post_content)
  | Raise e => Raise e
  | Blocks => Blocks
  end.

(** A fragment of the page with its date and its text. *)
Record fragment : Type := {
  f_node : element;
  f_date : pyvalue;
  f_text : string
}.

(** The fragment [f] decodes, its author is the main author [m] for
    Python's [!=], and its text is [f_text f]. *)
Definition of_author (m : pyvalue) (f : fragment) : Prop :=
  exists uid,
    decodes (f_node f) uid (f_date f) /\
    py_ne m uid = false /\
    fragment_text (f_node f) = Return (f_text f).

End Views.

(** ** Notions on addresses, responses and the event loop *)

(** Every character of [s] satisfies [f]. *)
Fixpoint all_chars (f : ascii -> bool) (s : string) : bool :=
  match s with
  | EmptyString => true
  | String c s' => f c && all_chars f s'
  end.

Definition not_newline (c : ascii) : bool := negb (is_newline c).

(** The text [p] occurs somewhere in [s]. *)
Fixpoint occurs (p s : string) : bool :=
  match strip_prefix p s with
  | Some _ => true
  | None => match s with
            | EmptyString => false
            | String _ s' => occurs p s'
            end
  end.

Definition starts_with_digit (s : string) : bool :=
  match s with
  | String c _ => is_digit c
  | EmptyString => false
  end.

Section LoopViews.

Context {L : Library}.

(** The fields of the world that belong to the event loop and to the class
    [PageItem] are the same in [w] and [w']: only the output and the
    database may differ. *)
Definition same_loop (w w' : world) : Prop :=
  PageItem_db w' = PageItem_db w /\
  stopped w' = stopped w /\
  requests w' = requests w /\
  pending w' = pending w /\
  loop_runs w' = loop_runs w /\
  logged w' = logged w.

(** [handle_request.__call__] gets as far as line 37 on the response: there
    is no error, the header is there and names a charset, and decoding
    returns or raises [UnicodeDecodeError] (which lines 29 to 35 catch). *)
Definition reaches_stop (resp : response) : bool :=
  match error resp with
  | Some _ => false
  | None =>
      match get_attr_in (headers resp) "Content-Type" with
      | None => false
      | Some content_type =>
          match regex_charset content_type with
          | None => false
          | Some charset =>
              match decode charset false (body resp) with
              | Ok _ => true
              | Err e => is_UnicodeDecodeError e
              end
          end
      end
  end.

(** The first response to request [id] among the arrivals. *)
Fixpoint first_arrival (id : nat) (arr : list (nat * response)) : option response :=
  match arr with
  | [] => None
  | (n, resp) :: arr' => if Nat.eqb n id then Some resp else first_arrival id arr'
  end.

(** The arrivals before the first response to request [id]. *)
Fixpoint arrivals_before (id : nat) (arr : list (nat * response)) : list (nat * response) :=
  match arr with
  | [] => []
  | (n, resp) :: arr' =>
      if Nat.eqb n id then [] else (n, resp) :: arrivals_before id arr'
  end.

(** The callback stops the loop on this response. *)
Definition stops (cb : callback) (resp : response) : bool :=
  cb_exit_flag cb && reaches_stop resp.

(** The waiting requests at the moment a callback stops the loop, when one
    does, the waiting requests being [p] at the start. *)
Fixpoint first_stop (arr : list (nat * response)) (p : list (nat * callback))
  : option (list (nat * callback)) :=
  match arr with
  | [] => None
  | (id, resp) :: arr' =>
      match take_pending id p with
      | None => first_stop arr' p
      | Some (cb, rest) => if stops cb resp then Some rest else first_stop arr' rest
      end
  end.

(** The requests the loop of [async_fetch] hands to the client when none is
    refused: the item at index [idx] gets the number [id]. *)
Fixpoint callbacks (n idx id : nat) (page_items : list PageItem) : list (nat * callback) :=
  match page_items with
  | [] => []
  | page_item :: rest =>
      (id, {| cb_item := page_item; cb_exit_flag := Nat.eqb n (idx + 1) |})
      :: callbacks n (S idx) (S id) rest
  end.

(** Among the waiting requests [p], the callback of request [last] is the
    one that stops the loop: it has the exit flag, and no other has. *)
Definition exit_at (last : nat) (p : list (nat * callback)) : Prop :=
  exists cb rest,
    take_pending last p = Some (cb, rest) /\
    cb_exit_flag cb = true /\
    Forall (fun q => cb_exit_flag (snd q) = false) rest.

(** An old request: it has a number below [n] and does not stop the loop. *)
Definition waits_below (n : nat) (q : nat * callback) : Prop :=
  fst q < n /\ cb_exit_flag (snd q) = false.

(** The entry has a title link, a reply date and a thread number. *)
Definition complete_entry (li : element) : bool :=
  has_link_and_date li && has_thread_number li.

(** Why the listing at [page_url] cannot be loaded, and the exception that
    comes of it in [fetch_summary_page] or in the unpacking of its result. *)
Inductive listing_fails (page_url : string) : exn -> Prop :=
| fetch_raises (e : exn) :
    http_fetch page_url = Err e ->
    listing_fails page_url e
| error_response (resp : response) (msg : string) :
    http_fetch page_url = Ok resp ->
    error resp = Some msg ->
    listing_fails page_url TypeError
| no_content_type (resp : response) :
    http_fetch page_url = Ok resp ->
    error resp = None ->
    get_attr_in (headers resp) "Content-Type" = None ->
    listing_fails page_url KeyError
| no_charset (resp : response) (content_type : string) :
    http_fetch page_url = Ok resp ->
    error resp = None ->
    get_attr_in (headers resp) "Content-Type" = Some content_type ->
    occurs "charset=" content_type = false ->
    listing_fails page_url AttributeError
| empty_text (resp : response) (content_type charset : string) :
    http_fetch page_url = Ok resp ->
    error resp = None ->
    get_attr_in (headers resp) "Content-Type" = Some content_type ->
    regex_charset content_type = Some charset ->
    decode charset false (body resp) = Ok "" ->
    listing_fails page_url TypeError
| not_a_document (resp : response) (content_type charset html : string) (e : exn) :
    http_fetch page_url = Ok resp ->
    error resp = None ->
    get_attr_in (headers resp) "Content-Type" = Some content_type ->
    regex_charset content_type = Some charset ->
    decode charset false (body resp) = Ok html ->
    html <> "" ->
    etree_HTML html = Err e ->
    listing_fails page_url e.

(** A fragment on which the body of the loop raises [e], the main author
    being [m]: the payload decodes but has no ["content"], or the fragment
    is of the main author and has no text node. *)
Inductive fragment_raises (m : pyvalue) (div : element) (e : exn) : Prop :=
| payload_without_content (data : pyvalue) :
    json_loads (get_attr div "data-field") = Ok data ->
    py_getitem data "content" = Raise e ->
    fragment_raises m div e
| fragment_without_text (uid date : pyvalue) :
    decodes div uid date ->
    py_ne m uid = false ->
    fragment_text div = Raise e ->
    fragment_raises m div e.

End LoopViews.

(** ** Notions on rows and on the trace of a connection *)

(** [dict(pairs)[name]]: of the pairs with the key [name] the last one
    counts. *)
Fixpoint last_binding (pairs : list (string * pyvalue)) (name : string)
  : option pyvalue :=
  match pairs with
  | [] => None
  | (k, v) :: rest =>
      match last_binding rest name with
      | Some v' => Some v'
      | None => if String.eqb name k then Some v else None
      end
  end.

(** [Row.__getattr__]: [self[name]], with [AttributeError] for the
    [KeyError] of a name that is no column. *)
Definition Row__getattr__ (self : list (string * pyvalue)) (name : string)
  : outcome pyvalue :=
  match last_binding self name with
  | Some v => Return v
  | None => Raise AttributeError
  end.

Definition is_commit (ev : Sqlite.event) : bool :=
  match ev with Sqlite.EvCommit _ => true | _ => false end.

Definition is_cursor (ev : Sqlite.event) : bool :=
  match ev with Sqlite.EvCursor _ => true | _ => false end.

Definition is_cursor_close (ev : Sqlite.event) : bool :=
  match ev with Sqlite.EvCursorClose _ => true | _ => false end.

(** [sqlite3.connect] and [close] of a connection. *)
Definition is_connection_event (ev : Sqlite.event) : bool :=
  match ev with
  | Sqlite.EvClose _ | Sqlite.EvConnect _ _ => true
  | _ => false
  end.

(** The operations that test the connection once: all but [iter], which
    calls [_ensure_connected] itself before [_cursor] does. *)
Definition checks_once (op : Sqlite.operation) : bool :=
  match op with
  | Sqlite.Iter _ _ => false
  | _ => true
  end.

(** The operations that close the cursor they have opened: all but [query]
    and [get]. *)
Definition closes_its_cursor (op : Sqlite.operation) : bool :=
  match op with
  | Sqlite.Query _ _ | Sqlite.Get _ _ => false
  | _ => true
  end.

(** What [_execute] logs when the statement raises [x]. *)
Definition logs (c : Sqlite.Connection) (x : exn) : list Sqlite.event :=
  if Sqlite.is_OperationalError x
  then [Sqlite.EvLogError ("Error connecting to SQLite3 on " ++ Sqlite.host c)]
  else [].

(** The connection [c], used at the time [t]. *)
Definition used_at (t : float) (c : Sqlite.Connection) : Sqlite.Connection :=
  {| Sqlite.host := Sqlite.host c; Sqlite.database := Sqlite.database c;
     Sqlite.max_idle_time := Sqlite.max_idle_time c; Sqlite._db := Sqlite._db c;
     Sqlite._last_use_time := t |}.

(** The connection [c], closed. *)
Definition closed (c : Sqlite.Connection) : Sqlite.Connection :=
  {| Sqlite.host := Sqlite.host c; Sqlite.database := Sqlite.database c;
     Sqlite.max_idle_time := Sqlite.max_idle_time c; Sqlite._db := None;
     Sqlite._last_use_time := Sqlite._last_use_time c |}.

Section TraceViews.

Context {E : Sqlite.Sqlite3}.

(** From every state, what the computation [m] adds to the trace satisfies
    [P]. *)
Definition emits {A} (P : Sqlite.event -> bool) (m : Sqlite.Op A) : Prop :=
  forall s, exists added,
    Sqlite.trace (snd (snd (m s))) = (Sqlite.trace (snd s) ++ added)%list /\
    forallb P added = true.

(** The computation [m] leaves the connection and the clock alone, and
    what it adds to the trace satisfies [P]. *)
Definition calm {A} (P : Sqlite.event -> bool) (m : Sqlite.Op A) : Prop :=
  forall c e, exists r st rest,
    m (c, e) = (r, (c, {| Sqlite.ticks := Sqlite.ticks e;
                          Sqlite.connects := Sqlite.connects e;
                          Sqlite.statements := st;
                          Sqlite.trace := (Sqlite.trace e ++ rest)%list |})) /\
    forallb P rest = true.

(** The result of a statement whose rows are read: the exception of the
    statement or of its commit; after them [TypeError] when the cursor has no
    description; and else the rows as [Row]s. *)
Definition rows_of_statement (q : string) (parameters : list pyvalue) (n : nat)
  : outcome (list (list (string * pyvalue))) :=
  match Sqlite.cursor_execute q parameters n with
  | Return r =>
      match Sqlite.commit_error n with
      | None =>
          match Sqlite.description r with
          | Some column_names => Return (map (Sqlite.Row column_names) (Sqlite.rows r))
          | None => Raise TypeError
          end
      | Some x => Raise x
      end
  | Raise x => Raise x
  | Blocks => Blocks
  end.

End TraceViews.

(** ** Pages, a client and an [sqlite3] with faults *)

Module Faulty.

(** A fragment without a text node: [<div class="l_post"
    data-field=PAYLOAD></div>]. *)
Definition bare_post (payload : string) : element :=
  Element "div" [("class", "l_post"); ("data-field", payload)] None [] None.

(** Two fragments of author 1, the second without a text node. *)
Definition page_no_text : element :=
  Sample.detail_page "Thread"
    [Sample.post "{author:{id:1},content:{date:d1}}" "one";
     bare_post "{author:{id:1},content:{date:d2}}"].

(** A page whose [div.core] holds a fragment and no title. *)
Definition page_no_title : element :=
  Element "html" [] None
    [Element "body" [] None
       [Element "div" [("class", "core")] None
          [Sample.post "{author:{id:1},content:{date:d1}}" "one"]
          None]
       None]
    None.

Definition faulty_etree_HTML (html : string) : result element :=
  if String.eqb html "no_text" then Ok page_no_text
  else if String.eqb html "no_title" then Ok page_no_title
  else Sample.sample_etree_HTML html.

(** The sample library with these pages, and with a client that refuses
    the address of thread 0. *)
Definition faulty_library (arr : nat -> list (nat * response)) : Library :=
  {| store := Sample.sample_store;
     db_execute := Sample.sample_db_execute;
     etree_HTML := faulty_etree_HTML;
     json_loads := Sample.sample_json_loads;
     decode := Sample.sample_decode;
     http_fetch := Sample.sample_http_fetch;
     fetch_refused := fun u => String.eqb u "http://tieba.baidu.com/p/0";
     arrivals := arr;
     to_gbk := fun s => Ok s;
     urllib_quote := fun s => s |}.

(** The state after [init_sqlite]. *)
Definition world1 (arr : nat -> list (nat * response)) : world (L := faulty_library arr) :=
  {| stdout := []; PageItem_db := true;
     server := {| Sample.tables := ["page_items"]; Sample.page_items := [] |}
               : @store (faulty_library arr);
     stopped := false; requests := 0; pending := []; loop_runs := 0; logged := [] |}.

(** Every response arrives, in the order of the requests. *)
Definition in_order : nat -> list (nat * response) :=
  fun n => match n with
           | O => [(0, Sample.ok_response "GBK" "AABA");
                   (1, Sample.ok_response "GBK" "N1")]
           | _ => []
           end.

(** An [sqlite3] that cannot open [/missing/bar.db] and on which a
    statement on the table [missing] raises [OperationalError] and one on
    the table [busy] never returns; the query on the table [t] gives one
    row, and any other statement gives none and leaves no description; the
    clock stands still. *)
Definition faulty_sqlite3 : Sqlite.Sqlite3 :=
  {| Sqlite.clock := fun _ => 1000%float;
     Sqlite.connect_error := fun d _ =>
       if String.eqb d "/missing/bar.db" then Some OperationalError else None;
     Sqlite.cursor_execute := fun q _ n =>
       if String.eqb q "select * from missing" then Raise OperationalError
       else if String.eqb q "select * from busy" then Blocks
       else if String.eqb q "select * from t"
       then Return {| Sqlite.description := Some ["id"; "name"];
                      Sqlite.rows := [[PyInt 1; PyStr "a"]];
                      Sqlite.lastrowid := PyInt (Z.of_nat n) |}
       else Return {| Sqlite.description := None; Sqlite.rows := [];
                      Sqlite.lastrowid := PyInt (Z.of_nat n) |};
     Sqlite.cursor_executemany := fun _ _ n =>
       Return {| Sqlite.description := None; Sqlite.rows := [];
                 Sqlite.lastrowid := PyInt (Z.of_nat n) |};
     Sqlite.commit_error := fun _ => None |}.

(** [Connection("bar.db")] and [Connection("/missing/bar.db")] on it. *)
Definition live : Sqlite.Connection * Sqlite.env :=
  Sqlite.new_Connection (E := faulty_sqlite3) "bar.db" "localhost"
    Sqlite.default_max_idle_time SqliteSample.env0.

Definition dead : Sqlite.Connection * Sqlite.env :=
  Sqlite.new_Connection (E := faulty_sqlite3) "/missing/bar.db" "localhost"
    Sqlite.default_max_idle_time SqliteSample.env0.

End Faulty.

(** ** A site whose header has a parameter after the charset *)

Module Codecs.

(** The names, in lower case, under which Python finds the codecs of the
    sample bodies; [body.decode] raises [LookupError] on any other name. *)
Definition known (name : string) : bool :=
  existsb (String.eqb (lower name)) ["gbk"; "gb18030"; "utf-8"; "utf8"].

Definition codec_decode (charset : string) (ignore : bool) (b : string)
  : result string :=
  if known charset then Sample.sample_decode charset ignore b else Err LookupError.


(** A response that declares the charset [gbk] and goes on with a
    parameter, and one that declares it between quotes. *)
Definition with_parameter (b : string) : response :=
  {| error := None;
     headers := [("Content-Type", "text/html; charset=gbk; q=1")];
     body := b |}.


(** The sample site, with a listing under the first of these headers. *)
Definition site (u : string) : result response :=
  if String.eqb u "http://tieba.baidu.com/f/good?kw=param"
  then Ok (with_parameter "listing_ok")
  else Sample.sample_http_fetch u.

Definition library (arr : nat -> list (nat * response)) : Library :=
  {| store := Sample.sample_store;
     db_execute := Sample.sample_db_execute;
     etree_HTML := Sample.sample_etree_HTML;
     json_loads := Sample.sample_json_loads;
     decode := codec_decode;
     http_fetch := site;
     fetch_refused := fun _ => false;
     arrivals := arr;
     to_gbk := fun s => Ok s;
     urllib_quote := fun s => s |}.

(** The state at the start of [main], and after [init_sqlite]. *)
Definition world0 (arr : nat -> list (nat * response)) : world (L := library arr) :=
  {| stdout := []; PageItem_db := false;
     server := {| Sample.tables := []; Sample.page_items := [] |}
               : @store (library arr);
     stopped := false; requests := 0; pending := []; loop_runs := 0; logged := [] |}.

Definition world1 (arr : nat -> list (nat * response)) : world (L := library arr) :=
  {| stdout := []; PageItem_db := true;
     server := {| Sample.tables := ["page_items"]; Sample.page_items := [] |}
               : @store (library arr);
     stopped := false; requests := 0; pending := []; loop_runs := 0; logged := [] |}.

End Codecs.

(** ** Facts about the crawler *)

Section CrawlerFacts.

Context {L : Library}.

Notation "x <- c ;; k" := (bind c (fun x => k))
  (at level 61, c at next level, right associativity).
Notation "c ;;; k" := (bind c (fun _ => k))
  (at level 61, right associativity).

Lemma add_stdout_nil (w : world) : add_stdout [] w = w.
Proof. destruct w; unfold add_stdout; simpl; rewrite app_nil_r; reflexivity. Qed.

Lemma add_stdout_app (o1 o2 : list string) (w : world) :
  add_stdout o2 (add_stdout o1 w) = add_stdout (o1 ++ o2)%list w.
Proof. unfold add_stdout; simpl; rewrite app_assoc; reflexivity. Qed.

Lemma print_add_stdout (line : string) (w : world) :
  print line w = (Return tt, add_stdout [line] w).
Proof. reflexivity. Qed.

(** An iteration of the loop touches the world through [print] alone: its
    result and its output are those of the fragment and the loop's
    variables. *)
Lemma post_body_output (div : element) (v : loop_vars) :
  exists r out, forall w : world, post_body div v w = (r, add_stdout out w).
Proof.
  unfold post_body.
  destruct (json_loads (get_attr div "data-field")) as [data | e].
  - unfold bind, lift, ret.
    destruct (py_getitem data "content") as [c | e | ];
      [ | eexists; exists []; intro w; rewrite add_stdout_nil; reflexivity .. ].
    destruct (py_getitem data "author") as [a | e | ];
      [ | eexists; exists []; intro w; rewrite add_stdout_nil; reflexivity .. ].
    destruct (user_id_of a) as [i | e | ];
      [ | eexists; exists []; intro w; rewrite add_stdout_nil; reflexivity .. ].
    destruct (py_getitem c "date") as [d | e | ];
      [ | eexists; exists []; intro w; rewrite add_stdout_nil; reflexivity .. ].
    destruct (py_ne _ _);
      [ eexists; exists []; intro w; rewrite add_stdout_nil; reflexivity | ].
    destruct (first _) as [p | e | ];
      eexists; exists []; intro w; rewrite add_stdout_nil; reflexivity.
  - exists (Return (Next, v)), ["Parse json error"]. intro w. reflexivity.
Qed.

Lemma for_each_output (l : list element) :
  forall v : loop_vars,
  exists r out, forall w : world, for_each post_body l v w = (r, add_stdout out w).
Proof.
  induction l as [ | x l IH]; intro v.
  - exists (Return v), []. intro w. rewrite add_stdout_nil. reflexivity.
  - destruct (post_body_output x v) as (r & out & Hx).
    destruct r as [[[ | ] v'] | e | ].
    + destruct (IH v') as (r2 & out2 & Hl).
      exists r2, (out ++ out2)%list. intro w.
      simpl. unfold bind. rewrite Hx, Hl, add_stdout_app. reflexivity.
    + exists (Return v'), out. intro w. simpl. unfold bind. rewrite Hx. reflexivity.
    + exists (Raise e), out. intro w. simpl. unfold bind. rewrite Hx. reflexivity.
    + exists Blocks, out. intro w. simpl. unfold bind. rewrite Hx. reflexivity.
Qed.

(** What the loop computes does not depend on the world it starts in. *)
Lemma for_each_result_any_world (l : list element) (v : loop_vars) (w w' : world) :
  fst (for_each post_body l v w) = fst (for_each post_body l v w').
Proof.
  destruct (for_each_output l v) as (r & out & H).
  rewrite (H w), (H w'). reflexivity.
Qed.

(** C6. A post fragment whose payload [json.loads] cannot decode is skipped:
    the iteration prints its message, leaves the variables of the loop as
    they are and goes on to the next fragment, so the loop carries on with
    the remaining fragments; and wherever the fragment stands on the page,
    the loop ends as it does on the page without it. *)
Theorem undecodable_fragment_is_skipped :
  forall (pre : list element) (bad : element) (rest : list element)
         (v : loop_vars) (w : world),
    failed (json_loads (get_attr bad "data-field")) = true ->
    post_body bad v w = (Return (Next, v), add_stdout ["Parse json error"] w) /\
    for_each post_body (bad :: rest) v w =
      for_each post_body rest v (add_stdout ["Parse json error"] w) /\
    fst (for_each post_body (pre ++ bad :: rest) v w) =
      fst (for_each post_body (pre ++ rest) v w).
Proof.
  intros pre bad rest v w Hbad.
  assert (Hstep : forall v0 w0,
             post_body bad v0 w0 = (Return (Next, v0), add_stdout ["Parse json error"] w0)).
  { intros v0 w0. unfold post_body.
    destruct (json_loads (get_attr bad "data-field")); try discriminate.
    reflexivity. }
  assert (Hloop : forall v0 w0,
             for_each post_body (bad :: rest) v0 w0 =
             for_each post_body rest v0 (add_stdout ["Parse json error"] w0)).
  { intros v0 w0. simpl. unfold bind. rewrite Hstep. reflexivity. }
  split; [apply Hstep | split; [apply Hloop | ]].
  revert v w. induction pre as [ | x pre IH]; intros v w.
  - simpl app. rewrite Hloop. apply for_each_result_any_world.
  - simpl. unfold bind.
    destruct (post_body x v w) as [[[[ | ] v'] | e | ] w1]; try reflexivity.
    apply IH.
Qed.

Lemma summary_loop_app (a b : list element) (acc : list PageItem) :
  summary_loop (a ++ b) acc =
  match summary_loop a acc with
  | Return acc' => summary_loop b acc'
  | Raise e => Raise e
  | Blocks => Blocks
  end.
Proof.
  revert acc. induction a as [ | x a IH]; intro acc; simpl.
  - reflexivity.
  - destruct (summary_body x acc); auto.
Qed.

(** An entry with a title link and a date whose address holds no thread
    number: the constructor of its item raises, and so does the iteration. *)
Lemma summary_body_without_number (li : element) (acc : list PageItem) :
  has_link_and_date li = true ->
  has_thread_number li = false ->
  summary_body li acc = Raise AttributeError.
Proof.
  unfold has_link_and_date, has_thread_number, entry_url, entry_reply_date,
    summary_body, new_PageItem, _page_num.
  destruct (css (TagClass "a" "j_th_tit") li) as [ | link ?]; [discriminate | ].
  destruct (css (TagClass "span" "j_reply_data") li) as [ | d ?]; [discriminate | ].
  cbn [first].
  destruct (regex_num (base_url (get_attr link "href"))); [discriminate | reflexivity].
Qed.

(** The loop of [parse_summary_page] ends with an exception once an entry
    with a title link and a date has an address without a thread number,
    be it the exception of an entry before it. *)
Lemma summary_loop_raises (l : list element) (bad : element) :
  In bad l ->
  has_link_and_date bad = true ->
  has_thread_number bad = false ->
  forall acc, exists e, summary_loop l acc = Raise e.
Proof.
  intros Hin Hld Hnum. induction l as [ | li l IH]; [contradiction | ].
  intro acc. cbn [summary_loop].
  destruct Hin as [Heq | Hin].
  - subst li. rewrite (summary_body_without_number bad acc Hld Hnum). eauto.
  - destruct (summary_body li acc) as [acc' | e | ] eqn:Hbody.
    + apply IH. exact Hin.
    + eauto.
    + exfalso. revert Hbody. unfold summary_body, new_PageItem, _page_num.
      destruct (first (css (TagClass "a" "j_th_tit") li)) as [link | | ] eqn:Hl;
        try discriminate.
      * destruct (first (css (TagClass "span" "j_reply_data") li)) as [d | | ] eqn:Hd;
          try discriminate.
        -- destruct (regex_num (base_url (get_attr link "href"))); discriminate.
        -- destruct (css (TagClass "span" "j_reply_data") li); discriminate.
      * destruct (css (TagClass "a" "j_th_tit") li); discriminate.
Qed.

(** C3, as the code has it.  An entry of a listing (with a title link and
    a reply-date node) whose address holds no thread number for the pattern
    [.+/p/(\d+)] is not skipped: building its page item raises
    [AttributeError] in [_page_num], nothing in [parse_summary_page] catches
    it, and the listing parse ends with an exception, whatever entries stand
    before and after it: no page item of the listing is returned.  When the
    entries before it are in order, the exception is that
    [AttributeError]. *)
Theorem address_without_number_aborts_listing :
  forall (html : string) (doc : element) (bad : element) (w : world),
    etree_HTML html = Ok doc ->
    In bad (css (TagClass "li" "j_thread_list") doc) ->
    has_link_and_date bad = true ->
    has_thread_number bad = false ->
    (exists u, entry_url bad = Some u /\ _page_num u = Raise AttributeError /\
               forall rd, new_PageItem u rd = Raise AttributeError) /\
    (exists e, parse_summary_page html w = (Raise e, w)) /\
    (forall pre post items,
        css (TagClass "li" "j_thread_list") doc = (pre ++ bad :: post)%list ->
        summary_loop pre [] = Return items ->
        parse_summary_page html w = (Raise AttributeError, w)).
Proof.
  intros html doc bad w Hdoc Hin Hld Hnum. split; [ | split].
  - unfold has_link_and_date, has_thread_number in *.
    destruct (entry_url bad) as [u | ]; [ | discriminate].
    exists u. unfold new_PageItem, _page_num.
    destruct (regex_num u); [discriminate | ]. auto.
  - destruct (summary_loop_raises _ bad Hin Hld Hnum []) as (e & He).
    exists e. unfold parse_summary_page, bind, lift. rewrite Hdoc. cbn [of_result].
    rewrite He. reflexivity.
  - intros pre post items Hli Hpre.
    unfold parse_summary_page, bind, lift. rewrite Hdoc. cbn [of_result]. rewrite Hli.
    rewrite summary_loop_app, Hpre. simpl.
    rewrite (summary_body_without_number bad items Hld Hnum). reflexivity.
Qed.

Lemma base_url_None_no_number : regex_num (base_url None) = None.
Proof. vm_compute. reflexivity. Qed.

Lemma summary_body_numbered (li : element) (acc : list PageItem) :
  has_link_and_date li && has_thread_number li = true ->
  exists it, summary_body li acc = Return (acc ++ [it])%list /\ item_of_entry li it.
Proof.
  unfold item_of_entry, has_link_and_date, has_thread_number, entry_url,
    entry_reply_date, entry_href, summary_body, new_PageItem, _page_num.
  destruct (css (TagClass "a" "j_th_tit") li) as [ | link ?]; [discriminate | ].
  destruct (css (TagClass "span" "j_reply_data") li) as [ | d ?]; [discriminate | ].
  cbn [first andb].
  destruct (get_attr link "href") as [href | ] eqn:Hhref.
  - destruct (regex_num (base_url (Some href))) as [ds | ] eqn:Hnum; [ | discriminate].
    intros _. eexists. split; [reflexivity | ].
    exists href. cbn [url reply_date page_num].
    rewrite Hnum. auto.
  - rewrite base_url_None_no_number. discriminate.
Qed.

Lemma summary_loop_numbered (l : list element) :
  forallb (fun li => has_link_and_date li && has_thread_number li) l = true ->
  forall acc, exists items,
    summary_loop l acc = Return (acc ++ items)%list /\
    Forall2 item_of_entry l items.
Proof.
  induction l as [ | li l IH]; intros Hall acc.
  - exists []. rewrite app_nil_r. split; [reflexivity | constructor].
  - simpl in Hall. apply andb_prop in Hall. destruct Hall as [Hli Hl].
    destruct (summary_body_numbered li acc Hli) as (it & Hbody & Hit).
    destruct (IH Hl (acc ++ [it])%list) as (items & Hloop & Hitems).
    exists (it :: items). simpl. rewrite Hbody, Hloop.
    rewrite <- app_assoc. split; [reflexivity | constructor; assumption].
Qed.

(** C5, as the code has it.  For a listing document whose N entries (the
    [li.j_thread_list] nodes) each have a title link, a reply-date node and
    an address in which the pattern finds a thread number,
    [parse_summary_page] returns exactly N page items, in the order of the
    entries, the address of each being the fixed base address followed by
    the entry's [href]; and the next address it returns is not [None]
    exactly when the document has an [a.next] node, whose [href] it then
    is, after the base address. *)
Theorem listing_of_numbered_entries :
  forall (html : string) (doc : element) (w : world),
    etree_HTML html = Ok doc ->
    forallb (fun li => has_link_and_date li && has_thread_number li)
            (css (TagClass "li" "j_thread_list") doc) = true ->
    exists next items,
      parse_summary_page html w = (Return (next, items), w) /\
      List.length items = List.length (css (TagClass "li" "j_thread_list") doc) /\
      Forall2 item_of_entry (css (TagClass "li" "j_thread_list") doc) items /\
      (next <> None <-> css (TagClass "a" "next") doc <> []) /\
      next = match css (TagClass "a" "next") doc with
             | l :: _ => Some (base_url (get_attr l "href"))
             | [] => None
             end.
Proof.
  intros html doc w Hdoc Hall.
  destruct (summary_loop_numbered _ Hall []) as (items & Hloop & Hitems).
  change ([] ++ items)%list with items in Hloop.
  exists (match css (TagClass "a" "next") doc with
          | l :: _ => Some (base_url (get_attr l "href"))
          | [] => None
          end), items.
  split; [ | split; [ | split; [exact Hitems | split; [ | reflexivity]]]].
  - unfold parse_summary_page, bind, lift, ret. rewrite Hdoc. cbn [of_result]. rewrite Hloop. reflexivity.
  - symmetry. eapply Forall2_length. exact Hitems.
  - destruct (css (TagClass "a" "next") doc); split; intro H;
      try discriminate; try congruence.
Qed.

(** The last element of a list that is not empty does not depend on the
    default. *)
Lemma last_cons_default {A} (x : A) (l : list A) (d : A) :
  List.last (x :: l) d = List.last l x.
Proof.
  revert x d. induction l as [ | y l IH]; intros x d; [reflexivity | ].
  change (List.last (x :: y :: l) d) with (List.last (y :: l) d).
  rewrite (IH y d), (IH y x). reflexivity.
Qed.

(** An iteration on a fragment that decodes: the main author is set if it
    was [None], the date is recorded, and then the authors are compared. *)
Lemma post_body_decoded (div : element) (uid date : pyvalue) (v : loop_vars) (w : world) :
  decodes div uid date ->
  post_body div v w =
  (let m := if is_None (main_author v) then uid else main_author v in
   if py_ne m uid
   then Return (Break, {| main_author := m; contents := contents v;
                          lv_created_at := date |})
   else match fragment_text div with
        | Return t => Return (Next, {| main_author := m;
                                       contents := (contents v ++ [t])%list;
                                       lv_created_at := date |})
        | Raise e => Raise e
        | Blocks => Blocks
        end, w).
Proof.
  intros (data & c & a & Hd & Hc & Ha & Hu & Hdate).
  unfold post_body, fragment_text. rewrite Hd.
  unfold bind, lift, ret. rewrite Hc, Ha, Hu, Hdate. cbv zeta.
  destruct (py_ne _ uid); [reflexivity | ].
  destruct (first _); reflexivity.
Qed.

(** The loop over fragments of the main author [m] appends their texts and
    keeps the date of the last of them. *)
Lemma for_each_of_author (m : pyvalue) (same : list fragment) (rest : list element) :
  m <> PyNone ->
  Forall (of_author m) same ->
  forall (v : loop_vars) (w : world),
    main_author v = m ->
    for_each post_body (map f_node same ++ rest) v w =
    for_each post_body rest
      {| main_author := m;
         contents := (contents v ++ map f_text same)%list;
         lv_created_at := List.last (map f_date same) (lv_created_at v) |} w.
Proof.
  intros Hm Hall. induction Hall as [ | f same Hf Hsame IH]; intros v w Hv.
  - simpl. rewrite app_nil_r. destruct v; simpl in *; subst; reflexivity.
  - destruct Hf as (uid & Hdec & Hsame_author & Htext).
    cbn [map app for_each]. unfold bind at 1.
    rewrite (post_body_decoded _ _ _ v w Hdec). cbv zeta.
    rewrite Hv.
    assert (HnotNone : is_None m = false)
      by (destruct m; [exfalso; apply Hm; reflexivity | reflexivity ..]).
    rewrite HnotNone, Hsame_author, Htext.
    rewrite IH by reflexivity. cbn [contents lv_created_at].
    rewrite <- app_assoc. cbn [app map].
    rewrite last_cons_default. reflexivity.
Qed.

(** The loop over fragments whose author has the identity [None], while
    the main author is not set: they are fused, and it stays unset. *)
Lemma for_each_of_no_author (nones : list fragment) (rest : list element) :
  Forall (of_author PyNone) nones ->
  forall (v : loop_vars) (w : world),
    main_author v = PyNone ->
    for_each post_body (map f_node nones ++ rest) v w =
    for_each post_body rest
      {| main_author := PyNone;
         contents := (contents v ++ map f_text nones)%list;
         lv_created_at := List.last (map f_date nones) (lv_created_at v) |} w.
Proof.
  intros Hall. induction Hall as [ | f nones Hf Hnones IH]; intros v w Hv.
  - simpl. rewrite app_nil_r. destruct v; simpl in *; subst; reflexivity.
  - destruct Hf as (uid & Hdec & Hsame_author & Htext).
    assert (Huid : uid = PyNone)
      by (destruct uid; try reflexivity; discriminate Hsame_author).
    subst uid.
    cbn [map app for_each]. unfold bind at 1.
    rewrite (post_body_decoded _ _ _ v w Hdec). cbv zeta.
    rewrite Hv. cbn [is_None]. rewrite Hsame_author, Htext.
    rewrite IH by reflexivity. cbn [contents lv_created_at].
    rewrite <- app_assoc. cbn [app map].
    rewrite last_cons_default. reflexivity.
Qed.

(** X1. The identity of an author object is its [id] when that is there
    and true for Python, and else its [name], [None] when there is none.
    An author without identity never becomes the main author: as long as the
    main author is not set, every fragment of such an author is fused and
    leaves it unset, and the first fragment of an author with an identity is
    fused as well and makes that author the main author, whatever came
    before it. *)
Theorem author_identity_is_id_or_name :
  (forall (author : list (string * pyvalue)),
      user_id_of (PyDict author) =
      Return (match dict_get author "id" with
              | Some id =>
                  if truthy id then id
                  else match dict_get author "name" with
                       | Some name => name
                       | None => PyNone
                       end
              | None =>
                  match dict_get author "name" with
                  | Some name => name
                  | None => PyNone
                  end
              end)) /\
  (forall (nones : list fragment) (rest : list element) (v : loop_vars) (w : world),
      main_author v = PyNone ->
      Forall (of_author PyNone) nones ->
      for_each post_body (map f_node nones ++ rest) v w =
      for_each post_body rest
        {| main_author := PyNone;
           contents := (contents v ++ map f_text nones)%list;
           lv_created_at := List.last (map f_date nones) (lv_created_at v) |} w /\
      (forall (f : fragment) (uid : pyvalue),
          decodes (f_node f) uid (f_date f) ->
          py_ne uid uid = false ->
          fragment_text (f_node f) = Return (f_text f) ->
          for_each post_body (map f_node nones ++ f_node f :: rest) v w =
          for_each post_body rest
            {| main_author := uid;
               contents := (contents v ++ map f_text nones ++ [f_text f])%list;
               lv_created_at := f_date f |} w)).
Proof.
  split.
  - intro author. unfold user_id_of, py_get.
    destruct (dict_get author "id") as [id | ].
    + destruct (truthy id); [reflexivity | ].
      destruct (dict_get author "name"); reflexivity.
    + cbn [truthy]. destruct (dict_get author "name"); reflexivity.
  - intros nones rest v w Hv Hnones. split.
    + exact (for_each_of_no_author nones rest Hnones v w Hv).
    + intros f uid Hdec Hrefl Htext.
      rewrite (for_each_of_no_author nones (f_node f :: rest) Hnones v w Hv).
      cbn [for_each]. unfold bind at 1.
      rewrite (post_body_decoded _ _ _ _ w Hdec). cbv zeta.
      cbn [main_author is_None contents]. rewrite Hrefl, Htext.
      rewrite <- app_assoc. reflexivity.
Qed.

(** X2. On a page whose first fragment that decodes has an identity [m]
    other than [None], the loop fuses exactly the fragments up to the first
    one of another author: the contents are the texts of that prefix, in
    order.  The date it keeps is that of the last fragment of the prefix
    when no fragment of another author follows, and that of the first
    fragment of another author when one does, whatever comes after it. *)
Theorem same_author_prefix_is_fused :
  forall (m : pyvalue) (f1 : fragment) (same : list fragment) (w : world),
    m <> PyNone ->
    decodes (f_node f1) m (f_date f1) ->
    py_ne m m = false ->
    fragment_text (f_node f1) = Return (f_text f1) ->
    Forall (of_author m) same ->
    fst (for_each post_body (map f_node (f1 :: same))
           {| main_author := PyNone; contents := []; lv_created_at := PyNone |} w) =
      Return {| main_author := m;
                contents := map f_text (f1 :: same);
                lv_created_at := List.last (map f_date same) (f_date f1) |} /\
    (forall (other : element) (uid date : pyvalue) (rest : list element),
        decodes other uid date ->
        py_ne m uid = true ->
        fst (for_each post_body (map f_node (f1 :: same) ++ other :: rest)
               {| main_author := PyNone; contents := []; lv_created_at := PyNone |} w) =
          Return {| main_author := m;
                    contents := map f_text (f1 :: same);
                    lv_created_at := date |}).
Proof.
  intros m f1 same w Hm Hdec Hrefl Htext Hsame.
  assert (Hfirst : forall rest,
             for_each post_body (map f_node (f1 :: same) ++ rest)
               {| main_author := PyNone; contents := []; lv_created_at := PyNone |} w =
             for_each post_body rest
               {| main_author := m; contents := map f_text (f1 :: same);
                  lv_created_at := List.last (map f_date same) (f_date f1) |} w).
  { intro rest. cbn [map app for_each]. unfold bind at 1.
    rewrite (post_body_decoded _ _ _ _ w Hdec). cbv zeta.
    cbn [main_author is_None contents app]. rewrite Hrefl, Htext.
    rewrite (for_each_of_author m same rest Hm Hsame) by reflexivity.
    reflexivity. }
  split.
  - rewrite <- (app_nil_r (map f_node (f1 :: same))). rewrite Hfirst. reflexivity.
  - intros other uid date rest Hother Hne.
    rewrite Hfirst. cbn [for_each]. unfold bind.
    rewrite (post_body_decoded _ _ _ _ w Hother). cbv zeta.
    cbn [main_author contents].
    assert (HnotNone : is_None m = false)
      by (destruct m; [exfalso; apply Hm; reflexivity | reflexivity ..]).
    rewrite HnotNone, Hne. reflexivity.
Qed.

(** [init_sqlite] returns, whatever the server makes of the statement. *)
Lemma init_sqlite_returns (w : world) :
  exists w', init_sqlite w = (Return tt, w').
Proof.
  unfold init_sqlite, bind, try_except, PageItem_db_execute, ret. cbn [PageItem_db server].
  destruct (db_execute migrate_str [] (server w)) as [[z | e] s']; eexists; reflexivity.
Qed.

(** An exception of [next_listing] leaves [main]'s loop, whatever the
    detail batch before it did to the world. *)
Lemma main_loop_listing_raises (x : exn) (page_url : string) :
  (forall w0 : world, exists w1, next_listing page_url w0 = (Raise x, w1)) ->
  page_url <> "" ->
  forall (fuel : nat) (items : list PageItem) (w0 w1 : world),
    async_fetch items w0 = (Return tt, w1) ->
    exists w2, main_loop (S fuel) (Some page_url) items w0 = (Raise x, w2).
Proof.
  intros Hnl Hne fuel items w0 w1 Hasync.
  cbn [main_loop]. unfold bind at 1. rewrite Hasync.
  unfold bind at 1. rewrite print_add_stdout.
  destruct (String.eqb page_url "") eqn:Heq.
  - apply String.eqb_eq in Heq. contradiction.
  - unfold bind.
    destruct (Hnl (add_stdout [page_url] w1)) as (w2 & Hw2). rewrite Hw2.
    eexists; reflexivity.
Qed.

(** The same for the seed listing of [main]. *)
Lemma main_seed_listing_raises (x : exn) (page_url : string) :
  (forall w0 : world, exists w1, next_listing page_url w0 = (Raise x, w1)) ->
  forall (fuel : nat) (args : list string) (kw : string) (w0 : world),
    get_keyword (match args with _ :: k :: _ => k | _ => "java" end) = Return kw ->
    page_url = "http://tieba.baidu.com/f/good?kw=" ++ kw ->
    exists w2, main fuel args w0 = (Raise x, w2).
Proof.
  intros Hnl fuel args kw w0 Hkw Hurl. unfold main.
  assert (Hmain : forall (k : string) (wa : world),
             get_keyword k = Return kw ->
             exists w2,
               (init_sqlite ;;;
                kw0 <- lift (get_keyword k) ;;
                p <- next_listing ("http://tieba.baidu.com/f/good?kw=" ++ kw0) ;;
                main_loop fuel (fst p) (snd p)) wa = (Raise x, w2)).
  { intros k wa Hk. unfold bind at 1.
    destruct (init_sqlite_returns wa) as (wb & Hb). rewrite Hb.
    unfold bind at 1. unfold lift. rewrite Hk.
    unfold bind. rewrite <- Hurl.
    destruct (Hnl wb) as (wc & Hc). rewrite Hc. eexists; reflexivity. }
  destruct args as [ | a0 [ | k rest]].
  - unfold bind at 1. unfold bind at 1. rewrite print_add_stdout. cbn [ret].
    apply Hmain. exact Hkw.
  - unfold bind at 1. unfold bind at 1. rewrite print_add_stdout. cbn [ret].
    apply Hmain. exact Hkw.
  - unfold bind at 1. cbn [ret]. apply Hmain. exact Hkw.
Qed.

(** What [handle_request] does with the charset the pattern finds in the
    header (the rest of the line after [charset=]): the body is decoded
    with it, and the parser gets that text; when that
    charset is GBK (in any case of letters) and strict decoding raises
    [UnicodeDecodeError], the body is decoded again as gb18030 with errors
    ignored, and the parser gets that text; and when decoding fails for good
    on a listing page, the statement that loads the listing raises, and the
    exception leaves [main]: the run is over. *)
Theorem declared_charset_decoding :
  forall (R : Type) (func_parser : string -> M R) (exit_flag : bool)
         (resp : response) (content_type charset : string) (w : world),
    error resp = None ->
    get_attr_in (headers resp) "Content-Type" = Some content_type ->
    regex_charset content_type = Some charset ->
    (forall html,
        decode charset false (body resp) = Ok html ->
        decode_body charset (body resp) w = (Return (Bound (Some html)), w) /\
        (html <> "" ->
         handle_request func_parser exit_flag resp w =
         ((if exit_flag then ioloop_stop else ret tt) ;;;
          r <- func_parser html ;; ret (Some r)) w)) /\
    (forall html,
        decode charset false (body resp) = Err UnicodeDecodeError ->
        lower charset = "gbk" ->
        decode "gb18030" true (body resp) = Ok html ->
        decode_body charset (body resp) w = (Return (Bound (Some html)), w) /\
        (html <> "" ->
         handle_request func_parser exit_flag resp w =
         ((if exit_flag then ioloop_stop else ret tt) ;;;
          r <- func_parser html ;; ret (Some r)) w)) /\
    (forall e,
        decode charset false (body resp) = Err e ->
        (is_UnicodeDecodeError e = true -> lower charset = "gbk" ->
         failed (decode "gb18030" true (body resp)) = true) ->
        forall page_url,
          http_fetch page_url = Ok resp ->
          exists x,
            (forall w0, exists w1, next_listing page_url w0 = (Raise x, w1)) /\
            (forall fuel items w0 w1,
                page_url <> "" ->
                async_fetch items w0 = (Return tt, w1) ->
                exists w2, main_loop (S fuel) (Some page_url) items w0 = (Raise x, w2)) /\
            (forall fuel args kw w0,
                get_keyword (match args with _ :: k :: _ => k | _ => "java" end) = Return kw ->
                page_url = "http://tieba.baidu.com/f/good?kw=" ++ kw ->
                exists w2, main fuel args w0 = (Raise x, w2))).
Proof.
  intros R func_parser exit_flag resp content_type charset w Herr Hct Hcs.
  split; [ | split].
  - intros html Hdec.
    assert (Hbody : decode_body charset (body resp) w = (Return (Bound (Some html)), w))
      by (unfold decode_body; rewrite Hdec; reflexivity).
    split; [exact Hbody | intro Hne].
    unfold handle_request. rewrite Herr.
    unfold bind at 1. unfold lift at 1. rewrite Hct.
    unfold bind at 1. unfold lift at 1. rewrite Hcs.
    unfold bind at 1. rewrite Hbody.
    apply String.eqb_neq in Hne. rewrite Hne. reflexivity.
  - intros html Hdec Hgbk Hdec2.
    assert (Hbody : decode_body charset (body resp) w = (Return (Bound (Some html)), w)).
    { unfold decode_body. rewrite Hdec. cbn [is_UnicodeDecodeError].
      rewrite Hgbk. cbn [String.eqb Ascii.eqb Bool.eqb]. rewrite Hdec2. reflexivity. }
    split; [exact Hbody | intro Hne].
    unfold handle_request. rewrite Herr.
    unfold bind at 1. unfold lift at 1. rewrite Hct.
    unfold bind at 1. unfold lift at 1. rewrite Hcs.
    unfold bind at 1. rewrite Hbody.
    apply String.eqb_neq in Hne. rewrite Hne. reflexivity.
  - intros e Hdec Hfallback page_url Hfetch.
    assert (Hnl : exists x, forall w0 : world, exists w1,
                 next_listing page_url w0 = (Raise x, w1)).
    { assert (Hcall : forall w0 : world,
                 next_listing page_url w0 =
                 (html <- decode_body charset (body resp) ;;
                  r <- match html with
                       | Unbound => raise UnboundLocalError
                       | Bound None => ret None
                       | Bound (Some h) =>
                           if String.eqb h "" then ret None
                           else r <- parse_summary_page h ;; ret (Some r)
                       end ;;
                  unpack r) w0).
      { intro w0. unfold next_listing, fetch_summary_page.
        unfold bind at 1. unfold bind at 1. unfold lift at 1. rewrite Hfetch. cbn [of_result].
        unfold handle_request. rewrite Herr.
        unfold bind at 1. unfold lift at 1. rewrite Hct.
        unfold bind at 1. unfold lift at 1. rewrite Hcs.
        unfold bind. cbn [ret].
        destruct (decode_body charset (body resp) w0) as [[[ | [h | ]] | ? | ] ?];
          try reflexivity. }
      unfold decode_body in Hcall. rewrite Hdec in Hcall.
      destruct (is_UnicodeDecodeError e) eqn:Hu.
      - destruct (String.eqb (lower charset) "gbk") eqn:Hg.
        + apply String.eqb_eq in Hg. specialize (Hfallback eq_refl Hg).
          destruct (decode "gb18030" true (body resp)); try discriminate.
          exists TypeError. intro w0. rewrite Hcall. eexists; reflexivity.
        + exists UnboundLocalError. intro w0. rewrite Hcall. eexists; reflexivity.
      - exists e. intro w0. rewrite Hcall. eexists; reflexivity. }
    destruct Hnl as (x & Hnl). exists x.
    split; [exact Hnl | split].
    + intros fuel items w0 w1 Hne Hasync.
      exact (main_loop_listing_raises x page_url Hnl Hne fuel items w0 w1 Hasync).
    + intros fuel args kw w0 Hkw Hurl.
      exact (main_seed_listing_raises x page_url Hnl fuel args kw w0 Hkw Hurl).
Qed.

(** C8. [init_sqlite] never raises: whatever the server answers to the
    CREATE TABLE statement, the call returns; and a call made when the table
    exists (the server refuses the statement and stays as it is) returns as
    well and leaves the server as it was: the second call of two creates
    nothing. *)
Theorem init_sqlite_suppresses_every_failure :
  forall (w : world),
    fst (init_sqlite w) = Return tt /\
    (forall e,
        db_execute migrate_str [] (server w) = (Err e, server w) ->
        fst (init_sqlite w) = Return tt /\
        server (snd (init_sqlite w)) = server w /\
        stdout (snd (init_sqlite w)) = stdout w) /\
    (forall e,
        fst (db_execute migrate_str [] (server (snd (init_sqlite w)))) = Err e ->
        snd (db_execute migrate_str [] (server (snd (init_sqlite w)))) =
          server (snd (init_sqlite w)) ->
        fst (init_sqlite (snd (init_sqlite w))) = Return tt /\
        server (snd (init_sqlite (snd (init_sqlite w)))) = server (snd (init_sqlite w))).
Proof.
  intro w.
  assert (Hret : forall w0 : world, fst (init_sqlite w0) = Return tt).
  { intro w0. destruct (init_sqlite_returns w0) as (w' & H). rewrite H. reflexivity. }
  assert (Hsame : forall (w0 : world) e,
             db_execute migrate_str [] (server w0) = (Err e, server w0) ->
             server (snd (init_sqlite w0)) = server w0 /\
             stdout (snd (init_sqlite w0)) = stdout w0).
  { intros w0 e H.
    unfold init_sqlite, bind, try_except, PageItem_db_execute, ret.
    cbn [PageItem_db server]. rewrite H. cbn. auto. }
  split; [apply Hret | split].
  - intros e H. split; [apply Hret | exact (Hsame w e H)].
  - intros e H1 H2. split; [apply Hret | ].
    apply (Hsame (snd (init_sqlite w)) e).
    destruct (db_execute migrate_str [] (server (snd (init_sqlite w)))) as [r s'].
    cbn in H1, H2. subst. reflexivity.
Qed.

End CrawlerFacts.

(** ** The crawler on the sample pages *)

(** C1. On a page of the fragments [f1(author 1, d1)], [f2(author 1, d2)],
    [f3(author 2, d3)], [f4(author 1, d4)] the code fuses [f1] and [f2] and
    stores as [created_at] the date [d3] of [f3], the first fragment of
    another author: line 78 assigns [created_at] before line 80 compares the
    authors. *)
Theorem created_at_is_date_of_first_other_author :
  fst (parse_detail_page (L := Sample.sample_library Sample.no_arrivals)
         (Sample.item 1001 "http://tieba.baidu.com/p/1001") "AABA"
         (Sample.world1 Sample.no_arrivals)) =
  Return {| url := "http://tieba.baidu.com/p/1001";
            reply_date := reply_date (Sample.item 1001 "");
            page_num := 1001;
            title := Some "Thread";
            content := Some ("one" ++ newline ++ newline ++ "two");
            created_at := Some (PyStr "d3") |}.
Proof. vm_compute. reflexivity. Qed.

(** C2. On a page of the fragments [f1], [f2], [f3], [f4] where the author
    of [f1], [f2] and [f4] has neither an id nor a name (the identity is
    [None]) and [f3] is of author 2, the code fuses [f1], [f2] and [f3]:
    [main_author] is still [None] when [f3] comes, so line 77 takes the
    author of [f3] for the main author. *)
Theorem fusion_runs_past_first_other_author :
  fst (parse_detail_page (L := Sample.sample_library Sample.no_arrivals)
         (Sample.item 1001 "http://tieba.baidu.com/p/1001") "NNBN"
         (Sample.world1 Sample.no_arrivals)) =
  Return {| url := "http://tieba.baidu.com/p/1001";
            reply_date := reply_date (Sample.item 1001 "");
            page_num := 1001;
            title := Some "Thread";
            content := Some ("one" ++ newline ++ newline ++ "two" ++
                             newline ++ newline ++ "three");
            created_at := Some (PyStr "d4") |}.
Proof. vm_compute. reflexivity. Qed.

(** C10. The identities of the two fragments of the page differ ([None]
    for the first, 1 for the second), and the loop fuses both: after the
    second fragment the main author is 1 and the contents are the two
    texts. *)
Theorem fragments_of_unequal_identity_are_fused :
  py_eq PyNone (PyInt 1) = false /\
  fst (for_each (L := Sample.sample_library Sample.no_arrivals) post_body
         [Sample.post "{author:{},content:{date:d1}}" "one";
          Sample.post "{author:{id:1},content:{date:d2}}" "two"]
         Sample.vars0 (Sample.world1 Sample.no_arrivals)) =
  Return {| main_author := PyInt 1; contents := ["one"; "two"];
            lv_created_at := PyStr "d2" |}.
Proof. split; vm_compute; reflexivity. Qed.

(** C4. Two detail pages are fetched and the response of the second
    request arrives first: its callback carries the exit flag and stops the
    loop, [async_fetch] returns, and the first request is still waiting for
    its response; one record has been stored. *)
Theorem loop_stops_with_a_request_waiting :
  let r := async_fetch (L := Sample.sample_library Sample.second_first)
             Sample.two_items (Sample.world1 Sample.second_first) in
  fst r = Return tt /\
  map fst (pending (snd r)) = [0] /\
  List.length (Sample.page_items (server (snd r))) = 1.
Proof. vm_compute. auto. Qed.


(** C3, as the specification states it, fails on the sample listing.
    The first entry of the listing has the address
    [http://tieba.baidu.com/f?kz=1001], in which the pattern finds no
    thread number; the second entry is in order.  The listing parse raises,
    the second page is not returned, and [main] started on that listing ends
    with the exception: nothing is skipped, and nothing is processed. *)
Lemma unnumbered_address_is_not_skipped :
  has_link_and_date (Sample.entry "/f?kz=1001" "10-01") = true /\
  has_thread_number (Sample.entry "/f?kz=1001" "10-01") = false /\
  has_thread_number (Sample.entry "/p/1002" "10-02") = true /\
  parse_summary_page (L := Sample.sample_library Sample.no_arrivals) "listing_bad"
    (Sample.world1 Sample.no_arrivals) =
  (Raise AttributeError, Sample.world1 Sample.no_arrivals) /\
  fst (main (L := Sample.sample_library Sample.no_arrivals) 3
         ["fetch_data.py"; "bad"] (Sample.world0 Sample.no_arrivals)) =
  Raise AttributeError /\
  Sample.page_items
    (server (snd (main (L := Sample.sample_library Sample.no_arrivals) 3
                    ["fetch_data.py"; "bad"] (Sample.world0 Sample.no_arrivals)))) = [].
Proof. repeat split; vm_compute; reflexivity. Qed.

(** C3 on the sample listing: the entries and the exception. *)
Lemma address_without_number_witness :
  css (TagClass "li" "j_thread_list") Sample.listing_bad =
    [Sample.entry "/f?kz=1001" "10-01"; Sample.entry "/p/1002" "10-02"] /\
  parse_summary_page (L := Sample.sample_library Sample.no_arrivals) "listing_bad"
    (Sample.world1 Sample.no_arrivals) =
  (Raise AttributeError, Sample.world1 Sample.no_arrivals).
Proof.
  split; [vm_compute; reflexivity | ].
  refine (proj2 (proj2 (address_without_number_aborts_listing
                          (L := Sample.sample_library Sample.no_arrivals)
                          "listing_bad" Sample.listing_bad
                          (Sample.entry "/f?kz=1001" "10-01")
                          (Sample.world1 Sample.no_arrivals) _ _ _ _))
            [] [Sample.entry "/p/1002" "10-02"] [] _ _);
    try (vm_compute; reflexivity).
  left. vm_compute. reflexivity.
Defined.

(** C5, as the specification states it, fails on a sample listing.
    A listing of one entry, with a title link and a reply date, whose
    address is [http://tieba.baidu.com/photo/p?kw=java]: [parse_summary_page]
    returns no page item for it, it raises. *)
Lemma entry_with_link_and_date_is_not_enough :
  css (TagClass "li" "j_thread_list") Sample.listing_bad1 =
    [Sample.entry "/photo/p?kw=java" "10-03"] /\
  has_link_and_date (Sample.entry "/photo/p?kw=java" "10-03") = true /\
  fst (parse_summary_page (L := Sample.sample_library Sample.no_arrivals) "listing_bad1"
         (Sample.world1 Sample.no_arrivals)) = Raise AttributeError.
Proof. repeat split; vm_compute; reflexivity. Qed.

(** C5 on the sample listing of two threads and a next page. *)
Lemma listing_of_numbered_entries_witness :
  exists next items,
    parse_summary_page (L := Sample.sample_library Sample.no_arrivals) "listing_ok"
      (Sample.world1 Sample.no_arrivals) =
    (Return (next, items), Sample.world1 Sample.no_arrivals) /\
    List.length items =
      List.length (css (TagClass "li" "j_thread_list") Sample.listing_ok) /\
    Forall2 item_of_entry (css (TagClass "li" "j_thread_list") Sample.listing_ok) items /\
    (next <> None <-> css (TagClass "a" "next") Sample.listing_ok <> []) /\
    next = match css (TagClass "a" "next") Sample.listing_ok with
           | l :: _ => Some (base_url (get_attr l "href"))
           | [] => None
           end.
Proof.
  refine (listing_of_numbered_entries
            (L := Sample.sample_library Sample.no_arrivals)
            "listing_ok" Sample.listing_ok (Sample.world1 Sample.no_arrivals) _ _);
    vm_compute; reflexivity.
Defined.

(** C6 on the fragments of the sample page with a broken payload. *)
Lemma undecodable_fragment_witness :
  failed (Sample.sample_json_loads (get_attr (Sample.post "{author:" "broken") "data-field")) = true /\
  fst (for_each (L := Sample.sample_library Sample.no_arrivals) post_body
         ([Sample.post "{author:{id:1},content:{date:d1}}" "one"] ++
          Sample.post "{author:" "broken" ::
          [Sample.post "{author:{id:1},content:{date:d2}}" "two"])
         Sample.vars0 (Sample.world1 Sample.no_arrivals)) =
  fst (for_each (L := Sample.sample_library Sample.no_arrivals) post_body
         ([Sample.post "{author:{id:1},content:{date:d1}}" "one"] ++
          [Sample.post "{author:{id:1},content:{date:d2}}" "two"])
         Sample.vars0 (Sample.world1 Sample.no_arrivals)).
Proof.
  split; [vm_compute; reflexivity | ].
  refine (proj2 (proj2 (undecodable_fragment_is_skipped
                          (L := Sample.sample_library Sample.no_arrivals)
                          [Sample.post "{author:{id:1},content:{date:d1}}" "one"]
                          (Sample.post "{author:" "broken")
                          [Sample.post "{author:{id:1},content:{date:d2}}" "two"]
                          Sample.vars0 (Sample.world1 Sample.no_arrivals) _))).
  vm_compute; reflexivity.
Defined.

(** The page with the broken payload between two fragments of author 1
    yields the record of both fragments, after the message. *)
Example page_with_broken_payload :
  let r := parse_detail_page (L := Sample.sample_library Sample.no_arrivals)
             (Sample.item 1001 "http://tieba.baidu.com/p/1001") "1x1"
             (Sample.world1 Sample.no_arrivals) in
  stdout (snd r) = ["Parse json error"; "Thread"] /\
  match fst r with
  | Return it => content it = Some ("one" ++ newline ++ newline ++ "two") /\
                 created_at it = Some (PyStr "d2")
  | _ => False
  end.
Proof. vm_compute. auto. Qed.

(** The same on three sample responses. *)
Lemma declared_charset_witness :
  (* a GBK page that decodes: the parser gets the text *)
  handle_request (L := Sample.sample_library Sample.no_arrivals)
    parse_summary_page false (Sample.ok_response "GBK" "listing_ok")
    (Sample.world1 Sample.no_arrivals) =
  bind (ret tt)
    (fun _ => bind (parse_summary_page "listing_ok") (fun r => ret (Some r)))
    (Sample.world1 Sample.no_arrivals) /\
  (* a GBK page with a byte that is not GBK: the parser gets the text
     without it *)
  handle_request (L := Sample.sample_library Sample.no_arrivals)
    parse_summary_page false
    (Sample.ok_response "GBK" ("listing_" ++ String "255"%char "ok"))
    (Sample.world1 Sample.no_arrivals) =
  bind (ret tt)
    (fun _ => bind (parse_summary_page "listing_ok") (fun r => ret (Some r)))
    (Sample.world1 Sample.no_arrivals) /\
  (* a listing declared UTF-8 that is not UTF-8: the run ends *)
  exists x,
    forall (fuel : nat) (w0 : world (L := Sample.sample_library Sample.no_arrivals)),
    exists w2,
      main (L := Sample.sample_library Sample.no_arrivals) fuel
        ["fetch_data.py"; "broken"] w0 = (Raise x, w2).
Proof.
  split; [ | split].
  - refine (proj2 (proj1 (declared_charset_decoding
                     (L := Sample.sample_library Sample.no_arrivals)
                     _ parse_summary_page false (Sample.ok_response "GBK" "listing_ok")
                     "text/html; charset=GBK" "GBK"
                     (Sample.world1 Sample.no_arrivals) _ _ _) "listing_ok" _) _);
      try (vm_compute; reflexivity); discriminate.
  - refine (proj2 (proj1 (proj2 (declared_charset_decoding
                     (L := Sample.sample_library Sample.no_arrivals)
                     _ parse_summary_page false
                     (Sample.ok_response "GBK" ("listing_" ++ String "255"%char "ok"))
                     "text/html; charset=GBK" "GBK"
                     (Sample.world1 Sample.no_arrivals) _ _ _)) "listing_ok" _ _ _) _);
      try (vm_compute; reflexivity); discriminate.
  - destruct (proj2 (proj2 (declared_charset_decoding
                     (L := Sample.sample_library Sample.no_arrivals)
                     _ parse_summary_page false
                     (Sample.ok_response "utf-8" (String "255"%char "listing_ok"))
                     "text/html; charset=utf-8" "utf-8"
                     (Sample.world1 Sample.no_arrivals)
                     eq_refl eq_refl eq_refl))
                   UnicodeDecodeError eq_refl
                   ltac:(intros _ H; vm_compute in H; discriminate H)
                   "http://tieba.baidu.com/f/good?kw=broken" eq_refl)
      as (x & _ & _ & Hmain).
    exists x. intros fuel w0.
    exact (Hmain fuel ["fetch_data.py"; "broken"] "broken" w0 eq_refl eq_refl).
Defined.

(** [init_sqlite] twice on a server without the table: the first call
    creates it, the second returns as well, and the table is there once. *)
Example init_sqlite_twice :
  let w1 := snd (init_sqlite (L := Sample.sample_library Sample.no_arrivals)
                   (Sample.world0 Sample.no_arrivals)) in
  let r2 := init_sqlite w1 in
  Sample.tables (server w1) = ["page_items"] /\
  fst r2 = Return tt /\
  Sample.tables (server (snd r2)) = ["page_items"].
Proof. vm_compute. auto. Qed.

(** ** Facts about the connection wrapper *)

Section SqliteFacts.

Context {E : Sqlite.Sqlite3}.

Import Sqlite.

(** [_ensure_connected] when [sqlite3.connect] opens the database. *)
Lemma ensure_connected_spec (c : Connection) (e : env) :
  connect_error (database c) (connects e) = None ->
  exists c1 e1,
    _ensure_connected (c, e) = (Return tt, (c1, e1)) /\
    host c1 = host c /\ database c1 = database c /\
    max_idle_time c1 = max_idle_time c /\
    statements e1 = statements e /\
    ticks e < ticks e1 /\
    _last_use_time c1 = clock (ticks e1 - 1) /\
    (is_stale c e = true ->
       _db c1 = Some (connects e) /\ connects e1 = S (connects e) /\
       trace e1 = (trace e ++ closes c ++ [EvConnect (database c) (connects e)])%list) /\
    (is_stale c e = false ->
       _db c1 = _db c /\ _db c <> None /\ connects e1 = connects e /\
       trace e1 = trace e).
Proof.
  intro Hconn. destruct c as [h d m db lu], e as [t n st tr].
  cbn [database connects] in Hconn.
  unfold is_stale, closes, _ensure_connected, reconnect, close, sqlite3_connect,
    time_time, emit, set__db, set__last_use_time, self, bind, ret.
  destruct db as [hd | ]; simpl.
  - destruct (PrimFloat.ltb m (PrimFloat.sub (clock t) lu)); simpl.
    + rewrite Hconn. do 2 eexists. split; [reflexivity | ]. simpl.
      repeat split; try lia; try discriminate.
      rewrite <- app_assoc. reflexivity.
    + do 2 eexists. split; [reflexivity | ]. simpl.
      repeat split; try lia; try discriminate.
  - rewrite Hconn. do 2 eexists. split; [reflexivity | ]. simpl.
    repeat split; try lia; try discriminate.
    rewrite Nat.sub_0_r. reflexivity.
Qed.

Lemma quiet_ret {A} (a : A) : quiet (ret a).
Proof.
  intros c [t n st tr]. exists (Return a), st, []. unfold ret. simpl.
  rewrite app_nil_r. reflexivity.
Qed.

Lemma quiet_raise {A} (x : exn) : quiet (@raise A x).
Proof.
  intros c [t n st tr]. exists (Raise x), st, []. unfold raise. simpl.
  rewrite app_nil_r. reflexivity.
Qed.

Lemma quiet_blocks {A} : quiet (fun s => (@Blocks A, s)).
Proof.
  intros c [t n st tr]. exists Blocks, st, []. simpl.
  rewrite app_nil_r. reflexivity.
Qed.

Lemma quiet_self : quiet self.
Proof.
  intros c [t n st tr]. exists (Return c), st, []. unfold self. simpl.
  rewrite app_nil_r. reflexivity.
Qed.

Lemma quiet_emit (ev : event) : quiet (emit ev).
Proof.
  intros c [t n st tr]. exists (Return tt), st, [ev]. reflexivity.
Qed.

Lemma quiet_next_statement : quiet next_statement.
Proof.
  intros c [t n st tr]. exists (Return st), (S st), []. unfold next_statement. simpl.
  rewrite app_nil_r. reflexivity.
Qed.

Lemma quiet_bind {A B} (m : Op A) (k : A -> Op B) :
  quiet m -> (forall a, quiet (k a)) -> quiet (bind m k).
Proof.
  intros Hm Hk c e. destruct (Hm c e) as (r & st & rest & H).
  unfold bind. rewrite H. destruct r as [a | x | ].
  - destruct (Hk a c {| ticks := ticks e; connects := connects e;
                        statements := st; trace := (trace e ++ rest)%list |})
      as (r2 & st2 & rest2 & H2).
    rewrite H2. simpl. exists r2, st2, (rest ++ rest2)%list.
    rewrite app_assoc. reflexivity.
  - exists (Raise x), st, rest. reflexivity.
  - exists Blocks, st, rest. reflexivity.
Qed.

Lemma quiet_try_finally {A} (m : Op A) (f : Op unit) :
  quiet m -> quiet f -> quiet (try_finally m f).
Proof.
  intros Hm Hf c e. destruct (Hm c e) as (r & st & rest & H).
  unfold try_finally. rewrite H.
  destruct (Hf c {| ticks := ticks e; connects := connects e;
                    statements := st; trace := (trace e ++ rest)%list |})
    as (r2 & st2 & rest2 & H2).
  destruct r as [a | x0 | ]; [ | | exists Blocks, st, rest; reflexivity];
    rewrite H2; simpl;
    (destruct r2 as [[] | x | ]; eexists; exists st2, (rest ++ rest2)%list;
     rewrite app_assoc; reflexivity).
Qed.

Lemma quiet__execute (cursor : nat) (q : string) (ps : list pyvalue) :
  quiet (_execute cursor q ps).
Proof.
  unfold _execute.
  apply quiet_bind; [apply quiet_next_statement | intro n].
  apply quiet_bind; [apply quiet_emit | intros _].
  destruct (cursor_execute q ps n) as [r | x | ].
  - apply quiet_bind; [apply quiet_self | intro c].
    destruct (_db c); [ | apply quiet_raise].
    destruct (commit_error n) as [x | ].
    + destruct (is_OperationalError x); [ | apply quiet_raise].
      apply quiet_bind; [apply quiet_self | intro c0].
      apply quiet_bind; [apply quiet_emit | intros _]. apply quiet_raise.
    + apply quiet_bind; [apply quiet_emit | intros _]. apply quiet_ret.
  - destruct (is_OperationalError x); [ | apply quiet_raise].
    apply quiet_bind; [apply quiet_self | intro c0].
    apply quiet_bind; [apply quiet_emit | intros _]. apply quiet_raise.
  - apply quiet_blocks.
Qed.

(** The first use of a connection. *)
Lemma ensure_connected_used (c : Connection) (e : env) :
  connect_error (database c) (connects e) = None ->
  exists c1 e1,
    _ensure_connected (c, e) = (Return tt, (c1, e1)) /\ used c e c1 e1 /\
    exists h, _db c1 = Some h.
Proof.
  intro Hconn.
  destruct (ensure_connected_spec c e Hconn)
    as (c1 & e1 & Hrun & _ & Hd & _ & _ & Ht & Hlu & Hstale & Hfresh).
  exists c1, e1. split; [exact Hrun | ]. split.
  - unfold used. repeat split; try assumption.
    + destruct (is_stale c e).
      * destruct (Hstale eq_refl) as (_ & Hn & _). lia.
      * destruct (Hfresh eq_refl) as (_ & _ & Hn & _). lia.
    + intro Hs. destruct (Hstale Hs) as (Hdb & Hn & Htr).
      exists [], (connects e). repeat split; auto.
  - destruct (is_stale c e).
    + destruct (Hstale eq_refl) as (Hdb & _). eauto.
    + destruct (Hfresh eq_refl) as (Hdb & Hne & _).
      destruct (_db c) as [h | ] eqn:Hc; [ | contradiction]. eauto.
Qed.

(** One more [_ensure_connected] on a connection in use. *)
Lemma ensure_connected_again (c : Connection) (e : env) (c1 : Connection) (e1 : env) :
  used c e c1 e1 ->
  connect_error (database c) (connects e1) = None ->
  exists c2 e2,
    _ensure_connected (c1, e1) = (Return tt, (c2, e2)) /\ used c e c2 e2 /\
    exists h, _db c2 = Some h.
Proof.
  intros (Hd & Ht & Hn & Hlu & Hst) Hconn.
  rewrite <- Hd in Hconn.
  destruct (ensure_connected_spec c1 e1 Hconn)
    as (c2 & e2 & Hrun & _ & Hd2 & _ & _ & Ht2 & Hlu2 & Hstale & Hfresh).
  exists c2, e2. split; [exact Hrun | ].
  assert (Hcases : (connects e1 <= connects e2) /\
                   (exists more, trace e2 = (trace e1 ++ more)%list) /\
                   (_db c2 = _db c1 \/ _db c2 = Some (connects e1))).
  { destruct (is_stale c1 e1).
    - destruct (Hstale eq_refl) as (Hdb & Hn2 & Htr).
      repeat split; [lia | eauto | auto].
    - destruct (Hfresh eq_refl) as (Hdb & _ & Hn2 & Htr).
      repeat split; [lia | exists []; rewrite app_nil_r; exact Htr | auto]. }
  destruct Hcases as (Hn2 & (more & Htr) & Hdb). split.
  - unfold used. repeat split; try congruence; try lia.
    intro Hs. destruct (Hst Hs) as (rest & h & Htr1 & Hdb1 & Hh).
    destruct Hdb as [Hdb | Hdb].
    + exists (rest ++ more)%list, h. repeat split; try congruence; auto.
      rewrite Htr, Htr1. rewrite <- !app_assoc. reflexivity.
    + exists (rest ++ more)%list, (connects e1). repeat split; auto.
      rewrite Htr, Htr1. rewrite <- !app_assoc. reflexivity.
  - destruct (is_stale c1 e1).
    + destruct (Hstale eq_refl) as (Hdb2 & _). eauto.
    + destruct (Hfresh eq_refl) as (Hdb2 & Hne & _).
      destruct (_db c1) as [h | ] eqn:Hc; [ | contradiction]. eauto.
Qed.

(** What runs after [_ensure_connected] keeps the connection in use. *)
Lemma quiet_keeps_used {A} (m : Op A) (c : Connection) (e : env)
    (c1 : Connection) (e1 : env) :
  quiet m -> used c e c1 e1 ->
  exists r e2, m (c1, e1) = (r, (c1, e2)) /\ used c e c1 e2.
Proof.
  intros Hm (Hd & Ht & Hn & Hlu & Hst).
  destruct (Hm c1 e1) as (r & st & rest & H).
  eexists; eexists. split; [exact H | ].
  unfold used. cbn [ticks connects trace]. repeat split; auto.
  intro Hs. destruct (Hst Hs) as (rest1 & h & Htr1 & Hdb1 & Hh).
  exists (rest1 ++ rest)%list, h. repeat split; auto.
  rewrite Htr1. rewrite <- !app_assoc. reflexivity.
Qed.

Lemma quiet_db_cursor : quiet db_cursor.
Proof.
  apply quiet_bind; [apply quiet_self | intro c].
  destruct (_db c); [ | apply quiet_raise].
  apply quiet_bind; [apply quiet_emit | intros _; apply quiet_ret].
Qed.

Lemma quiet_rows (cursor : nat) (q : string) (ps : list pyvalue) :
  quiet (bind (_execute cursor q ps)
           (fun r => read_rows r)).
Proof.
  apply quiet_bind; [apply quiet__execute | intro r].
  unfold read_rows. destruct (description r); [apply quiet_ret | apply quiet_raise].
Qed.

Lemma bind_assoc {A B C} (m : Op A) (f : A -> Op B) (g : B -> Op C) (s : Connection * env) :
  bind (bind m f) g s = bind m (fun a => bind (f a) g) s.
Proof. unfold bind. destruct (m s) as [[a | x | ] s']; reflexivity. Qed.

Ltac ensure_first :=
  intro; unfold run, get, iter, query, execute, executemany, _cursor;
  rewrite !bind_assoc; reflexivity.

(** Every operation starts with [_ensure_connected] ([iter] with two of
    them), and nothing after it touches the connection or the clock. *)
Lemma run_starts_with_ensure_connected (op : operation) :
  exists K : Op unit,
    quiet K /\
    ((forall s, run op s = bind _ensure_connected (fun _ => K) s) \/
     (forall s, run op s =
                bind _ensure_connected (fun _ => bind _ensure_connected (fun _ => K)) s)).
Proof.
  destruct op as [q ps | q ps | q ps | q ps | q ps].
  - exists (bind db_cursor
              (fun cursor =>
                 bind (try_finally
                         (bind (_execute cursor q ps)
                            (fun r => read_rows r))
                         (emit (EvCursorClose cursor)))
                   (fun _ => ret tt))).
    split.
    + apply quiet_bind; [apply quiet_db_cursor | intro cursor].
      apply quiet_bind; [ | intros _; apply quiet_ret].
      apply quiet_try_finally; [apply quiet_rows | apply quiet_emit].
    + right. intro s. unfold run, iter, _cursor.
      rewrite bind_assoc. unfold bind at 1. unfold bind at 5.
      destruct (_ensure_connected s) as [[[] | | ] s1]; try reflexivity.
      rewrite !bind_assoc. reflexivity.
  - exists (bind db_cursor
              (fun cursor =>
                 bind (try_finally
                         (bind (_execute cursor q ps)
                            (fun r => read_rows r))
                         (ret tt))
                   (fun _ => ret tt))).
    split; [ | left; ensure_first].
    apply quiet_bind; [apply quiet_db_cursor | intro cursor].
    apply quiet_bind; [ | intros _; apply quiet_ret].
    apply quiet_try_finally; [apply quiet_rows | apply quiet_ret].
  - exists (bind db_cursor
              (fun cursor =>
                 bind (try_finally
                         (bind (_execute cursor q ps)
                            (fun r => read_rows r))
                         (ret tt))
                   (fun rs =>
                      bind match rs with
                           | [] => ret None
                           | [r] => ret (Some r)
                           | _ => raise (OtherError
                                    "Multiple rows returned for Database.get() query")
                           end
                        (fun _ => ret tt)))).
    split; [ | left; ensure_first].
    apply quiet_bind; [apply quiet_db_cursor | intro cursor].
    apply quiet_bind;
      [ apply quiet_try_finally; [apply quiet_rows | apply quiet_ret] | intro rs ].
    apply quiet_bind; [ | intros _; apply quiet_ret].
    destruct rs as [ | r [ | r' rs]];
      [apply quiet_ret | apply quiet_ret | apply quiet_raise].
  - exists (bind db_cursor
              (fun cursor =>
                 bind (try_finally
                         (bind (_execute cursor q ps) (fun r => ret (lastrowid r)))
                         (emit (EvCursorClose cursor)))
                   (fun _ => ret tt))).
    split; [ | left; ensure_first].
    apply quiet_bind; [apply quiet_db_cursor | intro cursor].
    apply quiet_bind; [ | intros _; apply quiet_ret].
    apply quiet_try_finally; [ | apply quiet_emit].
    apply quiet_bind; [apply quiet__execute | intro r; apply quiet_ret].
  - exists (bind db_cursor
              (fun cursor =>
                 bind (try_finally
                         (bind next_statement
                            (fun n =>
                               bind (emit (EvExecuteMany cursor q ps))
                                 (fun _ =>
                                    match cursor_executemany q ps n with
                                    | Return r => ret (lastrowid r)
                                    | Raise x => raise x
                                    | Blocks => fun s => (Blocks, s)
                                    end)))
                         (emit (EvCursorClose cursor)))
                   (fun _ => ret tt))).
    split; [ | left; ensure_first].
    apply quiet_bind; [apply quiet_db_cursor | intro cursor].
    apply quiet_bind; [ | intros _; apply quiet_ret].
    apply quiet_try_finally; [ | apply quiet_emit].
    apply quiet_bind; [apply quiet_next_statement | intro n].
    apply quiet_bind; [apply quiet_emit | intros _].
    destruct (cursor_executemany q ps n);
      [apply quiet_ret | apply quiet_raise | apply quiet_blocks].
Qed.

(** C9. Every operation of a connection ([iter], [query], [get],
    [execute], [executemany]) on a database that [sqlite3.connect] opens:
    the clock is read and, when the operation is over, the last-use time is
    the last reading of the clock; and if there was no connection, or the
    time since the last use was greater than [max_idle_time] (by default
    7*3600 seconds), then the first thing the operation does is to close the
    old connection, if any, and to open the database again, before any
    cursor or statement, and it ends with an open connection made during
    the operation. *)
Theorem stale_connection_is_reopened :
  forall (op : operation) (c : Connection) (e : env),
    (forall n, connect_error (database c) n = None) ->
    exists r c' e',
      run op (c, e) = (r, (c', e')) /\
      ticks e < ticks e' /\
      _last_use_time c' = clock (ticks e' - 1) /\
      (is_stale c e = true ->
         exists rest h,
           trace e' = (trace e ++ closes c ++
                       EvConnect (database c) (connects e) :: rest)%list /\
           _db c' = Some h /\ connects e <= h) /\
      default_max_idle_time = (7 * 3600)%float.
Proof.
  intros op c e Hconn.
  assert (Hgoal : exists r c' e', run op (c, e) = (r, (c', e')) /\ used c e c' e').
  { destruct (run_starts_with_ensure_connected op) as (K & HK & [Hshape | Hshape]);
      rewrite Hshape; unfold bind at 1;
      destruct (ensure_connected_used c e (Hconn _)) as (c1 & e1 & Hrun & Hused & _);
      rewrite Hrun.
    - destruct (quiet_keeps_used K c e c1 e1 HK Hused) as (r & e2 & HrunK & Hused2).
      exists r, c1, e2. auto.
    - unfold bind at 1.
      destruct (ensure_connected_again c e c1 e1 Hused (Hconn _))
        as (c2 & e2 & Hrun2 & Hused2 & _).
      rewrite Hrun2.
      destruct (quiet_keeps_used K c e c2 e2 HK Hused2) as (r & e3 & HrunK & Hused3).
      exists r, c2, e3. auto. }
  destruct Hgoal as (r & c' & e' & Hrun & _ & Ht & _ & Hlu & Hst).
  exists r, c', e'. repeat split; auto.
Qed.

End SqliteFacts.

(** C9 on the sample connection, idle for eight hours. *)
Lemma stale_connection_witness :
  Sqlite.is_stale (E := SqliteSample.sample_sqlite3)
    (fst SqliteSample.fresh) (snd SqliteSample.fresh) = true /\
  exists r c' e',
    Sqlite.run (E := SqliteSample.sample_sqlite3) (Sqlite.Execute "insert into t values (1)" [])
      SqliteSample.fresh = (r, (c', e')) /\
    Sqlite.ticks (snd SqliteSample.fresh) < Sqlite.ticks e' /\
    Sqlite._last_use_time c' =
      @Sqlite.clock SqliteSample.sample_sqlite3 (Sqlite.ticks e' - 1) /\
    (Sqlite.is_stale (E := SqliteSample.sample_sqlite3)
       (fst SqliteSample.fresh) (snd SqliteSample.fresh) = true ->
       exists rest h,
         Sqlite.trace e' =
           (Sqlite.trace (snd SqliteSample.fresh) ++ Sqlite.closes (fst SqliteSample.fresh) ++
            Sqlite.EvConnect (Sqlite.database (fst SqliteSample.fresh))
              (Sqlite.connects (snd SqliteSample.fresh)) :: rest)%list /\
         Sqlite._db c' = Some h /\ Sqlite.connects (snd SqliteSample.fresh) <= h) /\
    Sqlite.default_max_idle_time = (7 * 3600)%float.
Proof.
  split; [vm_compute; reflexivity | ].
  exact (stale_connection_is_reopened (E := SqliteSample.sample_sqlite3)
           (Sqlite.Execute "insert into t values (1)" [])
           (fst SqliteSample.fresh) (snd SqliteSample.fresh) (fun n => eq_refl)).
Defined.

(** The sample connection, last used at 1000 s, asked to execute a
    statement at 29801.5 s: the old connection is closed and the database
    opened again before the cursor is made, and the last-use time is the
    reading of the clock after that. *)
Example idle_connection_trace :
  let s := snd (Sqlite.run (E := SqliteSample.sample_sqlite3)
                  (Sqlite.Execute "insert into t values (1)" [])
                  SqliteSample.fresh) in
  Sqlite.trace (snd s) =
    [Sqlite.EvConnect "bar.db" 0;
     Sqlite.EvClose 0; Sqlite.EvConnect "bar.db" 1;
     Sqlite.EvCursor 1; Sqlite.EvExecute 1 "insert into t values (1)" [];
     Sqlite.EvCommit 1; Sqlite.EvCursorClose 1] /\
  Sqlite._db (fst s) = Some 1 /\
  Sqlite._last_use_time (fst s) = 29802%float.
Proof. vm_compute. auto. Qed.

(** X2 on the fragments of the sample page of authors 1, 1, 2, 1. *)
Lemma same_author_prefix_witness :
  fst (for_each (L := Sample.sample_library Sample.no_arrivals) post_body
         (map f_node
            [{| f_node := Sample.post "{author:{id:1},content:{date:d1}}" "one";
                f_date := PyStr "d1"; f_text := "one" |};
             {| f_node := Sample.post "{author:{id:1},content:{date:d2}}" "two";
                f_date := PyStr "d2"; f_text := "two" |}] ++
          Sample.post "{author:{id:2},content:{date:d3}}" "three" ::
          [Sample.post "{author:{id:1},content:{date:d4}}" "four"])
         {| main_author := PyNone; contents := []; lv_created_at := PyNone |}
         (Sample.world1 Sample.no_arrivals)) =
  Return {| main_author := PyInt 1;
            contents := ["one"; "two"];
            lv_created_at := PyStr "d3" |}.
Proof.
  refine (proj2 (same_author_prefix_is_fused
                   (L := Sample.sample_library Sample.no_arrivals)
                   (PyInt 1)
                   {| f_node := Sample.post "{author:{id:1},content:{date:d1}}" "one";
                      f_date := PyStr "d1"; f_text := "one" |}
                   [{| f_node := Sample.post "{author:{id:1},content:{date:d2}}" "two";
                       f_date := PyStr "d2"; f_text := "two" |}]
                   (Sample.world1 Sample.no_arrivals) _ _ _ _ _)
            (Sample.post "{author:{id:2},content:{date:d3}}" "three")
            (PyInt 2) (PyStr "d3")
            [Sample.post "{author:{id:1},content:{date:d4}}" "four"] _ _).
  - discriminate.
  - unfold decodes. do 3 eexists. repeat split; reflexivity.
  - reflexivity.
  - reflexivity.
  - constructor; [ | constructor].
    exists (PyInt 1). unfold decodes. split; [ | split; reflexivity].
    do 3 eexists. repeat split; reflexivity.
  - unfold decodes. do 3 eexists. repeat split; reflexivity.
  - reflexivity.
Defined.

(** ** Addresses and content types: what the two patterns find *)

Lemma strip_prefix_app (p r : string) : strip_prefix p (p ++ r) = Some r.
Proof.
  induction p as [ | a p IH]; simpl.
  - destruct r; reflexivity.
  - rewrite Ascii.eqb_refl. exact IH.
Qed.

Lemma strip_prefix_some (p s r : string) :
  strip_prefix p s = Some r -> s = p ++ r.
Proof.
  revert s. induction p as [ | a p IH]; intros s H.
  - destruct s; simpl in H; inversion H; reflexivity.
  - destruct s as [ | b s]; simpl in H; [discriminate | ].
    destruct (Ascii.eqb a b) eqn:E; [ | discriminate].
    apply Ascii.eqb_eq in E. subst b. simpl. f_equal. apply IH. exact H.
Qed.

Lemma string_app_assoc (a b c : string) : (a ++ b) ++ c = a ++ b ++ c.
Proof.
  induction a as [ | x a IH]; simpl; [reflexivity | rewrite IH; reflexivity].
Qed.

(** [.+] gives up when the rest of the pattern fails at every position. *)
Lemma dot_plus_rest_none {A} (k : string -> option A) (s : string) :
  (forall a b, s = a ++ b -> k b = None) ->
  dot_plus_rest k s = None.
Proof.
  induction s as [ | c s IH]; intros H; simpl.
  - apply (H "" ""). reflexivity.
  - rewrite IH.
    + destruct (is_newline c); apply (H "" (String c s)); reflexivity.
    + intros a b E. apply (H (String c a) b). simpl. rewrite E. reflexivity.
Qed.

(** A match further to the right wins: [.+] is greedy. *)
Lemma dot_plus_rest_prefix {A} (k : string -> option A) (pre t : string) (r : A) :
  all_chars not_newline pre = true ->
  dot_plus_rest k t = Some r ->
  dot_plus_rest k (pre ++ t) = Some r.
Proof.
  intros Hpre Ht. induction pre as [ | c pre IH]; simpl; [exact Ht | ].
  simpl in Hpre. apply andb_prop in Hpre. destruct Hpre as [Hc Hpre].
  unfold not_newline in Hc. apply negb_true_iff in Hc. rewrite Hc.
  rewrite (IH Hpre). reflexivity.
Qed.

Lemma dot_plus_rest_here {A} (k : string -> option A) (c : ascii) (t : string) :
  (forall a b, t = a ++ b -> k b = None) ->
  dot_plus_rest k (String c t) = k (String c t).
Proof.
  intros H. simpl. rewrite (dot_plus_rest_none k t H).
  destruct (is_newline c); reflexivity.
Qed.

(** Where [.+] ends when the pattern matches. *)
Lemma dot_plus_rest_some {A} (k : string -> option A) (s : string) (r : A) :
  dot_plus_rest k s = Some r ->
  exists a b, s = a ++ b /\ all_chars not_newline a = true /\ k b = Some r.
Proof.
  induction s as [ | c s IH]; simpl; intros H.
  - exists "", "". repeat split; assumption.
  - destruct (is_newline c) eqn:Hc.
    + exists "", (String c s). repeat split; assumption.
    + destruct (dot_plus_rest k s) as [r' | ] eqn:Hs.
      * inversion H; subst r'. destruct (IH eq_refl) as (a & b & E & Ha & Hk).
        exists (String c a), b. repeat split.
        -- simpl. rewrite E. reflexivity.
        -- simpl. unfold not_newline at 1. rewrite Hc. exact Ha.
        -- exact Hk.
      * exists "", (String c s). repeat split; assumption.
Qed.

Lemma dot_plus_some {A} (k : string -> option A) (s : string) (r : A) :
  dot_plus k s = Some r ->
  exists a b, s = a ++ b /\ a <> "" /\ all_chars not_newline a = true /\ k b = Some r.
Proof.
  destruct s as [ | c s]; simpl; [discriminate | ].
  destruct (is_newline c) eqn:Hc; [discriminate | ].
  intros H. destruct (dot_plus_rest_some k s r H) as (a & b & E & Ha & Hk).
  exists (String c a), b. repeat split.
  - simpl. rewrite E. reflexivity.
  - discriminate.
  - simpl. unfold not_newline at 1. rewrite Hc. exact Ha.
  - exact Hk.
Qed.

Lemma dot_plus_found {A} (k : string -> option A) (pre : string) (c : ascii)
    (t : string) (r : A) :
  pre <> "" ->
  all_chars not_newline pre = true ->
  (forall a b, t = a ++ b -> k b = None) ->
  k (String c t) = Some r ->
  dot_plus k (pre ++ String c t) = Some r.
Proof.
  intros Hne Hpre Ht Hk. destruct pre as [ | c0 pre]; [congruence | ].
  simpl in Hpre. apply andb_prop in Hpre. destruct Hpre as [Hc Hpre].
  unfold not_newline in Hc. apply negb_true_iff in Hc.
  simpl. rewrite Hc. apply dot_plus_rest_prefix; [exact Hpre | ].
  rewrite dot_plus_rest_here; assumption.
Qed.

Lemma occurs_false_suffix (p s a b : string) :
  occurs p s = false -> s = a ++ b -> strip_prefix p b = None.
Proof.
  revert s. induction a as [ | x a IH]; intros s H E.
  - simpl in E. subst b. destruct s; simpl in H;
      destruct (strip_prefix p _); [discriminate | reflexivity | discriminate | reflexivity].
  - destruct s as [ | y s]; [discriminate | ].
    simpl in E. inversion E; subst y. apply (IH s); [ | assumption].
    simpl in H. destruct (strip_prefix p (String x s)); [discriminate | exact H].
Qed.

Lemma span_while_app (f : ascii -> bool) (ds rest : string) :
  all_chars f ds = true ->
  match rest with String c _ => f c | EmptyString => false end = false ->
  span_while f (ds ++ rest) = ds.
Proof.
  intros Hds Hrest. induction ds as [ | d ds IH]; simpl.
  - destruct rest as [ | c rest]; simpl; [reflexivity | rewrite Hrest; reflexivity].
  - simpl in Hds. apply andb_prop in Hds. destruct Hds as [Hd Hds].
    rewrite Hd, (IH Hds). reflexivity.
Qed.

Lemma span_while_split (f : ascii -> bool) (s : string) :
  exists rest,
    s = span_while f s ++ rest /\
    all_chars f (span_while f s) = true /\
    match rest with String c _ => f c | EmptyString => false end = false.
Proof.
  induction s as [ | c s IH]; simpl.
  - exists "". repeat split.
  - destruct (f c) eqn:Hc.
    + destruct IH as (rest & E & Hall & Hrest). exists rest. repeat split.
      * simpl. rewrite <- E. reflexivity.
      * simpl. rewrite Hc. exact Hall.
      * exact Hrest.
    + exists (String c s). repeat split. exact Hc.
Qed.

Lemma digit_is_not (c d : ascii) :
  is_digit c = false -> is_digit d = true -> Ascii.eqb c d = false.
Proof.
  intros Hc Hd. destruct (Ascii.eqb c d) eqn:E; [ | reflexivity].
  apply Ascii.eqb_eq in E. subst d. congruence.
Qed.

Lemma no_number_in_digits (ds rest a b : string) :
  all_chars is_digit ds = true ->
  occurs "/p/" rest = false ->
  ds ++ rest = a ++ b ->
  strip_prefix "/p/" b = None.
Proof.
  revert a. induction ds as [ | d ds IH]; intros a Hds Hrest E.
  - simpl in E. exact (occurs_false_suffix "/p/" rest a b Hrest E).
  - simpl in Hds. apply andb_prop in Hds. destruct Hds as [Hd Hds].
    destruct a as [ | x a].
    + simpl in E. subst b. cbn [strip_prefix].
      rewrite (digit_is_not "/" d); [reflexivity | reflexivity | exact Hd].
    + simpl in E. inversion E. apply (IH a); assumption.
Qed.

Lemma regex_num_found (pre ds rest : string) :
  pre <> "" ->
  all_chars not_newline pre = true ->
  ds <> "" ->
  all_chars is_digit ds = true ->
  starts_with_digit rest = false ->
  occurs "/p/" rest = false ->
  regex_num (pre ++ "/p/" ++ ds ++ rest) = Some ds.
Proof.
  intros Hne Hpre Hds Hdig Hrest Hocc. unfold regex_num.
  change ("/p/" ++ ds ++ rest) with (String "/" ("p/" ++ ds ++ rest)).
  apply dot_plus_found; [assumption | assumption | | ].
  - intros a b E.
    assert (Hb : strip_prefix "/p/" b = None); [ | rewrite Hb; reflexivity].
    destruct a as [ | x a]; [simpl in E; subst b; reflexivity | ].
    destruct a as [ | y a].
    + simpl in E. inversion E. destruct ds as [ | d ds]; [congruence | ].
      simpl in Hdig. apply andb_prop in Hdig. destruct Hdig as [Hd _].
      cbn [strip_prefix append]. rewrite Ascii.eqb_refl.
      rewrite (digit_is_not "p" d); [reflexivity | reflexivity | exact Hd].
    + simpl in E. inversion E.
      apply (no_number_in_digits ds rest a b); assumption.
  - change (String "/" ("p/" ++ ds ++ rest)) with ("/p/" ++ (ds ++ rest)).
    rewrite strip_prefix_app. unfold digits_group.
    rewrite (span_while_app is_digit ds rest Hdig).
    + destruct ds; [congruence | reflexivity].
    + destruct rest; [reflexivity | exact Hrest].
Qed.

(** X3. An address that ends, after a non-empty part without a newline, in
    [/p/], a number and a rest that neither goes on with a digit nor holds
    [/p/] again has that number as its thread number: [PageItem.__init__]
    returns the item with it, for every address [parse_summary_page] makes
    of such an [href]. *)
Theorem thread_number_of_address :
  forall (pre ds rest : string) (rd : element),
    pre <> "" ->
    all_chars not_newline pre = true ->
    ds <> "" ->
    all_chars is_digit ds = true ->
    starts_with_digit rest = false ->
    occurs "/p/" rest = false ->
    _page_num (pre ++ "/p/" ++ ds ++ rest) = Return (int_of_digits 0 ds) /\
    new_PageItem (base_url (Some ("/p/" ++ ds ++ rest))) rd =
      Return {| url := "http://tieba.baidu.com/p/" ++ ds ++ rest;
                reply_date := rd; page_num := int_of_digits 0 ds;
                title := None; content := None; created_at := None |}.
Proof.
  intros pre ds rest rd Hne Hpre Hds Hdig Hrest Hocc. split.
  - unfold _page_num. rewrite regex_num_found; auto.
  - unfold new_PageItem, _page_num, base_url.
    rewrite (regex_num_found "http://tieba.baidu.com" ds rest); auto.
    discriminate.
Qed.

(** X4. The thread number [_page_num] returns is the number after a [/p/]
    of the address which stands after at least one character, and all of
    it: the digits go on to the first character that is not one.  An address
    without [/p/] has no thread number, and [_page_num] raises
    [AttributeError] on it. *)
Theorem page_num_is_read_after_slash_p :
  forall (u : string),
    (forall n, _page_num u = Return n ->
       exists pre ds rest,
         u = pre ++ "/p/" ++ ds ++ rest /\
         pre <> "" /\ all_chars not_newline pre = true /\
         ds <> "" /\ all_chars is_digit ds = true /\
         starts_with_digit rest = false /\
         n = int_of_digits 0 ds) /\
    (occurs "/p/" u = false -> _page_num u = Raise AttributeError).
Proof.
  intros u. split.
  - intros n H. unfold _page_num in H.
    destruct (regex_num u) as [ds | ] eqn:Hre; [ | discriminate].
    inversion H; subst n. unfold regex_num in Hre.
    apply dot_plus_some in Hre. destruct Hre as (a & b & E & Ha & Hnl & Hk).
    destruct (strip_prefix "/p/" b) as [r | ] eqn:Hb; [ | discriminate].
    apply strip_prefix_some in Hb. unfold digits_group in Hk.
    destruct (span_while_split is_digit r) as (rest & Er & Hall & Hrest).
    destruct (span_while is_digit r) as [ | d ds'] eqn:Hsp; [discriminate | ].
    inversion Hk; subst ds.
    exists a, (String d ds'), rest. repeat split; try assumption.
    + rewrite E, Hb, Er. reflexivity.
    + discriminate.
  - intros Hocc. unfold _page_num, regex_num.
    destruct u as [ | c u]; [reflexivity | ]. unfold dot_plus.
    destruct (is_newline c); [reflexivity | ].
    rewrite dot_plus_rest_none; [reflexivity | ].
    intros a b E. cbv beta.
    rewrite (occurs_false_suffix "/p/" (String c u) (String c a) b Hocc);
      [reflexivity | simpl; rewrite E; reflexivity].
Qed.

Lemma span_while_all (f : ascii -> bool) (s : string) :
  all_chars f s = true -> span_while f s = s.
Proof.
  induction s as [ | c s IH]; simpl; [reflexivity | ].
  intros H. apply andb_prop in H. destruct H as [Hc Hs].
  rewrite Hc, (IH Hs). reflexivity.
Qed.

Lemma regex_charset_found (pre cs : string) :
  pre <> "" ->
  all_chars not_newline pre = true ->
  cs <> "" ->
  all_chars not_newline cs = true ->
  occurs "charset=" cs = false ->
  regex_charset (pre ++ "charset=" ++ cs) = Some cs.
Proof.
  intros Hne Hpre Hcs Hnl Hocc. unfold regex_charset.
  change ("charset=" ++ cs) with (String "c" ("harset=" ++ cs)).
  apply dot_plus_found; [assumption | assumption | | ].
  - intros a b E.
    assert (Hb : strip_prefix "charset=" b = None); [ | rewrite Hb; reflexivity].
    do 7 (destruct a as [ | ? a];
          [simpl in E; subst b; reflexivity | simpl in E; injection E as _ E]).
    exact (occurs_false_suffix "charset=" cs a b Hocc E).
  - change (String "c" ("harset=" ++ cs)) with ("charset=" ++ cs).
    rewrite strip_prefix_app. unfold line_group.
    change (fun c : ascii => negb (is_newline c)) with not_newline.
    rewrite (span_while_all not_newline cs Hnl).
    destruct cs; [congruence | reflexivity].
Qed.

Lemma regex_charset_none (content_type : string) :
  occurs "charset=" content_type = false ->
  regex_charset content_type = None.
Proof.
  intros Hocc. unfold regex_charset.
  destruct content_type as [ | c u]; [reflexivity | ]. unfold dot_plus.
  destruct (is_newline c); [reflexivity | ].
  apply dot_plus_rest_none. intros a b E. cbv beta.
  rewrite (occurs_false_suffix "charset=" (String c u) (String c a) b Hocc);
    [reflexivity | simpl; rewrite E; reflexivity].
Qed.

(** X5. The charset [handle_request] reads out of a [Content-Type] header
    is everything that follows [charset=] up to the end of the line, not
    only the name of the charset; a header without [charset=] gives none. *)
Theorem charset_is_the_rest_of_the_line :
  forall (content_type : string),
    (forall pre cs,
        content_type = pre ++ "charset=" ++ cs ->
        pre <> "" -> all_chars not_newline pre = true ->
        cs <> "" -> all_chars not_newline cs = true ->
        occurs "charset=" cs = false ->
        regex_charset content_type = Some cs) /\
    (forall cs,
        regex_charset content_type = Some cs ->
        exists pre rest,
          content_type = pre ++ "charset=" ++ cs ++ rest /\
          pre <> "" /\ cs <> "" /\ all_chars not_newline cs = true /\
          match rest with String c _ => is_newline c | EmptyString => true end = true) /\
    (occurs "charset=" content_type = false -> regex_charset content_type = None).
Proof.
  intros content_type. split; [ | split].
  - intros pre cs E. subst content_type. apply regex_charset_found.
  - intros cs H. unfold regex_charset in H.
    apply dot_plus_some in H. destruct H as (a & b & E & Ha & _ & Hk).
    destruct (strip_prefix "charset=" b) as [r | ] eqn:Hb; [ | discriminate].
    apply strip_prefix_some in Hb. unfold line_group in Hk.
    change (fun c : ascii => negb (is_newline c)) with not_newline in Hk.
    destruct (span_while_split not_newline r) as (rest & Er & Hall & Hrest).
    destruct (span_while not_newline r) as [ | d ds'] eqn:Hsp; [discriminate | ].
    inversion Hk; subst cs.
    exists a, rest. repeat split; try assumption.
    + rewrite E, Hb, Er. reflexivity.
    + discriminate.
    + destruct rest as [ | c rest]; [reflexivity | ].
      unfold not_newline in Hrest. apply negb_false_iff in Hrest. exact Hrest.
  - apply regex_charset_none.
Qed.

(** ** Listing pages that fail, and what a detail page changes *)

Section PageFacts.

Context {L : Library}.

Notation "x <- c ;; k" := (bind c (fun x => k))
  (at level 61, c at next level, right associativity).
Notation "c ;;; k" := (bind c (fun _ => k))
  (at level 61, right associativity).

Lemma listing_fails_raises (page_url : string) (x : exn) :
  listing_fails page_url x ->
  forall w0 : world, exists w1, next_listing page_url w0 = (Raise x, w1).
Proof.
  intros H w0. unfold next_listing, fetch_summary_page, bind, lift.
  destruct H as [e Hf | resp msg Hf He | resp Hf He Hh | resp ct Hf He Hh Hc
                | resp ct cs Hf He Hh Hc Hd | resp ct cs html e Hf He Hh Hc Hd Hne Hdoc];
    rewrite Hf; cbn [of_result]; [eexists; reflexivity | ..];
    unfold handle_request; rewrite He.
  - unfold bind, print, ret, unpack, raise, lift. eexists. reflexivity.
  - unfold bind, lift. rewrite Hh. eexists. reflexivity.
  - unfold bind, lift. rewrite Hh. rewrite (regex_charset_none ct Hc).
    eexists. reflexivity.
  - unfold bind, lift. rewrite Hh, Hc. unfold decode_body. rewrite Hd.
    unfold ret, unpack, raise, lift. cbn. eexists. reflexivity.
  - unfold bind, lift. rewrite Hh, Hc. unfold decode_body. rewrite Hd.
    unfold ret. cbn iota beta.
    destruct (String.eqb html "") eqn:E; [apply String.eqb_eq in E; congruence | ].
    unfold parse_summary_page, bind, lift. rewrite Hdoc. eexists. reflexivity.
Qed.

(** X6. A listing page that cannot be loaded ends the run: nothing catches
    the exception of the synchronous fetch or of the parser, and a response
    with an error or an empty text makes [fetch_summary_page] return [None],
    which line 185 or 191 cannot unpack ([TypeError]).  The exception leaves
    [main], for the seed listing and for every next page. *)
Theorem listing_that_cannot_be_loaded_ends_the_run :
  forall (page_url : string) (x : exn),
    listing_fails page_url x ->
    (forall w0 : world, exists w1, next_listing page_url w0 = (Raise x, w1)) /\
    (forall fuel items (w0 w1 : world),
        page_url <> "" ->
        async_fetch items w0 = (Return tt, w1) ->
        exists w2, main_loop (S fuel) (Some page_url) items w0 = (Raise x, w2)) /\
    (forall fuel args kw (w0 : world),
        get_keyword (match args with _ :: k :: _ => k | _ => "java" end) = Return kw ->
        page_url = "http://tieba.baidu.com/f/good?kw=" ++ kw ->
        exists w2, main fuel args w0 = (Raise x, w2)).
Proof.
  intros page_url x H. split; [ | split].
  - apply listing_fails_raises. exact H.
  - intros fuel items w0 w1 Hne Hfetch.
    exact (main_loop_listing_raises x page_url (listing_fails_raises _ _ H)
             Hne fuel items w0 w1 Hfetch).
  - intros fuel args kw w0 Hkw Hurl.
    exact (main_seed_listing_raises x page_url (listing_fails_raises _ _ H)
             fuel args kw w0 Hkw Hurl).
Qed.

Lemma summary_body_incomplete (li : element) (acc : list PageItem) :
  complete_entry li = false ->
  summary_body li acc =
  Raise (if has_link_and_date li then AttributeError else IndexError).
Proof.
  unfold complete_entry. intros H.
  destruct (has_link_and_date li) eqn:Hld.
  - simpl in H. apply summary_body_without_number; assumption.
  - unfold summary_body. unfold has_link_and_date, entry_url, entry_reply_date in Hld.
    destruct (css (TagClass "a" "j_th_tit") li); [reflexivity | ].
    destruct (css (TagClass "span" "j_reply_data") li); [reflexivity | discriminate].
Qed.

Lemma summary_loop_complete (l : list element) :
  forallb complete_entry l = true ->
  forall acc, exists items, summary_loop l acc = Return (acc ++ items)%list.
Proof.
  intros H acc. destruct (summary_loop_numbered l H acc) as (items & Hi & _).
  exists items. exact Hi.
Qed.

Lemma summary_loop_first_incomplete (pre : list element) (bad : element)
    (post : list element) (acc : list PageItem) :
  forallb complete_entry pre = true ->
  complete_entry bad = false ->
  summary_loop (pre ++ bad :: post) acc =
  Raise (if has_link_and_date bad then AttributeError else IndexError).
Proof.
  intros Hpre Hbad. rewrite summary_loop_app.
  destruct (summary_loop_complete pre Hpre acc) as (items & Hi). rewrite Hi.
  cbn [summary_loop]. rewrite (summary_body_incomplete bad _ Hbad). reflexivity.
Qed.

Lemma forallb_false_split {A} (f : A -> bool) (l : list A) :
  forallb f l = false ->
  exists pre bad post,
    l = (pre ++ bad :: post)%list /\ forallb f pre = true /\ f bad = false.
Proof.
  induction l as [ | a l IH]; simpl; [discriminate | ].
  destruct (f a) eqn:Ha; simpl.
  - intros H. destruct (IH H) as (pre & bad & post & E & Hpre & Hbad).
    exists (a :: pre), bad, post. repeat split.
    + simpl. rewrite E. reflexivity.
    + simpl. rewrite Ha. exact Hpre.
    + exact Hbad.
  - intros _. exists [], a, l. repeat split. exact Ha.
Qed.

(** X7. [parse_summary_page] returns a listing exactly when every entry of
    the page has a title link, a reply date and a thread number; else it
    raises at the first entry that has not, [IndexError] for a missing link
    or date and [AttributeError] for a missing number.  In both cases it
    leaves the world as it is. *)
Theorem listing_is_parsed_iff_every_entry_is_complete :
  forall (html : string) (doc : element) (w : world),
    etree_HTML html = Ok doc ->
    snd (parse_summary_page html w) = w /\
    (forallb complete_entry (css (TagClass "li" "j_thread_list") doc) = true <->
     exists r, fst (parse_summary_page html w) = Return r) /\
    (forall pre bad post,
        css (TagClass "li" "j_thread_list") doc = (pre ++ bad :: post)%list ->
        forallb complete_entry pre = true ->
        complete_entry bad = false ->
        fst (parse_summary_page html w) =
        Raise (if has_link_and_date bad then AttributeError else IndexError)).
Proof.
  intros html doc w Hdoc.
  assert (Hfirst : forall pre bad post,
             css (TagClass "li" "j_thread_list") doc = (pre ++ bad :: post)%list ->
             forallb complete_entry pre = true ->
             complete_entry bad = false ->
             parse_summary_page html w =
             (Raise (if has_link_and_date bad then AttributeError else IndexError), w)).
  { intros pre bad post E Hpre Hbad.
    unfold parse_summary_page, bind, lift. rewrite Hdoc. cbn [of_result].
    rewrite E, (summary_loop_first_incomplete pre bad post [] Hpre Hbad).
    reflexivity. }
  assert (Hall : forallb complete_entry (css (TagClass "li" "j_thread_list") doc) = true ->
                 exists r, parse_summary_page html w = (Return r, w)).
  { intros H. unfold parse_summary_page, bind, lift, ret. rewrite Hdoc. cbn [of_result].
    destruct (summary_loop_complete _ H []) as (items & Hi). rewrite Hi.
    eexists. reflexivity. }
  split; [ | split].
  - destruct (forallb complete_entry (css (TagClass "li" "j_thread_list") doc)) eqn:H.
    + destruct (Hall eq_refl) as (r & Hr). rewrite Hr. reflexivity.
    + destruct (forallb_false_split _ _ H) as (pre & bad & post & E & Hpre & Hbad).
      rewrite (Hfirst pre bad post E Hpre Hbad). reflexivity.
  - split.
    + intros H. destruct (Hall H) as (r & Hr). exists r. rewrite Hr. reflexivity.
    + intros (r & Hr).
      destruct (forallb complete_entry (css (TagClass "li" "j_thread_list") doc)) eqn:H;
        [reflexivity | ].
      destruct (forallb_false_split _ _ H) as (pre & bad & post & E & Hpre & Hbad).
      rewrite (Hfirst pre bad post E Hpre Hbad) in Hr. discriminate.
  - intros pre bad post E Hpre Hbad.
    rewrite (Hfirst pre bad post E Hpre Hbad). reflexivity.
Qed.

Lemma same_loop_refl (w : world) : same_loop w w.
Proof. unfold same_loop. repeat split. Qed.

Lemma same_loop_trans (w1 w2 w3 : world) :
  same_loop w1 w2 -> same_loop w2 w3 -> same_loop w1 w3.
Proof.
  unfold same_loop. intros (a1 & a2 & a3 & a4 & a5 & a6) (b1 & b2 & b3 & b4 & b5 & b6).
  repeat split; congruence.
Qed.

Lemma same_loop_add_stdout (out : list string) (w : world) :
  same_loop w (add_stdout out w).
Proof. unfold same_loop. repeat split. Qed.

Lemma py_getitem_not_blocks (v : pyvalue) (k : string) : py_getitem v k <> Blocks.
Proof.
  destruct v; simpl; try discriminate. destruct (dict_get d k); discriminate.
Qed.

Lemma py_get_not_blocks (v : pyvalue) (k : string) : py_get v k <> Blocks.
Proof.
  destruct v; simpl; try discriminate. destruct (dict_get d k); discriminate.
Qed.

Lemma user_id_of_not_blocks (a : pyvalue) : user_id_of a <> Blocks.
Proof.
  unfold user_id_of. destruct (py_get a "id") as [id | e | ] eqn:E.
  - destruct (truthy id); [discriminate | apply py_get_not_blocks].
  - discriminate.
  - exfalso. exact (py_get_not_blocks _ _ E).
Qed.

Lemma first_not_blocks {A} (l : list A) : first l <> Blocks.
Proof. destruct l; discriminate. Qed.

(** The body of the loop returns or raises. *)
Lemma post_body_not_blocks (div : element) (v : loop_vars) (w : world) :
  fst (post_body div v w) <> Blocks.
Proof.
  unfold post_body. destruct (json_loads (get_attr div "data-field")) as [data | e].
  - unfold bind, lift, ret.
    destruct (py_getitem data "content") as [c | e | ] eqn:Hc;
      [ | discriminate | exfalso; exact (py_getitem_not_blocks _ _ Hc)].
    destruct (py_getitem data "author") as [a | e | ] eqn:Ha;
      [ | discriminate | exfalso; exact (py_getitem_not_blocks _ _ Ha)].
    destruct (user_id_of a) as [u | e | ] eqn:Hu;
      [ | discriminate | exfalso; exact (user_id_of_not_blocks _ Hu)].
    destruct (py_getitem c "date") as [d | e | ] eqn:Hd;
      [ | discriminate | exfalso; exact (py_getitem_not_blocks _ _ Hd)].
    destruct (py_ne _ u); [discriminate | ].
    destruct (first (css (Under "cc" "div" "d_post_content") div)) as [p | e | ] eqn:Hp;
      [discriminate | discriminate | exfalso; exact (first_not_blocks _ Hp)].
  - unfold bind, print, ret. discriminate.
Qed.

Lemma for_each_not_blocks (l : list element) (v : loop_vars) (w : world) :
  fst (for_each post_body l v w) <> Blocks.
Proof.
  revert v w. induction l as [ | div l IH]; intros v w; cbn [for_each].
  - discriminate.
  - unfold bind. pose proof (post_body_not_blocks div v w) as Hb.
    destruct (post_body div v w) as [[[[ | ] v'] | e | ] w']; cbn [fst] in *.
    + apply IH.
    + discriminate.
    + discriminate.
    + congruence.
Qed.

(** What a call of [parse_detail_page] can do: it returns or raises, it
    leaves the event loop alone, and it sends the database nothing or one
    [insert] with the thread number of its item. *)
Lemma parse_detail_page_effect (self : PageItem) (html : string) (w : world) :
  exists r w',
    parse_detail_page self html w = (r, w') /\
    r <> Blocks /\
    same_loop w w' /\
    (server w' = server w \/
     exists t c d,
       server w' =
       snd (db_execute insert_str
              [PyInt (page_num self); PyStr t; PyStr c; d] (server w))).
Proof.
  unfold parse_detail_page, bind, lift.
  destruct (etree_HTML html) as [doc | e]; cbn [of_result].
  2: { do 2 eexists. split; [reflexivity | ]. split; [discriminate | ].
       split; [apply same_loop_refl | left; reflexivity]. }
  destruct (css (TagClass "div" "core") doc) as [ | content_list others].
  { do 2 eexists. split; [reflexivity | ]. split; [discriminate | ].
    split; [apply same_loop_refl | left; reflexivity]. }
  destruct (for_each_output (css (TagClass "div" "l_post") content_list)
              {| main_author := PyNone; contents := []; lv_created_at := PyNone |})
    as (r & out & Hloop).
  pose proof (for_each_not_blocks (css (TagClass "div" "l_post") content_list)
                {| main_author := PyNone; contents := []; lv_created_at := PyNone |} w)
    as Hnb.
  rewrite Hloop in *. cbn [fst] in Hnb.
  destruct r as [v | e | ]; [ | | congruence].
  2: { do 2 eexists. split; [reflexivity | ]. split; [discriminate | ].
       split; [apply same_loop_add_stdout | left; reflexivity]. }
  destruct (css (AnyClass "core_title_txt") content_list) as [ | title_node others'];
    cbn [first].
  { do 2 eexists. split; [reflexivity | ]. split; [discriminate | ].
    split; [apply same_loop_add_stdout | left; reflexivity]. }
  destruct (text title_node) as [t | ].
  2: { do 2 eexists. split; [reflexivity | ]. split; [discriminate | ].
       split; [apply same_loop_add_stdout | left; reflexivity]. }
  unfold save_to_sqlite, bind, print, PageItem_db_execute, ret.
  cbn [PageItem_db server stdout title content created_at page_num or_empty add_stdout].
  destruct (PageItem_db w) eqn:Hset.
  - destruct (db_execute insert_str _ (server w)) as [[z | e] s'] eqn:Hdb;
      cbn [of_result];
      (do 2 eexists; split; [reflexivity | ]; split; [discriminate | ];
       split; [unfold same_loop; cbn; rewrite Hset; repeat split | right ]);
      cbn [server]; do 3 eexists; rewrite Hdb; reflexivity.
  - do 2 eexists. split; [reflexivity | ]. split; [discriminate | ].
    split; [unfold same_loop; cbn; rewrite Hset; repeat split | left; reflexivity].
Qed.

(** X8. The row of a page: when the page has a [div.core], the loop over
    its fragments ends with the variables [v], and the first title node has
    a text [t], [parse_detail_page] prints [t] after what the loop printed
    and sends one [insert] with the thread number of the item, [t], the
    contents joined by an empty line and the date the loop kept.  It returns
    the item with these attributes when the server accepts the row, and the
    server's exception leaves the call when it does not. *)
Theorem detail_page_is_stored :
  forall (self : PageItem) (html : string) (doc content_list : element)
         (others : list element) (v : loop_vars) (title_node : element)
         (others' : list element) (t : string) (w : world),
    etree_HTML html = Ok doc ->
    css (TagClass "div" "core") doc = content_list :: others ->
    fst (for_each post_body (css (TagClass "div" "l_post") content_list)
           {| main_author := PyNone; contents := []; lv_created_at := PyNone |} w) =
      Return v ->
    css (AnyClass "core_title_txt") content_list = title_node :: others' ->
    text title_node = Some t ->
    PageItem_db w = true ->
    let row := [PyInt (page_num self); PyStr t;
                PyStr (join (newline ++ newline) (contents v)); lv_created_at v] in
    let r := parse_detail_page self html w in
    fst r = match fst (db_execute insert_str row (server w)) with
            | Ok _ => Return {| url := url self; reply_date := reply_date self;
                                page_num := page_num self; title := Some t;
                                content := Some (join (newline ++ newline) (contents v));
                                created_at := Some (lv_created_at v) |}
            | Err e => Raise e
            end /\
    server (snd r) = snd (db_execute insert_str row (server w)) /\
    stdout (snd r) =
      (stdout (snd (for_each post_body (css (TagClass "div" "l_post") content_list)
                      {| main_author := PyNone; contents := [];
                         lv_created_at := PyNone |} w)) ++ [t])%list.
Proof.
  intros self html doc content_list others v title_node others' t w
         Hdoc Hcore Hloop Htitle Htext Hset row r.
  subst r. unfold parse_detail_page, bind, lift. rewrite Hdoc. cbn [of_result].
  rewrite Hcore.
  destruct (for_each_output (css (TagClass "div" "l_post") content_list)
              {| main_author := PyNone; contents := []; lv_created_at := PyNone |})
    as (r0 & out & Hout).
  rewrite Hout in *. cbn [fst snd] in *. subst r0.
  rewrite Htitle. cbn [first]. rewrite Htext.
  unfold save_to_sqlite, bind, print, PageItem_db_execute, ret.
  cbn [PageItem_db server stdout title content created_at page_num or_empty add_stdout].
  rewrite Hset. fold row.
  destruct (db_execute insert_str row (server w)) as [[z | e] s'];
    cbn [of_result fst snd server stdout]; repeat split.
Qed.

Lemma post_body_raises (m : pyvalue) (bad : element) (e : exn)
    (v : loop_vars) (w : world) :
  m <> PyNone ->
  main_author v = m ->
  fragment_raises m bad e ->
  post_body bad v w = (Raise e, w).
Proof.
  intros Hm Hv [data Hd Hc | uid date Hdec Hsame Htext].
  - unfold post_body. rewrite Hd. unfold bind, lift. rewrite Hc. reflexivity.
  - rewrite (post_body_decoded _ _ _ v w Hdec). cbv zeta. rewrite Hv.
    assert (HnotNone : is_None m = false)
      by (destruct m; [exfalso; apply Hm; reflexivity | reflexivity ..]).
    rewrite HnotNone, Hsame, Htext. reflexivity.
Qed.

Lemma for_each_first_fragments (m : pyvalue) (f1 : fragment) (same : list fragment)
    (rest : list element) (w : world) :
  m <> PyNone ->
  decodes (f_node f1) m (f_date f1) ->
  py_ne m m = false ->
  fragment_text (f_node f1) = Return (f_text f1) ->
  Forall (of_author m) same ->
  for_each post_body (map f_node (f1 :: same) ++ rest)
    {| main_author := PyNone; contents := []; lv_created_at := PyNone |} w =
  for_each post_body rest
    {| main_author := m; contents := map f_text (f1 :: same);
       lv_created_at := List.last (map f_date same) (f_date f1) |} w.
Proof.
  intros Hm Hdec Hrefl Htext Hsame. cbn [map app for_each]. unfold bind at 1.
  rewrite (post_body_decoded _ _ _ _ w Hdec). cbv zeta.
  cbn [main_author is_None contents app]. rewrite Hrefl, Htext.
  rewrite (for_each_of_author m same rest Hm Hsame) by reflexivity.
  reflexivity.
Qed.

(** X9. Only a payload that is not JSON is passed over.  When a fragment
    the loop reaches raises anything else (its payload has no ["content"],
    or it is of the main author and has no text node), the exception leaves
    [parse_detail_page]: nothing of the page is printed or stored, the
    fragments before it included. *)
Theorem failure_inside_a_fragment_drops_the_page :
  forall (self : PageItem) (html : string) (doc content_list : element)
         (others : list element) (m : pyvalue) (f1 : fragment)
         (same : list fragment) (bad : element) (rest : list element)
         (e : exn) (w : world),
    etree_HTML html = Ok doc ->
    css (TagClass "div" "core") doc = content_list :: others ->
    css (TagClass "div" "l_post") content_list =
      (map f_node (f1 :: same) ++ bad :: rest)%list ->
    m <> PyNone ->
    decodes (f_node f1) m (f_date f1) ->
    py_ne m m = false ->
    fragment_text (f_node f1) = Return (f_text f1) ->
    Forall (of_author m) same ->
    fragment_raises m bad e ->
    parse_detail_page self html w = (Raise e, w).
Proof.
  intros self html doc content_list others m f1 same bad rest e w
         Hdoc Hcore Hposts Hm Hdec Hrefl Htext Hsame Hbad.
  unfold parse_detail_page, bind, lift. rewrite Hdoc. cbn [of_result].
  rewrite Hcore, Hposts.
  rewrite (for_each_first_fragments m f1 same (bad :: rest) w Hm Hdec Hrefl Htext Hsame).
  cbn [for_each]. unfold bind.
  rewrite (post_body_raises m bad e
             {| main_author := m; contents := map f_text (f1 :: same);
                lv_created_at := List.last (map f_date same) (f_date f1) |}
             w Hm eq_refl Hbad).
  reflexivity.
Qed.

(** X10. A page without a title is not stored: after the loop over the
    fragments, line 87 raises [IndexError] when the [div.core] has no
    [.core_title_txt] node and [AttributeError] when the first such node
    has no text, and the database gets nothing. *)
Theorem page_without_title_is_not_stored :
  forall (self : PageItem) (html : string) (doc content_list : element)
         (others : list element) (v : loop_vars) (w : world),
    etree_HTML html = Ok doc ->
    css (TagClass "div" "core") doc = content_list :: others ->
    fst (for_each post_body (css (TagClass "div" "l_post") content_list)
           {| main_author := PyNone; contents := []; lv_created_at := PyNone |} w) =
      Return v ->
    let r := parse_detail_page self html w in
    (css (AnyClass "core_title_txt") content_list = [] ->
     fst r = Raise IndexError /\ server (snd r) = server w) /\
    (forall title_node others',
        css (AnyClass "core_title_txt") content_list = title_node :: others' ->
        text title_node = None ->
        fst r = Raise AttributeError /\ server (snd r) = server w).
Proof.
  intros self html doc content_list others v w Hdoc Hcore Hloop r.
  subst r. unfold parse_detail_page, bind, lift. rewrite Hdoc. cbn [of_result].
  rewrite Hcore.
  destruct (for_each_output (css (TagClass "div" "l_post") content_list)
              {| main_author := PyNone; contents := []; lv_created_at := PyNone |})
    as (r0 & out & Hout).
  rewrite Hout in *. cbn [fst snd] in *. subst r0.
  split.
  - intros Htitle. rewrite Htitle. split; reflexivity.
  - intros title_node others' Htitle Htext. rewrite Htitle. cbn [first].
    rewrite Htext. split; reflexivity.
Qed.

(** X11. Whatever the page, [parse_detail_page] returns or raises, leaves
    the event loop and the waiting requests as they are, and sends the
    database at most one statement: the [insert] with the thread number of
    its item.  A page without [div.core] changes nothing at all. *)
Theorem detail_page_changes_output_and_store_only :
  forall (self : PageItem) (html : string) (w : world),
    let r := parse_detail_page self html w in
    fst r <> Blocks /\
    same_loop w (snd r) /\
    (server (snd r) = server w \/
     exists t c d,
       server (snd r) =
       snd (db_execute insert_str
              [PyInt (page_num self); PyStr t; PyStr c; d] (server w))) /\
    (forall doc,
        etree_HTML html = Ok doc ->
        css (TagClass "div" "core") doc = [] ->
        r = (Return self, w)).
Proof.
  intros self html w r. subst r.
  destruct (parse_detail_page_effect self html w) as (r & w' & E & Hnb & Hsame & Hdb).
  rewrite E. cbn [fst snd]. repeat split; try assumption; try apply Hsame.
  intros doc Hdoc Hcore. rewrite <- E.
  unfold parse_detail_page, bind, lift. rewrite Hdoc. cbn [of_result].
  rewrite Hcore. reflexivity.
Qed.

End PageFacts.

(** ** The event loop: when [async_fetch] returns *)

Section LoopFacts.

Context {L : Library}.

Notation "x <- c ;; k" := (bind c (fun x => k))
  (at level 61, c at next level, right associativity).
Notation "c ;;; k" := (bind c (fun _ => k))
  (at level 61, right associativity).

Ltac leaf :=
  do 2 eexists; split; [reflexivity | ]; split; [discriminate | ];
  cbn; rewrite ?andb_false_r, ?orb_false_r, ?orb_true_r; repeat split.

Ltac parsed Hp h w0 :=
  let r := fresh "r" in
  let w1 := fresh "w1" in
  let E := fresh "E" in
  let Hnb := fresh "Hnb" in
  destruct (Hp h w0) as (r & w1 & E & Hnb & ? & ? & ? & ? & ? & ?);
  unfold bind, ret; rewrite E;
  destruct r as [? | ? | ]; [ | | congruence];
  (do 2 eexists; split; [reflexivity | ]; split; [discriminate | ];
   cbn in *; rewrite ?andb_false_r, ?orb_false_r, ?orb_true_r;
   repeat split; congruence).

(** What a call of the callback can do, for a parser that leaves the event
    loop alone: it returns or raises, and the loop is stopped after it
    exactly when it was before or the callback has the exit flag and got
    as far as line 37. *)
Lemma handle_request_effect {R} (func_parser : string -> M R) (flag : bool)
    (resp : response) (w : world) :
  (forall h w0, exists r w1,
      func_parser h w0 = (r, w1) /\ r <> Blocks /\ same_loop w0 w1) ->
  exists r w',
    handle_request func_parser flag resp w = (r, w') /\
    r <> Blocks /\
    PageItem_db w' = PageItem_db w /\
    requests w' = requests w /\
    pending w' = pending w /\
    loop_runs w' = loop_runs w /\
    logged w' = logged w /\
    stopped w' = (stopped w || (flag && reaches_stop resp)).
Proof.
  intros Hp. unfold handle_request, reaches_stop.
  destruct (error resp) as [msg | ].
  { unfold bind, print, ret. leaf. }
  unfold bind at 1, lift at 1.
  destruct (get_attr_in (headers resp) "Content-Type") as [ct | ]; [ | leaf].
  unfold bind at 1, lift at 1.
  destruct (regex_charset ct) as [cs | ]; [ | leaf].
  unfold decode_body.
  destruct (decode cs false (body resp)) as [html | e].
  - unfold bind at 1, ret at 1.
    destruct flag; unfold bind at 1, ioloop_stop, ret at 1;
      (destruct (String.eqb html ""); [unfold ret; leaf | ]).
    + parsed Hp html
        {| stdout := stdout w; PageItem_db := PageItem_db w; server := server w;
           stopped := true; requests := requests w; pending := pending w;
           loop_runs := loop_runs w; logged := logged w |}.
    + parsed Hp html w.
  - destruct (is_UnicodeDecodeError e); [ | unfold raise, lift, bind; leaf].
    destruct (String.eqb (lower cs) "gbk").
    + destruct (decode "gb18030" true (body resp)) as [html | e'].
      * unfold bind at 1, ret at 1.
        destruct flag; unfold bind at 1, ioloop_stop, ret at 1;
          (destruct (String.eqb html ""); [unfold ret; leaf | ]).
        -- parsed Hp html
             {| stdout := stdout w; PageItem_db := PageItem_db w; server := server w;
                stopped := true; requests := requests w; pending := pending w;
                loop_runs := loop_runs w; logged := logged w |}.
        -- parsed Hp html w.
      * destruct flag; unfold bind, print, ret, ioloop_stop; leaf.
    + destruct flag; unfold bind, ret, ioloop_stop, raise, lift; leaf.
Qed.

Lemma detail_parser_effect (it : PageItem) :
  forall h (w0 : world), exists r w1,
    parse_detail_page it h w0 = (r, w1) /\ r <> Blocks /\ same_loop w0 w1.
Proof.
  intros h w0.
  destruct (parse_detail_page_effect it h w0) as (r & w1 & E & Hnb & Hsame & _).
  exists r, w1. split; [exact E | split; [exact Hnb | exact Hsame]].
Qed.

Lemma take_pending_in (id : nat) (p : list (nat * callback)) cb rest :
  take_pending id p = Some (cb, rest) -> In (id, cb) p.
Proof.
  revert rest. induction p as [ | [n c] p IH]; intros rest H; simpl in H; [discriminate | ].
  destruct (Nat.eqb n id) eqn:E.
  - apply Nat.eqb_eq in E. inversion H; subst. left. reflexivity.
  - destruct (take_pending id p) as [[c' r'] | ]; [ | discriminate].
    inversion H; subst. right. apply (IH r'). reflexivity.
Qed.

Lemma take_pending_split (id : nat) (p : list (nat * callback)) cb rest q :
  take_pending id p = Some (cb, rest) -> In q p -> q = (id, cb) \/ In q rest.
Proof.
  revert rest. induction p as [ | [n c] p IH]; intros rest H Hq; simpl in H; [discriminate | ].
  destruct (Nat.eqb n id) eqn:E.
  - apply Nat.eqb_eq in E. inversion H; subst. destruct Hq as [Hq | Hq]; auto.
  - destruct (take_pending id p) as [[c' r'] | ]; [ | discriminate].
    inversion H; subst. destruct Hq as [Hq | Hq].
    + right. left. exact Hq.
    + destruct (IH r' eq_refl Hq) as [Hq' | Hq']; [left | right; right]; assumption.
Qed.

Lemma take_pending_incl (id : nat) (p : list (nat * callback)) cb rest :
  take_pending id p = Some (cb, rest) -> incl rest p.
Proof.
  revert rest. induction p as [ | [n c] p IH]; intros rest H; simpl in H; [discriminate | ].
  destruct (Nat.eqb n id) eqn:E.
  - inversion H; subst. intros q Hq. right. exact Hq.
  - destruct (take_pending id p) as [[c' r'] | ]; [ | discriminate].
    inversion H; subst. intros q [Hq | Hq]; [left; exact Hq | right].
    exact (IH r' eq_refl q Hq).
Qed.

Lemma take_pending_keeps (id' id : nat) (p : list (nat * callback)) cb rest :
  take_pending id' p = Some (cb, rest) ->
  id <> id' ->
  In id (map fst p) -> In id (map fst rest).
Proof.
  intros H Hne Hin. apply in_map_iff in Hin. destruct Hin as ([n c] & Hn & Hq).
  simpl in Hn. subst n.
  destruct (take_pending_split _ _ _ _ _ H Hq) as [E | Hr].
  - inversion E. congruence.
  - apply in_map_iff. exists (id, c). split; [reflexivity | exact Hr].
Qed.

Lemma take_pending_commute (id last : nat) (p : list (nat * callback)) c1 p1 c2 p2 :
  id <> last ->
  take_pending id p = Some (c1, p1) ->
  take_pending last p = Some (c2, p2) ->
  exists p12,
    take_pending last p1 = Some (c2, p12) /\ take_pending id p2 = Some (c1, p12).
Proof.
  intros Hne. revert p1 p2.
  induction p as [ | [n c] p IH]; intros p1 p2 H1 H2; simpl in H1, H2; [discriminate | ].
  destruct (Nat.eqb n id) eqn:E1; destruct (Nat.eqb n last) eqn:E2.
  - apply Nat.eqb_eq in E1, E2. congruence.
  - inversion H1; subst.
    destruct (take_pending last p1) as [[c' r] | ] eqn:Hl; [ | discriminate].
    inversion H2; subst. exists r. split; [reflexivity | ].
    simpl. rewrite E1. reflexivity.
  - inversion H2; subst.
    destruct (take_pending id p2) as [[c' r] | ] eqn:Hl; [ | discriminate].
    inversion H1; subst. exists r. split; [ | reflexivity].
    simpl. rewrite E2. reflexivity.
  - destruct (take_pending id p) as [[c1' r1] | ]; [ | discriminate].
    destruct (take_pending last p) as [[c2' r2] | ]; [ | discriminate].
    inversion H1; inversion H2; subst.
    destruct (IH r1 r2 eq_refl eq_refl) as (p12 & Ha & Hb).
    exists ((n, c) :: p12). simpl. rewrite E1, E2, Ha, Hb. split; reflexivity.
Qed.

Lemma take_pending_app (id : nat) (old new : list (nat * callback)) :
  Forall (fun q => fst q <> id) old ->
  take_pending id (old ++ new) =
  match take_pending id new with
  | Some (c, r) => Some (c, (old ++ r)%list)
  | None => None
  end.
Proof.
  intros H. induction H as [ | [n c] old Hn Hold IH]; simpl.
  - destruct (take_pending id new) as [[c r] | ]; reflexivity.
  - simpl in Hn. apply Nat.eqb_neq in Hn. rewrite Hn, IH.
    destruct (take_pending id new) as [[c' r] | ]; reflexivity.
Qed.

(** With nobody to stop it the loop waits for ever. *)
Lemma first_stop_none (arr : list (nat * response)) :
  forall p,
    Forall (fun q => cb_exit_flag (snd q) = false) p ->
    first_stop arr p = None.
Proof.
  induction arr as [ | [id resp] arr IH]; intros p Hp; cbn [first_stop]; [reflexivity | ].
  destruct (take_pending id p) as [[cb rest] | ] eqn:Ht; [ | apply IH; exact Hp].
  rewrite Forall_forall in Hp.
  pose proof (Hp _ (take_pending_in _ _ _ _ Ht)) as Hcb. simpl in Hcb.
  unfold stops. rewrite Hcb. cbn [andb]. apply IH.
  rewrite Forall_forall. intros q Hq. apply Hp.
  exact (take_pending_incl _ _ _ _ Ht q Hq).
Qed.

Lemma exit_at_other (last id : nat) (p : list (nat * callback)) cb p1 :
  exit_at last p ->
  id <> last ->
  take_pending id p = Some (cb, p1) ->
  cb_exit_flag cb = false /\ exit_at last p1.
Proof.
  intros (c & rest & Hl & Hc & Hrest) Hne Ht.
  destruct (take_pending_commute id last p cb p1 c rest Hne Ht Hl) as (p12 & Ha & Hb).
  rewrite Forall_forall in Hrest. split.
  - exact (Hrest _ (take_pending_in _ _ _ _ Hb)).
  - exists c, p12. split; [exact Ha | split; [exact Hc | ]].
    rewrite Forall_forall. intros q Hq. apply Hrest.
    exact (take_pending_incl _ _ _ _ Hb q Hq).
Qed.

(** The loop is stopped by the first response to the request with the exit
    flag, if that response gets the callback to line 37, and by nothing
    else; the requests answered by then are gone, the others wait. *)
Lemma first_stop_at_last (last : nat) (arr : list (nat * response)) :
  forall p,
    exit_at last p ->
    match first_arrival last arr with
    | Some resp =>
        if reaches_stop resp
        then exists rest,
               first_stop arr p = Some rest /\
               Forall (fun q => cb_exit_flag (snd q) = false) rest /\
               incl rest p /\
               (forall id, id <> last -> In id (map fst p) ->
                           first_arrival id (arrivals_before last arr) = None ->
                           In id (map fst rest))
        else first_stop arr p = None
    | None => first_stop arr p = None
    end.
Proof.
  induction arr as [ | [id resp] arr IH]; intros p Hp; [reflexivity | ].
  cbn [first_arrival first_stop arrivals_before].
  destruct (Nat.eqb id last) eqn:E.
  - apply Nat.eqb_eq in E. subst id.
    destruct Hp as (c & rest & Hl & Hc & Hrest). rewrite Hl.
    unfold stops. rewrite Hc. cbn [andb].
    destruct (reaches_stop resp).
    + exists rest. split; [reflexivity | split; [exact Hrest | split]].
      * exact (take_pending_incl _ _ _ _ Hl).
      * intros id Hne Hin _. exact (take_pending_keeps _ _ _ _ _ Hl Hne Hin).
    + apply first_stop_none. exact Hrest.
  - apply Nat.eqb_neq in E.
    destruct (take_pending id p) as [[cb p1] | ] eqn:Ht.
    + destruct (exit_at_other last id p cb p1 Hp E Ht) as (Hcb & Hp1).
      unfold stops. rewrite Hcb. cbn [andb].
      specialize (IH p1 Hp1).
      destruct (first_arrival last arr) as [r | ]; [ | exact IH].
      destruct (reaches_stop r); [ | exact IH].
      destruct IH as (rest & Hs & Hf & Hincl & Hkeep).
      exists rest. split; [exact Hs | split; [exact Hf | split]].
      * intros q Hq. exact (take_pending_incl _ _ _ _ Ht q (Hincl q Hq)).
      * intros id' Hne Hin Hnone. cbn [first_arrival] in Hnone.
        destruct (Nat.eqb id id') eqn:E'; [discriminate | ].
        apply Nat.eqb_neq in E'. apply Hkeep; [exact Hne | | exact Hnone].
        apply (take_pending_keeps id id' p cb p1 Ht); [congruence | exact Hin].
    + specialize (IH p Hp).
      destruct (first_arrival last arr) as [r | ]; [ | exact IH].
      destruct (reaches_stop r); [ | exact IH].
      destruct IH as (rest & Hs & Hf & Hincl & Hkeep).
      exists rest. split; [exact Hs | split; [exact Hf | split; [exact Hincl | ]]].
      intros id' Hne Hin Hnone. cbn [first_arrival] in Hnone.
      destruct (Nat.eqb id id') eqn:E'; [discriminate | ].
      apply Hkeep; assumption.
Qed.

(** The event loop returns exactly when a callback stops it, and then with
    the requests that wait at that moment; the state of the class and the
    number of requests are not its business. *)
Lemma run_callbacks_first_stop (arr : list (nat * response)) :
  forall w : world,
    stopped w = false ->
    exists w',
      run_callbacks arr w =
        (match first_stop arr (pending w) with
         | Some _ => Return tt
         | None => Blocks
         end, w') /\
      stopped w' = false /\
      requests w' = requests w /\
      loop_runs w' = loop_runs w /\
      PageItem_db w' = PageItem_db w /\
      (forall rest, first_stop arr (pending w) = Some rest -> pending w' = rest).
Proof.
  induction arr as [ | [id resp] arr IH]; intros w Hs; cbn [run_callbacks first_stop].
  - exists w. repeat split; try assumption. discriminate.
  - destruct (take_pending id (pending w)) as [[cb rest] | ] eqn:Ht; [ | apply IH; exact Hs].
    destruct (handle_request_effect (parse_detail_page (cb_item cb)) (cb_exit_flag cb)
                resp (set_pending rest w) (detail_parser_effect (cb_item cb)))
      as (r & w1 & E & Hnb & Hdb & Hreq & Hpend & Hruns & Hlog & Hstop).
    rewrite E. cbn [set_pending stopped requests pending loop_runs PageItem_db logged] in *.
    rewrite Hs in Hstop. cbn [orb] in Hstop. fold (stops cb resp) in Hstop.
    destruct r as [a | e | ]; [ | | congruence].
    + rewrite Hstop. destruct (stops cb resp).
      * exists (set_stopped false w1). repeat split; try assumption.
        intros rest' Hr. injection Hr as <-. exact Hpend.
      * destruct (IH w1 Hstop) as (w' & Hrun & H1 & H2 & H3 & H4 & H5).
        rewrite Hpend in Hrun, H5.
        exists w'. repeat split; try congruence. exact H5.
    + cbn [log_exception stopped]. rewrite Hstop. destruct (stops cb resp).
      * exists (set_stopped false (log_exception e w1)). repeat split; try assumption.
        intros rest' Hr. injection Hr as <-. exact Hpend.
      * destruct (IH (log_exception e w1) Hstop) as (w' & Hrun & H1 & H2 & H3 & H4 & H5).
        cbn [log_exception pending requests loop_runs PageItem_db] in *.
        rewrite Hpend in Hrun, H5.
        exists w'. repeat split; try congruence. exact H5.
Qed.

(** The loop of [async_fetch] when the client takes every request. *)
Lemma fetch_all_registers (n : nat) (items : list PageItem) :
  forallb (fun it => negb (fetch_refused (url it))) items = true ->
  forall (idx : nat) (w : world), exists w',
    fetch_all n idx items w = (Return tt, w') /\
    pending w' = (pending w ++ callbacks n idx (requests w) items)%list /\
    requests w' = requests w + List.length items /\
    stopped w' = stopped w /\
    loop_runs w' = loop_runs w /\
    PageItem_db w' = PageItem_db w /\
    server w' = server w /\
    stdout w' = stdout w /\
    logged w' = logged w.
Proof.
  induction items as [ | it items IH]; intros Hacc idx w; cbn [fetch_all callbacks].
  - exists w. rewrite app_nil_r, Nat.add_0_r. repeat split.
  - cbn [forallb] in Hacc. apply andb_prop in Hacc. destruct Hacc as [Hit Hacc].
    apply negb_true_iff in Hit.
    unfold bind, try_except, async_client_fetch. rewrite Hit.
    destruct (IH Hacc (S idx)
               {| stdout := stdout w; PageItem_db := PageItem_db w; server := server w;
                  stopped := stopped w; requests := S (requests w);
                  pending := (pending w ++
                              [(requests w,
                                {| cb_item := it;
                                   cb_exit_flag := Nat.eqb n (idx + 1) |})])%list;
                  loop_runs := loop_runs w; logged := logged w |})
      as (w' & Hrun & Hp & Hr & H1 & H2 & H3 & H4 & H5 & H6).
    cbn [stdout PageItem_db server stopped requests pending loop_runs logged] in *.
    exists w'. split; [exact Hrun | ]. split; [ | split; [ | repeat split; assumption]].
    + rewrite Hp, <- app_assoc. reflexivity.
    + rewrite Hr. cbn [List.length]. lia.
Qed.

Lemma callbacks_below (n idx id : nat) (items : list PageItem) :
  forall q, In q (callbacks n idx id items) ->
            id <= fst q /\ fst q < id + List.length items.
Proof.
  revert idx id. induction items as [ | it items IH]; intros idx id q Hq;
    cbn [callbacks] in Hq; [contradiction | ].
  cbn [List.length]. destruct Hq as [Hq | Hq].
  - subst q. cbn [fst]. lia.
  - destruct (IH _ _ q Hq). lia.
Qed.

Lemma callbacks_ids (n idx id : nat) (items : list PageItem) :
  map fst (callbacks n idx id items) = seq id (List.length items).
Proof.
  revert idx id. induction items as [ | it items IH]; intros idx id;
    cbn [callbacks map List.length seq fst]; [reflexivity | ].
  rewrite IH. reflexivity.
Qed.

(** Only the last of the requests of a call has the exit flag. *)
Lemma callbacks_exit_at (items : list PageItem) :
  forall (n idx id : nat),
    items <> [] ->
    n = idx + List.length items ->
    exit_at (id + List.length items - 1) (callbacks n idx id items).
Proof.
  induction items as [ | it items IH]; intros n idx id Hne Hn; [congruence | ].
  cbn [callbacks List.length] in *. unfold exit_at. cbn [take_pending].
  destruct items as [ | it' items].
  - cbn [List.length callbacks] in *.
    replace (id + 1 - 1) with id by lia. rewrite Nat.eqb_refl.
    do 2 eexists. split; [reflexivity | split; [ | constructor]].
    cbn [cb_exit_flag]. apply Nat.eqb_eq. lia.
  - assert (Hid : Nat.eqb id (id + S (List.length (it' :: items)) - 1) = false)
      by (apply Nat.eqb_neq; cbn [List.length]; lia).
    rewrite Hid.
    destruct (IH n (S idx) (S id)) as (cb & rest & Ht & Hcb & Hrest);
      [discriminate | cbn [List.length] in *; lia | ].
    replace (id + S (List.length (it' :: items)) - 1)
      with (S id + List.length (it' :: items) - 1) by (cbn [List.length]; lia).
    rewrite Ht. do 2 eexists. split; [reflexivity | split; [exact Hcb | ]].
    constructor; [ | exact Hrest].
    cbn [snd cb_exit_flag]. apply Nat.eqb_neq. cbn [List.length] in *. lia.
Qed.

(** The state in which the event loop starts in [async_fetch], and who
    stops it. *)
Lemma async_fetch_starts (items : list PageItem) (w : world) :
  items <> [] ->
  forallb (fun it => negb (fetch_refused (url it))) items = true ->
  stopped w = false ->
  Forall (waits_below (requests w)) (pending w) ->
  exists w1,
    fetch_all (List.length items) 0 items w = (Return tt, w1) /\
    async_fetch items w = run_callbacks (arrivals (loop_runs w)) (next_run w1) /\
    pending w1 = (pending w ++ callbacks (List.length items) 0 (requests w) items)%list /\
    requests w1 = requests w + List.length items /\
    stopped w1 = false /\
    loop_runs w1 = loop_runs w /\
    exit_at (requests w + List.length items - 1) (pending w1).
Proof.
  intros Hne Hacc Hs Hold.
  destruct (fetch_all_registers (List.length items) items Hacc 0 w)
    as (w1 & Hrun & Hp & Hr & H1 & H2 & H3 & H4 & H5 & H6).
  exists w1. split; [exact Hrun | ]. split; [ | split; [exact Hp | split; [exact Hr | ]]].
  - unfold async_fetch. destruct items as [ | it items]; [congruence | ].
    unfold bind. rewrite Hrun. unfold ioloop_start. rewrite H1, Hs, H2. reflexivity.
  - split; [congruence | split; [exact H2 | ]].
    destruct (callbacks_exit_at items (List.length items) 0 (requests w) Hne eq_refl)
      as (cb & rest & Ht & Hcb & Hrest).
    exists cb, (pending w ++ rest)%list. rewrite Hp. split; [ | split; [exact Hcb | ]].
    + rewrite take_pending_app, Ht; [reflexivity | ].
      rewrite Forall_forall in *. intros q Hq. destruct (Hold q Hq) as [Hlt _].
      destruct items; [congruence | cbn [List.length]; lia].
    + apply Forall_app. split; [ | exact Hrest].
      rewrite Forall_forall in *. intros q Hq. exact (proj2 (Hold q Hq)).
Qed.

(** X12. The callback of a detail page returns or raises, and it stops the
    event loop exactly when it has the exit flag and gets as far as line
    37: the response has no error, its header names a charset, and decoding
    returns or raises [UnicodeDecodeError].  What the page then holds plays
    no part, and the callback never touches the waiting requests. *)
Theorem callback_stops_the_loop_at_line_37 :
  forall (it : PageItem) (exit_flag : bool) (resp : response) (w : world),
    let r := handle_request (parse_detail_page it) exit_flag resp w in
    fst r <> Blocks /\
    stopped (snd r) = (stopped w || (exit_flag && reaches_stop resp)) /\
    pending (snd r) = pending w /\
    requests (snd r) = requests w /\
    loop_runs (snd r) = loop_runs w /\
    (forall msg, error resp = Some msg ->
       r = (Return None, add_stdout ["Error: " ++ msg] w)).
Proof.
  intros it exit_flag resp w r. subst r.
  destruct (handle_request_effect (parse_detail_page it) exit_flag resp w
              (detail_parser_effect it))
    as (r & w' & E & Hnb & Hdb & Hreq & Hpend & Hruns & Hlog & Hstop).
  rewrite E. cbn [fst snd]. repeat split; try assumption.
  intros msg Hmsg. rewrite <- E. unfold handle_request. rewrite Hmsg. reflexivity.
Qed.

(** X13. With detail pages to fetch, none refused by the client, the loop
    not stopped and no old request with the exit flag, [async_fetch]
    returns if and only if the first response to the last request of the
    call arrives while the loop runs and gets its callback to line 37;
    else it never returns.  The responses to the other requests, whether
    they come or not, and what the pages hold, play no part in that. *)
Theorem async_fetch_returns_iff_the_last_request_is_answered :
  forall (items : list PageItem) (w : world),
    items <> [] ->
    forallb (fun it => negb (fetch_refused (url it))) items = true ->
    stopped w = false ->
    Forall (waits_below (requests w)) (pending w) ->
    fst (async_fetch items w) =
    match first_arrival (requests w + List.length items - 1) (arrivals (loop_runs w)) with
    | Some resp => if reaches_stop resp then Return tt else Blocks
    | None => Blocks
    end.
Proof.
  intros items w Hne Hacc Hs Hold.
  destruct (async_fetch_starts items w Hne Hacc Hs Hold)
    as (w1 & _ & Hrun & Hp & Hr & Hs1 & Hruns & Hexit).
  rewrite Hrun.
  destruct (run_callbacks_first_stop (arrivals (loop_runs w)) (next_run w1) Hs1)
    as (w' & Hcb & _).
  rewrite Hcb. cbn [fst next_run pending].
  pose proof (first_stop_at_last (requests w + List.length items - 1)
                (arrivals (loop_runs w)) (pending w1) Hexit) as Hlast.
  destruct (first_arrival _ _) as [resp | ]; [ | rewrite Hlast; reflexivity].
  destruct (reaches_stop resp); [ | rewrite Hlast; reflexivity].
  destruct Hlast as (rest & Hrest & _). rewrite Hrest. reflexivity.
Qed.

(** X14. When [async_fetch] returns it has waited for the last request
    only: every other request of the call, and every older one, whose
    response has not arrived before that of the last request is still
    waiting, its page neither parsed nor stored.  The loop is then not
    stopped, it has run once, and no waiting request has the exit flag, so
    that the next call starts as this one did. *)
Theorem requests_not_answered_before_the_last_stay_waiting :
  forall (items : list PageItem) (w : world) (resp : response),
    items <> [] ->
    forallb (fun it => negb (fetch_refused (url it))) items = true ->
    stopped w = false ->
    Forall (waits_below (requests w)) (pending w) ->
    first_arrival (requests w + List.length items - 1) (arrivals (loop_runs w)) =
      Some resp ->
    reaches_stop resp = true ->
    let w' := snd (async_fetch items w) in
    stopped w' = false /\
    requests w' = requests w + List.length items /\
    loop_runs w' = S (loop_runs w) /\
    Forall (waits_below (requests w')) (pending w') /\
    (forall id,
        id < requests w + List.length items - 1 ->
        In id (map fst (pending w)) \/ requests w <= id ->
        first_arrival id
          (arrivals_before (requests w + List.length items - 1)
             (arrivals (loop_runs w))) = None ->
        In id (map fst (pending w'))).
Proof.
  intros items w resp Hne Hacc Hs Hold Hfirst Hreach w'. subst w'.
  destruct (async_fetch_starts items w Hne Hacc Hs Hold)
    as (w1 & _ & Hrun & Hp & Hr & Hs1 & Hruns & Hexit).
  rewrite Hrun.
  destruct (run_callbacks_first_stop (arrivals (loop_runs w)) (next_run w1) Hs1)
    as (w' & Hcb & Hs' & Hreq' & Hruns' & _ & Hpend').
  rewrite Hcb. cbn [snd next_run pending requests loop_runs] in *.
  pose proof (first_stop_at_last (requests w + List.length items - 1)
                (arrivals (loop_runs w)) (pending w1) Hexit) as Hlast.
  rewrite Hfirst, Hreach in Hlast.
  destruct Hlast as (rest & Hrest & Hflags & Hincl & Hkeep).
  rewrite (Hpend' rest Hrest).
  split; [exact Hs' | ]. split; [congruence | ]. split; [congruence | ]. split.
  - rewrite Forall_forall in *. intros q Hq. split; [ | exact (Hflags q Hq)].
    rewrite Hreq', Hr. pose proof (Hincl q Hq) as Hin. rewrite Hp in Hin.
    apply in_app_or in Hin. destruct Hin as [Hin | Hin].
    + destruct (Hold q Hin). lia.
    + destruct (callbacks_below _ _ _ _ q Hin). lia.
  - intros id Hlt Hin Hnone. apply Hkeep; [lia | | exact Hnone].
    rewrite Hp, map_app. apply in_or_app. destruct Hin as [Hin | Hin].
    + left. exact Hin.
    + right. rewrite callbacks_ids. apply in_seq. lia.
Qed.

(** The loop of [async_fetch] when the client refuses the last request: the
    requests it hands over have no exit flag. *)
Lemma fetch_all_last_refused (n : nat) (items : list PageItem) (last : PageItem) :
  fetch_refused (url last) = true ->
  forall (idx : nat) (w : world), exists w',
    fetch_all n idx (items ++ [last]) w = (Return tt, w') /\
    stopped w' = stopped w /\
    loop_runs w' = loop_runs w /\
    (n = idx + List.length (items ++ [last]) ->
     Forall (fun q => cb_exit_flag (snd q) = false) (pending w) ->
     Forall (fun q => cb_exit_flag (snd q) = false) (pending w')) /\
    (exists out, stdout w' = (stdout w ++ out ++ ["fetch error"])%list).
Proof.
  intros Hlast. induction items as [ | it items IH]; intros idx w; cbn [app fetch_all].
  - unfold bind, try_except, async_client_fetch, print, ret. rewrite Hlast.
    eexists. split; [reflexivity | ]. cbn. repeat split; try auto.
    exists []. reflexivity.
  - unfold bind, try_except, async_client_fetch.
    destruct (fetch_refused (url it)).
    + unfold print.
      destruct (IH (S idx)
                 {| stdout := (stdout w ++ ["fetch error"])%list;
                    PageItem_db := PageItem_db w; server := server w;
                    stopped := stopped w; requests := requests w;
                    pending := pending w; loop_runs := loop_runs w;
                    logged := logged w |})
        as (w' & Hrun & H1 & H2 & H3 & out & H4).
      cbn [stdout stopped pending loop_runs] in *.
      exists w'. split; [exact Hrun | ]. split; [exact H1 | ]. split; [exact H2 | ]. split.
      * intros Hn Hp. apply H3; [cbn [List.length] in Hn; lia | exact Hp].
      * exists ("fetch error" :: out). rewrite H4, <- app_assoc. reflexivity.
    + destruct (IH (S idx)
                 {| stdout := stdout w; PageItem_db := PageItem_db w; server := server w;
                    stopped := stopped w; requests := S (requests w);
                    pending := (pending w ++
                                [(requests w,
                                  {| cb_item := it;
                                     cb_exit_flag := Nat.eqb n (idx + 1) |})])%list;
                    loop_runs := loop_runs w; logged := logged w |})
        as (w' & Hrun & H1 & H2 & H3 & out & H4).
      cbn [stdout stopped pending loop_runs] in *.
      exists w'. split; [exact Hrun | ]. split; [exact H1 | ]. split; [exact H2 | ]. split.
      * intros Hn Hp. apply H3; [cbn [List.length] in Hn; lia | ].
        apply Forall_app. split; [exact Hp | ]. constructor; [ | constructor].
        cbn [snd cb_exit_flag]. apply Nat.eqb_neq.
        cbn [List.length] in Hn. rewrite length_app in Hn. cbn [List.length] in Hn. lia.
      * exists out. exact H4.
Qed.

(** X15. A fetch the client refuses is printed as [fetch error] and passed
    over.  When it is the fetch of the last page of the call, no request
    has the exit flag: the event loop is started all the same, no callback
    stops it, and [async_fetch] never returns, whatever responses arrive. *)
Theorem refused_last_fetch_blocks_async_fetch :
  forall (items : list PageItem) (last : PageItem) (w : world),
    fetch_refused (url last) = true ->
    stopped w = false ->
    Forall (fun q => cb_exit_flag (snd q) = false) (pending w) ->
    fst (async_fetch (items ++ [last]) w) = Blocks /\
    In "fetch error" (stdout (snd (fetch_all (List.length (items ++ [last])) 0
                                     (items ++ [last]) w))).
Proof.
  intros items last w Hlast Hs Hold.
  destruct (fetch_all_last_refused (List.length (items ++ [last])) items last Hlast 0 w)
    as (w1 & Hrun & Hs1 & Hruns & Hflags & out & Hout).
  split.
  - unfold async_fetch. destruct (items ++ [last])%list as [ | x l] eqn:E.
    + destruct items; discriminate.
    + rewrite <- E in *. unfold bind. rewrite Hrun. unfold ioloop_start.
      rewrite Hs1, Hs.
      assert (Hs2 : stopped (next_run w1) = false) by (cbn; congruence).
      destruct (run_callbacks_first_stop (arrivals (loop_runs w1)) (next_run w1) Hs2)
        as (w' & Hcb & _).
      rewrite Hcb. cbn [fst next_run pending].
      rewrite first_stop_none; [reflexivity | ].
      apply Hflags; [reflexivity | exact Hold].
  - rewrite Hrun. cbn [snd]. rewrite Hout.
    apply in_or_app. right. apply in_or_app. right. left. reflexivity.
Qed.

End LoopFacts.

(** ** The connection wrapper: what reaches [sqlite3] *)

Section TraceFacts.

Context {E : Sqlite.Sqlite3}.

Import Sqlite.

Lemma calm_ret {A} (P : event -> bool) (a : A) : calm P (ret a).
Proof.
  intros c [t n st tr]. exists (Return a), st, []. unfold ret. simpl.
  rewrite app_nil_r. split; reflexivity.
Qed.

Lemma calm_raise {A} (P : event -> bool) (x : exn) : calm P (@raise A x).
Proof.
  intros c [t n st tr]. exists (Raise x), st, []. unfold raise. simpl.
  rewrite app_nil_r. split; reflexivity.
Qed.

Lemma calm_blocks {A} (P : event -> bool) : calm P (fun s => (@Blocks A, s)).
Proof.
  intros c [t n st tr]. exists Blocks, st, []. simpl.
  rewrite app_nil_r. split; reflexivity.
Qed.

Lemma calm_self (P : event -> bool) : calm P self.
Proof.
  intros c [t n st tr]. exists (Return c), st, []. unfold self. simpl.
  rewrite app_nil_r. split; reflexivity.
Qed.

Lemma calm_emit (P : event -> bool) (ev : event) : P ev = true -> calm P (emit ev).
Proof.
  intros H c [t n st tr]. exists (Return tt), st, [ev].
  split; [reflexivity | simpl; rewrite H; reflexivity].
Qed.

Lemma calm_next_statement (P : event -> bool) : calm P next_statement.
Proof.
  intros c [t n st tr]. exists (Return st), (S st), []. unfold next_statement. simpl.
  rewrite app_nil_r. split; reflexivity.
Qed.

Lemma calm_bind {A B} (P : event -> bool) (m : Op A) (k : A -> Op B) :
  calm P m -> (forall a, calm P (k a)) -> calm P (bind m k).
Proof.
  intros Hm Hk c e. destruct (Hm c e) as (r & st & rest & H & HP).
  unfold bind. rewrite H. destruct r as [a | x | ].
  - destruct (Hk a c {| ticks := ticks e; connects := connects e;
                        statements := st; trace := (trace e ++ rest)%list |})
      as (r2 & st2 & rest2 & H2 & HP2).
    rewrite H2. simpl. exists r2, st2, (rest ++ rest2)%list.
    rewrite app_assoc, forallb_app, HP, HP2. split; reflexivity.
  - exists (Raise x), st, rest. split; [reflexivity | exact HP].
  - exists Blocks, st, rest. split; [reflexivity | exact HP].
Qed.

Lemma calm_try_finally {A} (P : event -> bool) (m : Op A) (f : Op unit) :
  calm P m -> calm P f -> calm P (try_finally m f).
Proof.
  intros Hm Hf c e. destruct (Hm c e) as (r & st & rest & H & HP).
  unfold try_finally. rewrite H.
  destruct (Hf c {| ticks := ticks e; connects := connects e;
                    statements := st; trace := (trace e ++ rest)%list |})
    as (r2 & st2 & rest2 & H2 & HP2).
  destruct r as [a | x0 | ];
    [ | | exists Blocks, st, rest; split; [reflexivity | exact HP]];
    rewrite H2; simpl;
    (destruct r2 as [[] | x | ]; eexists; exists st2, (rest ++ rest2)%list;
     rewrite app_assoc, forallb_app, HP, HP2; split; reflexivity).
Qed.

Lemma calm__execute (P : event -> bool) (cursor : nat) (q : string) (ps : list pyvalue) :
  P (EvExecute cursor q ps) = true ->
  (forall h, P (EvCommit h) = true) ->
  (forall m, P (EvLogError m) = true) ->
  calm P (_execute cursor q ps).
Proof.
  intros Hex Hco Hlog. unfold _execute.
  apply calm_bind; [apply calm_next_statement | intro n].
  apply calm_bind; [apply calm_emit; exact Hex | intros _].
  destruct (cursor_execute q ps n) as [r | x | ].
  - apply calm_bind; [apply calm_self | intro c].
    destruct (_db c); [ | apply calm_raise].
    destruct (commit_error n) as [x | ].
    + destruct (is_OperationalError x); [ | apply calm_raise].
      apply calm_bind; [apply calm_self | intro c0].
      apply calm_bind; [apply calm_emit; apply Hlog | intros _]. apply calm_raise.
    + apply calm_bind; [apply calm_emit; apply Hco | intros _]. apply calm_ret.
  - destruct (is_OperationalError x); [ | apply calm_raise].
    apply calm_bind; [apply calm_self | intro c0].
    apply calm_bind; [apply calm_emit; apply Hlog | intros _]. apply calm_raise.
  - apply calm_blocks.
Qed.

Lemma calm_db_cursor (P : event -> bool) :
  (forall h, P (EvCursor h) = true) -> calm P db_cursor.
Proof.
  intros H. apply calm_bind; [apply calm_self | intro c].
  destruct (_db c); [ | apply calm_raise].
  apply calm_bind; [apply calm_emit; apply H | intros _; apply calm_ret].
Qed.

Lemma calm_read_rows (P : event -> bool) (r : cursor_result) : calm P (read_rows r).
Proof.
  unfold read_rows. destruct (description r); [apply calm_ret | apply calm_raise].
Qed.

Lemma calm_quiet {A} (P : event -> bool) (m : Op A) : calm P m -> quiet m.
Proof.
  intros H c e. destruct (H c e) as (r & st & rest & Hm & _).
  exists r, st, rest. exact Hm.
Qed.

Lemma emits_of_calm {A} (P : event -> bool) (m : Op A) : calm P m -> emits P m.
Proof.
  intros H [c e]. destruct (H c e) as (r & st & rest & Hm & HP).
  exists rest. rewrite Hm. split; [reflexivity | exact HP].
Qed.

Lemma emits_bind {A B} (P : event -> bool) (m : Op A) (k : A -> Op B) :
  emits P m -> (forall a, emits P (k a)) -> emits P (bind m k).
Proof.
  intros Hm Hk s. destruct (Hm s) as (a1 & E1 & P1). unfold bind.
  destruct (m s) as [[a | x | ] s1]; cbn [snd] in *.
  - destruct (Hk a s1) as (a2 & E2 & P2). exists (a1 ++ a2)%list.
    rewrite E2, E1, app_assoc, forallb_app, P1, P2. split; reflexivity.
  - exists a1. split; assumption.
  - exists a1. split; assumption.
Qed.

Lemma emits_nothing {A} (P : event -> bool) (m : Op A) :
  (forall s, trace (snd (snd (m s))) = trace (snd s)) -> emits P m.
Proof.
  intros H s. exists []. rewrite H, app_nil_r. split; reflexivity.
Qed.

Lemma emits_time_time (P : event -> bool) : emits P time_time.
Proof. apply emits_nothing. intros [c e]. reflexivity. Qed.

Lemma emits_set__db (P : event -> bool) (d : option nat) : emits P (set__db d).
Proof. apply emits_nothing. intros [c e]. reflexivity. Qed.

Lemma emits_set__last_use_time (P : event -> bool) (t : float) :
  emits P (set__last_use_time t).
Proof. apply emits_nothing. intros [c e]. reflexivity. Qed.

Lemma emits_sqlite3_connect (P : event -> bool) (d : string) :
  (forall h, P (EvConnect d h) = true) -> emits P (sqlite3_connect d).
Proof.
  intros H [c e]. unfold sqlite3_connect.
  destruct (connect_error d (connects e)).
  - exists []. cbn. rewrite app_nil_r. split; reflexivity.
  - exists [EvConnect d (connects e)]. cbn. rewrite H. split; reflexivity.
Qed.

Lemma emits_close (P : event -> bool) :
  (forall h, P (EvClose h) = true) -> emits P close.
Proof.
  intros H. unfold close.
  apply emits_bind; [apply emits_of_calm, calm_self | intro c].
  destruct (_db c).
  - apply emits_bind; [apply emits_of_calm, calm_emit, H | intros _; apply emits_set__db].
  - apply emits_of_calm, calm_ret.
Qed.

Lemma emits_reconnect (P : event -> bool) :
  (forall h, P (EvClose h) = true) ->
  (forall d h, P (EvConnect d h) = true) ->
  emits P reconnect.
Proof.
  intros Hcl Hco. unfold reconnect.
  apply emits_bind; [apply emits_close, Hcl | intros _].
  apply emits_bind; [apply emits_of_calm, calm_self | intro c].
  apply emits_bind; [apply emits_sqlite3_connect, Hco | intro h; apply emits_set__db].
Qed.

(** [_ensure_connected] does nothing to [sqlite3] but close and connect. *)
Lemma emits__ensure_connected (P : event -> bool) :
  (forall h, P (EvClose h) = true) ->
  (forall d h, P (EvConnect d h) = true) ->
  emits P _ensure_connected.
Proof.
  intros Hcl Hco. unfold _ensure_connected.
  apply emits_bind; [apply emits_of_calm, calm_self | intro c].
  apply emits_bind.
  - destruct (_db c); [ | apply emits_of_calm, calm_ret].
    apply emits_bind; [apply emits_time_time | intro now; apply emits_of_calm, calm_ret].
  - intros stale. apply emits_bind.
    + destruct stale; [apply emits_reconnect; assumption | apply emits_of_calm, calm_ret].
    + intros _. apply emits_bind; [apply emits_time_time | intro now].
      apply emits_set__last_use_time.
Qed.

Lemma emits__cursor (P : event -> bool) :
  (forall h, P (EvClose h) = true) ->
  (forall d h, P (EvConnect d h) = true) ->
  (forall h, P (EvCursor h) = true) ->
  emits P _cursor.
Proof.
  intros Hcl Hco Hcu. unfold _cursor.
  apply emits_bind; [apply emits__ensure_connected; assumption | intros _].
  apply emits_of_calm, calm_db_cursor, Hcu.
Qed.

(** X16. [executemany] never commits: whatever the state of the connection
    and whatever the statement does, nothing it sends to [sqlite3] is a
    [commit] (where [execute] commits every statement that succeeds). *)
Theorem executemany_never_commits :
  forall (q : string) (parameters : list (list pyvalue)) (s : Connection * env),
  exists added,
    trace (snd (snd (executemany q parameters s))) = (trace (snd s) ++ added)%list /\
    forallb (fun ev => negb (is_commit ev)) added = true.
Proof.
  intros q ps.
  change (emits (fun ev => negb (is_commit ev)) (executemany q ps)).
  unfold executemany.
  apply emits_bind; [apply emits__cursor; reflexivity | intro cursor].
  apply emits_of_calm, calm_try_finally; [ | apply calm_emit; reflexivity].
  apply calm_bind; [apply calm_next_statement | intro n].
  apply calm_bind; [apply calm_emit; reflexivity | intros _].
  destruct (cursor_executemany q ps n);
    [apply calm_ret | apply calm_raise | apply calm_blocks].
Qed.

Lemma emits_query (P : event -> bool) (q : string) (ps : list pyvalue) :
  (forall h, P (EvClose h) = true) ->
  (forall d h, P (EvConnect d h) = true) ->
  (forall h, P (EvCursor h) = true) ->
  (forall h, P (EvExecute h q ps) = true) ->
  (forall h, P (EvCommit h) = true) ->
  (forall m, P (EvLogError m) = true) ->
  emits P (query q ps).
Proof.
  intros Hcl Hco Hcu Hex Hcm Hlog. unfold query.
  apply emits_bind; [apply emits__cursor; assumption | intro cursor].
  apply emits_of_calm, calm_try_finally; [ | apply calm_ret].
  apply calm_bind; [apply calm__execute; auto | intro r; apply calm_read_rows].
Qed.

(** X17. [query] and [get] never close the cursor they open: the
    [cursor.close()] of line 94 is a comment, and nothing these operations
    send to [sqlite3] is the closing of a cursor, whether the statement
    succeeds or raises. *)
Theorem query_and_get_leave_their_cursor_open :
  forall (q : string) (parameters : list pyvalue) (s : Connection * env),
    (exists added,
        trace (snd (snd (query q parameters s))) = (trace (snd s) ++ added)%list /\
        forallb (fun ev => negb (is_cursor_close ev)) added = true) /\
    (exists added,
        trace (snd (snd (get q parameters s))) = (trace (snd s) ++ added)%list /\
        forallb (fun ev => negb (is_cursor_close ev)) added = true).
Proof.
  intros q ps s.
  assert (Hq : emits (fun ev => negb (is_cursor_close ev)) (query q ps))
    by (apply emits_query; reflexivity).
  split; [exact (Hq s) | ].
  assert (Hg : emits (fun ev => negb (is_cursor_close ev)) (get q ps)).
  { unfold get. apply emits_bind; [exact Hq | intro rs].
    apply emits_of_calm.
    destruct rs as [ | r [ | r' rs]];
      [apply calm_ret | apply calm_ret | apply calm_raise]. }
  exact (Hg s).
Qed.

Lemma run_ret_tt {A} (m : Op A) (s : Connection * env) (r : outcome A)
    (s' : Connection * env) :
  m s = (r, s') ->
  bind m (fun _ => ret tt) s =
  (match r with Return _ => Return tt | Raise x => Raise x | Blocks => Blocks end, s').
Proof. intros H. unfold bind, ret. rewrite H. destruct r; reflexivity. Qed.

(** A cursor that [_cursor] returns is closed by the [finally] of the
    operation when the statement returns or raises, and by nothing when it
    does not come back. *)
Lemma cursor_then_close {A} (body : nat -> Op A) :
  (forall h, calm (fun ev => negb (is_cursor ev || is_cursor_close ev)) (body h)) ->
  forall s, exists r s' added,
    bind _cursor
      (fun cursor => try_finally (body cursor) (emit (EvCursorClose cursor))) s =
      (r, s') /\
    trace (snd s') = (trace (snd s) ++ added)%list /\
    (forallb (fun ev => negb (is_cursor ev || is_cursor_close ev)) added = true \/
     exists pre mid h,
       forallb (fun ev => negb (is_cursor ev || is_cursor_close ev)) (pre ++ mid) = true /\
       added = (pre ++ EvCursor h :: mid ++
                match r with Blocks => [] | _ => [EvCursorClose h] end)%list).
Proof.
  intros Hbody s. unfold _cursor. rewrite bind_assoc. unfold bind at 1.
  destruct (emits__ensure_connected (fun ev => negb (is_cursor ev || is_cursor_close ev))
              ltac:(reflexivity) ltac:(reflexivity) s) as (pre & Hpre & Ppre).
  destruct (_ensure_connected s) as [[[] | x | ] [c1 e1]]; cbn [snd] in *;
    [ | do 2 eexists; exists pre; split; [reflexivity | split; [exact Hpre | left; exact Ppre]] ..].
  unfold bind at 1, db_cursor, bind at 1, self.
  destruct (_db c1) as [h | ].
  - unfold bind at 1, emit at 1, ret at 1. unfold try_finally, emit.
    destruct (Hbody h c1 {| ticks := ticks e1; connects := connects e1;
                            statements := statements e1;
                            trace := (trace e1 ++ [EvCursor h])%list |})
      as (r & st & mid & Hm & Pmid).
    rewrite Hm. cbn [trace ticks connects statements].
    destruct r as [a | x | ];
      [ exists (Return a); eexists;
        exists (pre ++ EvCursor h :: mid ++ [EvCursorClose h])%list
      | exists (Raise x); eexists;
        exists (pre ++ EvCursor h :: mid ++ [EvCursorClose h])%list
      | exists Blocks; eexists;
        exists (pre ++ EvCursor h :: mid ++ [])%list ];
      (split; [reflexivity | ]); cbn [snd trace]; (split;
        [ rewrite Hpre; rewrite ?app_nil_r; rewrite <- ?app_assoc; reflexivity
        | right; exists pre, mid, h; split;
          [rewrite forallb_app, Ppre, Pmid; reflexivity | reflexivity] ]).
  - unfold raise. do 2 eexists. exists pre.
    split; [reflexivity | split; [exact Hpre | left; exact Ppre]].
Qed.

(** X18. [execute], [executemany] and [iter] close the cursor they open:
    when one of them gets a cursor from the connection and its statement
    returns or raises, the last thing it does is to close that cursor; it
    opens no other cursor and closes none before.  When the statement does
    not come back, the [finally] is not reached and the cursor stays open. *)
Theorem opened_cursor_is_closed_at_the_end :
  forall (op : operation) (s : Connection * env),
    closes_its_cursor op = true ->
    exists added,
      trace (snd (snd (run op s))) = (trace (snd s) ++ added)%list /\
      (forallb (fun ev => negb (is_cursor ev || is_cursor_close ev)) added = true \/
       exists pre mid h,
         forallb (fun ev => negb (is_cursor ev || is_cursor_close ev)) (pre ++ mid) = true /\
         added = (pre ++ EvCursor h :: mid ++
                  match fst (run op s) with
                  | Blocks => []
                  | _ => [EvCursorClose h]
                  end)%list).
Proof.
  intros op s Hop.
  assert (Hrows : forall q ps h,
             calm (fun ev => negb (is_cursor ev || is_cursor_close ev))
               (bind (_execute h q ps) (fun r => read_rows r))).
  { intros q ps h. apply calm_bind; [apply calm__execute; reflexivity | ].
    intro r. apply calm_read_rows. }
  assert (Hfin : forall (A : Type) (m : Op A) s0,
             (exists r s' added,
                 m s0 = (r, s') /\
                 trace (snd s') = (trace (snd s0) ++ added)%list /\
                 (forallb (fun ev => negb (is_cursor ev || is_cursor_close ev)) added = true \/
                  exists pre mid h,
                    forallb (fun ev => negb (is_cursor ev || is_cursor_close ev))
                      (pre ++ mid) = true /\
                    added = (pre ++ EvCursor h :: mid ++
                             match r with Blocks => [] | _ => [EvCursorClose h] end)%list)) ->
             exists added,
               trace (snd (snd (bind m (fun _ => ret tt) s0))) =
                 (trace (snd s0) ++ added)%list /\
               (forallb (fun ev => negb (is_cursor ev || is_cursor_close ev)) added = true \/
                exists pre mid h,
                  forallb (fun ev => negb (is_cursor ev || is_cursor_close ev))
                    (pre ++ mid) = true /\
                  added = (pre ++ EvCursor h :: mid ++
                           match fst (bind m (fun _ => ret tt) s0) with
                           | Blocks => []
                           | _ => [EvCursorClose h]
                           end)%list)).
  { intros A m s0 (r & s' & added & Hm & Htr & Hshape).
    rewrite (run_ret_tt m s0 r s' Hm). cbn [fst snd].
    exists added. split; [exact Htr | ].
    destruct Hshape as [Pa | (pre & mid & h & Pa & Ea)]; [left; exact Pa | right].
    exists pre, mid, h. split; [exact Pa | ]. rewrite Ea. destruct r; reflexivity. }
  destruct op as [q ps | q ps | q ps | q ps | q ps]; try discriminate;
    unfold run; apply Hfin.
  - unfold iter. unfold bind at 1.
    destruct (emits__ensure_connected (fun ev => negb (is_cursor ev || is_cursor_close ev))
                ltac:(reflexivity) ltac:(reflexivity) s) as (pre0 & Hpre0 & Ppre0).
    destruct (_ensure_connected s) as [[[] | x | ] s1]; cbn [snd] in *;
      [ | do 2 eexists; exists pre0;
          split; [reflexivity | split; [exact Hpre0 | left; exact Ppre0]] ..].
    destruct (cursor_then_close
                (fun cursor => bind (_execute cursor q ps) (fun r => read_rows r))
                (Hrows q ps) s1) as (r & s' & added & Hm & Hadd & Hshape).
    exists r, s', (pre0 ++ added)%list. split; [exact Hm | split].
    + rewrite Hadd, Hpre0, app_assoc. reflexivity.
    + destruct Hshape as [Pa | (pre & mid & h & Pa & Ea)].
      * left. rewrite forallb_app, Ppre0, Pa. reflexivity.
      * right. exists (pre0 ++ pre)%list, mid, h. split.
        -- rewrite <- app_assoc, forallb_app, Ppre0, Pa. reflexivity.
        -- rewrite Ea, <- app_assoc. reflexivity.
  - unfold execute.
    apply (cursor_then_close
             (fun cursor => bind (_execute cursor q ps) (fun r => ret (lastrowid r)))).
    intro h. apply calm_bind; [apply calm__execute; reflexivity | ].
    intro r. apply calm_ret.
  - unfold executemany.
    apply (cursor_then_close
             (fun cursor =>
                bind next_statement
                  (fun n =>
                     bind (emit (EvExecuteMany cursor q ps))
                       (fun _ =>
                          match cursor_executemany q ps n with
                          | Return r => ret (lastrowid r)
                          | Raise x => raise x
                          | Blocks => fun s => (Blocks, s)
                          end)))).
    intro h. apply calm_bind; [apply calm_next_statement | intro n].
    apply calm_bind; [apply calm_emit; reflexivity | intros _].
    destruct (cursor_executemany q ps n);
      [apply calm_ret | apply calm_raise | apply calm_blocks].
Qed.

(** The test of a connection that is there and not idle for too long: the
    clock is read twice, and nothing else happens. *)
Lemma ensure_connected_live (c : Connection) (e : env) :
  is_stale c e = false ->
  _ensure_connected (c, e) =
  (Return tt,
   (used_at (clock (S (ticks e))) c,
    {| ticks := S (S (ticks e)); connects := connects e;
       statements := statements e; trace := trace e |})).
Proof.
  destruct c as [h d m db lu], e as [t n st tr].
  unfold is_stale, _ensure_connected, time_time, set__last_use_time, self, bind, ret,
    used_at.
  destruct db as [hd | ]; simpl; [ | discriminate].
  intros H. rewrite H. reflexivity.
Qed.

Lemma cursor_live (c : Connection) (e : env) (h : nat) :
  _db c = Some h ->
  is_stale c e = false ->
  _cursor (c, e) =
  (Return h,
   (used_at (clock (S (ticks e))) c,
    {| ticks := S (S (ticks e)); connects := connects e;
       statements := statements e; trace := (trace e ++ [EvCursor h])%list |})).
Proof.
  intros Hdb Hlive. unfold _cursor, bind. rewrite (ensure_connected_live c e Hlive).
  unfold db_cursor, bind, self, emit, ret, used_at. cbn [_db]. rewrite Hdb. reflexivity.
Qed.

(** The test of a connection that has to be opened, when [sqlite3.connect]
    raises: the old connection is closed, and that is all. *)
Lemma ensure_connected_fails (c : Connection) (e : env) (x : exn) :
  is_stale c e = true ->
  connect_error (database c) (connects e) = Some x ->
  _ensure_connected (c, e) =
  (Raise x,
   (closed c,
    {| ticks := match _db c with Some _ => S (ticks e) | None => ticks e end;
       connects := S (connects e);
       statements := statements e; trace := (trace e ++ closes c)%list |})).
Proof.
  destruct c as [h d m db lu], e as [t n st tr].
  unfold is_stale, _ensure_connected, reconnect, close, sqlite3_connect, time_time,
    set__db, set__last_use_time, self, emit, bind, ret, closed, closes.
  destruct db as [hd | ]; simpl; intros Hstale Hconn.
  - rewrite Hstale. simpl. rewrite Hconn. reflexivity.
  - rewrite Hconn, app_nil_r. reflexivity.
Qed.

Lemma run_once (op : operation) :
  checks_once op = true ->
  exists K : Op unit,
    calm (fun ev => negb (is_connection_event ev)) K /\
    forall s, run op s = bind _ensure_connected (fun _ => K) s.
Proof.
  intros Hop.
  assert (Hrows : forall q ps h,
             calm (fun ev => negb (is_connection_event ev))
               (bind (_execute h q ps)
                  (fun r => read_rows r))).
  { intros q ps h. apply calm_bind; [apply calm__execute; reflexivity | ].
    intro r. apply calm_read_rows. }
  destruct op as [q ps | q ps | q ps | q ps | q ps]; try discriminate.
  - exists (bind db_cursor
              (fun cursor =>
                 bind (try_finally
                         (bind (_execute cursor q ps)
                            (fun r => read_rows r))
                         (ret tt))
                   (fun _ => ret tt))).
    split.
    + apply calm_bind; [apply calm_db_cursor; reflexivity | intro cursor].
      apply calm_bind; [ | intros _; apply calm_ret].
      apply calm_try_finally; [apply Hrows | apply calm_ret].
    + intro. unfold run, query, _cursor. rewrite !bind_assoc. reflexivity.
  - exists (bind db_cursor
              (fun cursor =>
                 bind (try_finally
                         (bind (_execute cursor q ps)
                            (fun r => read_rows r))
                         (ret tt))
                   (fun rs =>
                      bind match rs with
                           | [] => ret None
                           | [r] => ret (Some r)
                           | _ => raise (OtherError
                                    "Multiple rows returned for Database.get() query")
                           end
                        (fun _ => ret tt)))).
    split.
    + apply calm_bind; [apply calm_db_cursor; reflexivity | intro cursor].
      apply calm_bind;
        [ apply calm_try_finally; [apply Hrows | apply calm_ret] | intro rs ].
      apply calm_bind; [ | intros _; apply calm_ret].
      destruct rs as [ | r [ | r' rs]];
        [apply calm_ret | apply calm_ret | apply calm_raise].
    + intro. unfold run, get, query, _cursor. rewrite !bind_assoc. reflexivity.
  - exists (bind db_cursor
              (fun cursor =>
                 bind (try_finally
                         (bind (_execute cursor q ps) (fun r => ret (lastrowid r)))
                         (emit (EvCursorClose cursor)))
                   (fun _ => ret tt))).
    split.
    + apply calm_bind; [apply calm_db_cursor; reflexivity | intro cursor].
      apply calm_bind; [ | intros _; apply calm_ret].
      apply calm_try_finally; [ | apply calm_emit; reflexivity].
      apply calm_bind; [apply calm__execute; reflexivity | intro r; apply calm_ret].
    + intro. unfold run, execute, _cursor. rewrite !bind_assoc. reflexivity.
  - exists (bind db_cursor
              (fun cursor =>
                 bind (try_finally
                         (bind next_statement
                            (fun n =>
                               bind (emit (EvExecuteMany cursor q ps))
                                 (fun _ =>
                                    match cursor_executemany q ps n with
                                    | Return r => ret (lastrowid r)
                                    | Raise x => raise x
                                    | Blocks => fun s => (Blocks, s)
                                    end)))
                         (emit (EvCursorClose cursor)))
                   (fun _ => ret tt))).
    split.
    + apply calm_bind; [apply calm_db_cursor; reflexivity | intro cursor].
      apply calm_bind; [ | intros _; apply calm_ret].
      apply calm_try_finally; [ | apply calm_emit; reflexivity].
      apply calm_bind; [apply calm_next_statement | intro n].
      apply calm_bind; [apply calm_emit; reflexivity | intros _].
      destruct (cursor_executemany q ps n);
        [apply calm_ret | apply calm_raise | apply calm_blocks].
    + intro. unfold run, executemany, _cursor. rewrite !bind_assoc. reflexivity.
Qed.

(** X19. A connection that is there and has not been idle for longer than
    [max_idle_time] is used as it is: [query], [get], [execute] and
    [executemany] read the clock twice, record the second reading as the
    time of the last use, and neither close the connection nor open one,
    whatever the statement does. *)
Theorem live_connection_is_reused :
  forall (op : operation) (c : Connection) (e : env),
    checks_once op = true ->
    is_stale c e = false ->
    exists r st added,
      run op (c, e) =
      (r, (used_at (clock (S (ticks e))) c,
           {| ticks := S (S (ticks e)); connects := connects e;
              statements := st; trace := (trace e ++ added)%list |})) /\
      forallb (fun ev => negb (is_connection_event ev)) added = true.
Proof.
  intros op c e Hop Hlive.
  destruct (run_once op Hop) as (K & HK & Hshape).
  rewrite Hshape. unfold bind. rewrite (ensure_connected_live c e Hlive).
  destruct (HK (used_at (clock (S (ticks e))) c)
              {| ticks := S (S (ticks e)); connects := connects e;
                 statements := statements e; trace := trace e |})
    as (r & st & rest & Hrun & Prest).
  exists r, st, rest. split; [exact Hrun | exact Prest].
Qed.

(** X20. An operation on a connection that has to be opened, when
    [sqlite3.connect] raises: the exception leaves the operation, which has
    closed the old connection, if there was one, and done nothing else: no
    cursor, no statement, and the time of the last use is what it was.  The
    connection object is left without a connection. *)
Theorem operation_on_a_database_that_cannot_be_opened :
  forall (op : operation) (c : Connection) (e : env) (x : exn),
    is_stale c e = true ->
    connect_error (database c) (connects e) = Some x ->
    run op (c, e) =
    (Raise x,
     (closed c,
      {| ticks := match _db c with Some _ => S (ticks e) | None => ticks e end;
         connects := S (connects e);
         statements := statements e; trace := (trace e ++ closes c)%list |})) /\
    is_stale (closed c) e = true.
Proof.
  intros op c e x Hstale Hconn. split; [ | reflexivity].
  destruct (run_starts_with_ensure_connected op) as (K & _ & [Hshape | Hshape]);
    rewrite Hshape; unfold bind at 1;
    rewrite (ensure_connected_fails c e x Hstale Hconn); reflexivity.
Qed.

(** X21. [execute] on a live connection, when the statement and its commit
    succeed: it returns the [lastrowid] of the cursor, and what it sends to
    [sqlite3] is, in this order, the opening of a cursor, the statement with
    its parameters, a commit, and the closing of the cursor. *)
Theorem execute_commits_and_returns_lastrowid :
  forall (q : string) (parameters : list pyvalue) (c : Connection) (e : env)
         (h : nat) (r : cursor_result),
    _db c = Some h ->
    is_stale c e = false ->
    cursor_execute q parameters (statements e) = Return r ->
    commit_error (statements e) = None ->
    execute q parameters (c, e) =
    (Return (lastrowid r),
     (used_at (clock (S (ticks e))) c,
      {| ticks := S (S (ticks e)); connects := connects e;
         statements := S (statements e);
         trace := (trace e ++ [EvCursor h; EvExecute h q parameters;
                               EvCommit h; EvCursorClose h])%list |})).
Proof.
  intros q ps c e h r Hdb Hlive Hex Hcommit.
  unfold execute, bind at 1. rewrite (cursor_live c e h Hdb Hlive).
  unfold try_finally, _execute, next_statement, emit, self, bind, ret, used_at.
  cbn [statements ticks connects trace _db]. rewrite Hex.
  cbn [_db]. rewrite Hdb, Hcommit. simpl.
  rewrite <- ?app_assoc. reflexivity.
Qed.

(** X22. [execute] on a live connection, when the statement or its commit
    raises [x]: [x] leaves [execute]; an [OperationalError] is logged
    first, and nothing else is; a statement that raised is not committed;
    and the cursor is closed all the same. *)
Theorem failed_statement_is_raised_after_closing_the_cursor :
  forall (q : string) (parameters : list pyvalue) (c : Connection) (e : env)
         (h : nat) (x : exn),
    _db c = Some h ->
    is_stale c e = false ->
    (cursor_execute q parameters (statements e) = Raise x ->
     execute q parameters (c, e) =
     (Raise x,
      (used_at (clock (S (ticks e))) c,
       {| ticks := S (S (ticks e)); connects := connects e;
          statements := S (statements e);
          trace := (trace e ++ [EvCursor h; EvExecute h q parameters] ++
                    logs c x ++ [EvCursorClose h])%list |}))) /\
    (forall r,
        cursor_execute q parameters (statements e) = Return r ->
        commit_error (statements e) = Some x ->
        execute q parameters (c, e) =
        (Raise x,
         (used_at (clock (S (ticks e))) c,
          {| ticks := S (S (ticks e)); connects := connects e;
             statements := S (statements e);
             trace := (trace e ++ [EvCursor h; EvExecute h q parameters] ++
                       logs c x ++ [EvCursorClose h])%list |}))).
Proof.
  intros q ps c e h x Hdb Hlive. split.
  - intros Hex. unfold execute, bind at 1. rewrite (cursor_live c e h Hdb Hlive).
    unfold try_finally, _execute, next_statement, emit, self, bind, ret, raise,
      used_at, logs.
    cbn [statements ticks connects trace _db]. rewrite Hex.
    destruct (is_OperationalError x); simpl;
      rewrite <- ?app_assoc; reflexivity.
  - intros r Hex Hcommit. unfold execute, bind at 1.
    rewrite (cursor_live c e h Hdb Hlive).
    unfold try_finally, _execute, next_statement, emit, self, bind, ret, raise,
      used_at, logs.
    cbn [statements ticks connects trace _db]. rewrite Hex.
    cbn [_db]. rewrite Hdb, Hcommit.
    destruct (is_OperationalError x); simpl;
      rewrite <- ?app_assoc; reflexivity.
Qed.

Lemma query_live (q : string) (ps : list pyvalue) (c : Connection) (e : env) (h : nat) :
  _db c = Some h ->
  is_stale c e = false ->
  exists added,
    query q ps (c, e) =
    (rows_of_statement q ps (statements e),
     (used_at (clock (S (ticks e))) c,
      {| ticks := S (S (ticks e)); connects := connects e;
         statements := S (statements e);
         trace := (trace e ++ EvCursor h :: EvExecute h q ps :: added)%list |})) /\
    added = match cursor_execute q ps (statements e) with
            | Return _ => match commit_error (statements e) with
                          | None => [EvCommit h]
                          | Some x => logs c x
                          end
            | Raise x => logs c x
            | Blocks => []
            end.
Proof.
  intros Hdb Hlive. unfold query, bind at 1. rewrite (cursor_live c e h Hdb Hlive).
  unfold try_finally, _execute, read_rows, next_statement, emit, self, bind, ret, raise,
    used_at, logs, rows_of_statement.
  cbn [statements ticks connects trace _db].
  destruct (cursor_execute q ps (statements e)) as [r | x | ].
  - cbn [_db]. rewrite Hdb. destruct (commit_error (statements e)) as [x | ].
    + destruct (is_OperationalError x); simpl; eexists;
        (split; [rewrite <- ?app_assoc; reflexivity | reflexivity]).
    + destruct (description r); simpl; eexists;
        (split; [rewrite <- ?app_assoc; reflexivity | reflexivity]).
  - destruct (is_OperationalError x); simpl; eexists;
      (split; [rewrite <- ?app_assoc; reflexivity | reflexivity]).
  - simpl. eexists. split; [rewrite <- ?app_assoc; reflexivity | reflexivity].
Qed.

(** X23. [get] on a live connection, when the statement and its commit
    succeed.  When the cursor has a description (the statement is a query),
    [get] returns [None] when the statement gives no row and the row when it
    gives one, and raises when it gives more.  When the cursor has none (an
    [insert], say) the list of the column names cannot be made and [get]
    raises [TypeError].  In every case the statement has been run and
    committed, and the cursor is left open. *)
Theorem get_returns_the_only_row :
  forall (q : string) (parameters : list pyvalue) (c : Connection) (e : env)
         (h : nat) (r : cursor_result),
    _db c = Some h ->
    is_stale c e = false ->
    cursor_execute q parameters (statements e) = Return r ->
    commit_error (statements e) = None ->
    get q parameters (c, e) =
    (match description r with
     | None => Raise TypeError
     | Some column_names =>
         match rows r with
         | [] => Return None
         | [row] => Return (Some (Row column_names row))
         | _ => Raise (OtherError "Multiple rows returned for Database.get() query")
         end
     end,
     (used_at (clock (S (ticks e))) c,
      {| ticks := S (S (ticks e)); connects := connects e;
         statements := S (statements e);
         trace := (trace e ++ [EvCursor h; EvExecute h q parameters;
                               EvCommit h])%list |})).
Proof.
  intros q ps c e h r Hdb Hlive Hex Hcommit.
  destruct (query_live q ps c e h Hdb Hlive) as (added & Hq & Hadded).
  rewrite Hex, Hcommit in Hadded. subst added.
  unfold get, bind. rewrite Hq. unfold rows_of_statement. rewrite Hex, Hcommit.
  destruct (description r) as [column_names | ]; [ | reflexivity].
  destruct (rows r) as [ | row [ | row' more]]; reflexivity.
Qed.

(** X24. [Connection(...)] never lets a failed [sqlite3.connect] out: the
    exception is logged, and the object is made without a connection and
    with the reading of the clock as the time of its last use; the first
    operation that tests the connection then opens the database, if
    [sqlite3.connect] opens it by then.  When [sqlite3.connect] returns,
    the object holds the connection and nothing is logged. *)
Theorem constructor_logs_a_failed_connection :
  forall (db hst : string) (m : float) (e : env),
    (connect_error db (connects e) = None ->
     new_Connection db hst m e =
     ({| host := hst; database := db; max_idle_time := m;
         _db := Some (connects e); _last_use_time := clock (ticks e) |},
      {| ticks := S (ticks e); connects := S (connects e);
         statements := statements e;
         trace := (trace e ++ [EvConnect db (connects e)])%list |})) /\
    (forall x,
        connect_error db (connects e) = Some x ->
        new_Connection db hst m e =
        ({| host := hst; database := db; max_idle_time := m;
            _db := None; _last_use_time := clock (ticks e) |},
         {| ticks := S (ticks e); connects := S (connects e);
            statements := statements e;
            trace := (trace e ++
                      [EvLogError ("Cannot connect to Sqlite3 on " ++ hst)])%list |}) /\
        (forall op,
            checks_once op = true ->
            connect_error db (S (connects e)) = None ->
            exists r c' e' rest,
              run op (new_Connection db hst m e) = (r, (c', e')) /\
              _db c' = Some (S (connects e)) /\
              trace e' =
                (trace e ++
                 EvLogError ("Cannot connect to Sqlite3 on " ++ hst)
                 :: EvConnect db (S (connects e)) :: rest)%list)).
Proof.
  intros db hst m [t n st tr]. cbn [connects ticks statements trace].
  assert (Hfail : forall x,
             connect_error db n = Some x ->
             new_Connection db hst m
               {| ticks := t; connects := n; statements := st; trace := tr |} =
             ({| host := hst; database := db; max_idle_time := m;
                 _db := None; _last_use_time := clock t |},
              {| ticks := S t; connects := S n; statements := st;
                 trace := (tr ++ [EvLogError ("Cannot connect to Sqlite3 on " ++ hst)])%list |})).
  { intros x Hx.
    unfold new_Connection, time_time, set__last_use_time, try_except, reconnect, close,
      sqlite3_connect, set__db, self, emit, bind, ret.
    simpl. rewrite Hx. reflexivity. }
  split.
  - intros Hok.
    unfold new_Connection, time_time, set__last_use_time, try_except, reconnect, close,
      sqlite3_connect, set__db, self, emit, bind, ret.
    simpl. rewrite Hok. reflexivity.
  - intros x Hx. split; [exact (Hfail x Hx) | ].
    intros op Hop Hnext. rewrite (Hfail x Hx).
    destruct (run_once op Hop) as (K & HK & Hshape). rewrite Hshape. unfold bind.
    destruct (ensure_connected_spec
                {| host := hst; database := db; max_idle_time := m;
                   _db := None; _last_use_time := clock t |}
                {| ticks := S t; connects := S n; statements := st;
                   trace := (tr ++ [EvLogError ("Cannot connect to Sqlite3 on " ++ hst)])%list |}
                Hnext)
      as (c1 & e1 & Hrun & _ & _ & _ & _ & _ & _ & Hstale & _).
    rewrite Hrun. destruct (Hstale eq_refl) as (Hdb & _ & Htr).
    destruct (HK c1 e1) as (r & st' & rest & HrunK & _).
    rewrite HrunK. exists r, c1. eexists. exists rest.
    split; [reflexivity | ]. split; [exact Hdb | ].
    cbn [trace]. rewrite Htr. cbn [closes _db trace connects database app].
    rewrite <- !app_assoc. reflexivity.
Qed.

(** X25. [close] closes the connection once: a second [close] does
    nothing; and the operation that follows a [close] opens the database
    again before anything else, when [sqlite3.connect] opens it. *)
Theorem close_then_use_reopens :
  forall (c : Connection) (e : env),
    close (c, e) =
      (Return tt,
       (closed c,
        {| ticks := ticks e; connects := connects e; statements := statements e;
           trace := (trace e ++ closes c)%list |})) /\
    bind close (fun _ => close) (c, e) = close (c, e) /\
    (forall op,
        (forall n, connect_error (database c) n = None) ->
        exists r c' e' rest h,
          run op (snd (close (c, e))) = (r, (c', e')) /\
          _db c' = Some h /\
          trace e' =
            (trace e ++ closes c ++
             EvConnect (database c) (connects e) :: rest)%list).
Proof.
  intros c e.
  assert (Hclose : close (c, e) =
                   (Return tt,
                    (closed c,
                     {| ticks := ticks e; connects := connects e;
                        statements := statements e;
                        trace := (trace e ++ closes c)%list |}))).
  { destruct c as [h d m db lu], e as [t n st tr].
    unfold close, set__db, self, emit, bind, ret, closed, closes.
    destruct db; simpl; [reflexivity | rewrite app_nil_r; reflexivity]. }
  split; [exact Hclose | split].
  - unfold bind. rewrite Hclose.
    destruct c as [h d m db lu], e as [t n st tr].
    unfold close, set__db, self, emit, bind, ret, closed, closes. simpl.
    reflexivity.
  - intros op Hconn. rewrite Hclose. cbn [snd].
    set (e0 := {| ticks := ticks e; connects := connects e;
                  statements := statements e; trace := (trace e ++ closes c)%list |}).
    assert (Hgoal : exists r c' e',
               run op (closed c, e0) = (r, (c', e')) /\ used (closed c) e0 c' e' /\
               exists h, _db c' = Some h).
    { destruct (run_starts_with_ensure_connected op) as (K & HK & [Hshape | Hshape]);
        rewrite Hshape; unfold bind at 1;
        destruct (ensure_connected_used (closed c) e0 (Hconn _))
          as (c1 & e1 & Hrun & Hused & Hdb1);
        rewrite Hrun.
      - destruct (quiet_keeps_used K (closed c) e0 c1 e1 HK Hused)
          as (r & e2 & HrunK & Hused2).
        exists r, c1, e2. auto.
      - unfold bind at 1.
        destruct (ensure_connected_again (closed c) e0 c1 e1 Hused (Hconn _))
          as (c2 & e2 & Hrun2 & Hused2 & Hdb2).
        rewrite Hrun2.
        destruct (quiet_keeps_used K (closed c) e0 c2 e2 HK Hused2)
          as (r & e3 & HrunK & Hused3).
        exists r, c2, e3. auto. }
    destruct Hgoal as (r & c' & e' & Hrun & (_ & _ & _ & _ & Hst) & (h & Hdb)).
    destruct (Hst eq_refl) as (rest & h' & Htr & _).
    exists r, c', e', rest, h. split; [exact Hrun | split; [exact Hdb | ]].
    rewrite Htr. subst e0. cbn [trace closes closed _db connects database app].
    rewrite <- app_assoc. reflexivity.
Qed.

Lemma ensure_connected_ok (c : Connection) (e : env) :
  connect_error (database c) (connects e) = None ->
  exists c1 e1 h,
    _ensure_connected (c, e) = (Return tt, (c1, e1)) /\
    _db c1 = Some h /\
    statements e1 = statements e /\
    database c1 = database c.
Proof.
  intros Hconn.
  destruct (ensure_connected_spec c e Hconn)
    as (c1 & e1 & Hrun & _ & Hd & _ & Hst & _ & _ & Hstale & Hfresh).
  destruct (is_stale c e).
  - destruct (Hstale eq_refl) as (Hdb & _).
    exists c1, e1, (connects e). auto.
  - destruct (Hfresh eq_refl) as (Hdb & Hne & _).
    destruct (_db c) as [h | ] eqn:Hc; [ | contradiction].
    exists c1, e1, h. auto.
Qed.

(** What the statement of [query] and [iter] returns on a connection that
    is there, whatever the [finally] does as long as it returns. *)
Lemma rows_after_the_check (q : string) (ps : list pyvalue) (fin : nat -> Op unit)
    (c : Connection) (e : env) (h : nat) :
  (forall cursor s, fst (fin cursor s) = Return tt) ->
  _db c = Some h ->
  fst (bind db_cursor
         (fun cursor =>
            try_finally
              (bind (_execute cursor q ps) (fun r => read_rows r))
              (fin cursor)) (c, e)) =
  rows_of_statement q ps (statements e).
Proof.
  intros Hfin Hdb.
  assert (Hbody : forall s0,
             fst (bind (_execute h q ps) (fun r => read_rows r) s0) =
             match _db (fst s0) with
             | Some _ => rows_of_statement q ps (statements (snd s0))
             | None => match cursor_execute q ps (statements (snd s0)) with
                       | Return _ => Raise AttributeError
                       | Raise x => Raise x
                       | Blocks => Blocks
                       end
             end).
  { intros [c0 e0].
    unfold _execute, read_rows, next_statement, emit, self, bind, ret, raise,
      rows_of_statement.
    cbn [fst snd statements ticks connects trace].
    destruct (cursor_execute q ps (statements e0)) as [r | x | ].
    - destruct (_db c0); [ | reflexivity].
      destruct (commit_error (statements e0)) as [x | ].
      + destruct (is_OperationalError x); reflexivity.
      + destruct (description r); reflexivity.
    - destruct (_db c0); destruct (is_OperationalError x); reflexivity.
    - destruct (_db c0); reflexivity. }
  unfold db_cursor, bind at 1, self, bind at 1. rewrite Hdb.
  unfold emit, ret, bind at 1. unfold try_finally.
  match goal with |- context [bind (_execute h q ps) (fun r => read_rows r) ?s0] =>
    pose proof (Hbody s0) as Hb;
    destruct (bind (_execute h q ps) (fun r => read_rows r) s0) as [r1 s1] end.
  cbn [fst snd _db statements] in Hb. rewrite Hdb in Hb. rewrite <- Hb.
  destruct r1 as [a | x | ]; [ | | reflexivity];
    (pose proof (Hfin h s1) as Hf; destruct (fin h s1) as [[[] | ? | ] ?];
     cbn [fst] in Hf; try discriminate; reflexivity).
Qed.

(** X26. On a database that [sqlite3.connect] opens, [iter] read to its
    end returns what [query] returns: the exception of the statement or of
    its commit when one of them raises, [TypeError] when they succeed and
    the cursor has no description, and else the rows of the statement as
    [Row]s under the column names of the description.
    (They differ in what they do besides: [iter] tests the connection twice
    and closes its cursor.) *)
Theorem iter_returns_the_rows_of_query :
  forall (q : string) (parameters : list pyvalue) (c : Connection) (e : env),
    (forall n, connect_error (database c) n = None) ->
    fst (query q parameters (c, e)) = rows_of_statement q parameters (statements e) /\
    fst (iter q parameters (c, e)) = fst (query q parameters (c, e)).
Proof.
  intros q ps c e Hconn.
  destruct (ensure_connected_ok c e (Hconn _))
    as (c1 & e1 & h1 & Hrun1 & Hdb1 & Hst1 & Hd1).
  assert (Hquery : fst (query q ps (c, e)) = rows_of_statement q ps (statements e)).
  { unfold query, _cursor. rewrite bind_assoc. unfold bind at 1. rewrite Hrun1.
    rewrite (rows_after_the_check q ps (fun _ => ret tt) c1 e1 h1);
      [rewrite Hst1; reflexivity | reflexivity | exact Hdb1]. }
  split; [exact Hquery | ]. rewrite Hquery.
  unfold iter. unfold bind at 1. rewrite Hrun1.
  assert (Hconn1 : connect_error (database c1) (connects e1) = None)
    by (rewrite Hd1; apply Hconn).
  destruct (ensure_connected_ok c1 e1 Hconn1)
    as (c2 & e2 & h2 & Hrun2 & Hdb2 & Hst2 & _).
  unfold _cursor. rewrite bind_assoc. unfold bind at 1. rewrite Hrun2.
  rewrite (rows_after_the_check q ps (fun cursor => emit (EvCursorClose cursor)) c2 e2 h2);
    [rewrite Hst2, Hst1; reflexivity | | exact Hdb2].
  intros cursor [c' e']. reflexivity.
Qed.

End TraceFacts.

(** ** Rows *)

Lemma last_binding_none (names : list string) :
  forall (row : list pyvalue) (name : string),
    (forall i, i < List.length row -> nth_error names i <> Some name) ->
    last_binding (Sqlite.Row names row) name = None.
Proof.
  induction names as [ | k ks IH]; intros row name H; [reflexivity | ].
  destruct row as [ | v vs]; [reflexivity | ].
  cbn [Sqlite.Row last_binding].
  rewrite IH.
  - destruct (String.eqb name k) eqn:E; [ | reflexivity].
    apply String.eqb_eq in E. subst k.
    exfalso. apply (H 0); [cbn [List.length]; lia | reflexivity].
  - intros i Hi. apply (H (S i)). cbn [List.length]. lia.
Qed.

(** X27. [Row.__getattr__], which Python calls for a name that is no
    attribute of a dict, returns the value of the column of that name: of
    the last one, when the statement gives several columns of that name.
    A name that is no column of the row (or a column for which the row has
    no value) raises [AttributeError], not the [KeyError] of the dict. *)
Theorem row_attribute_is_the_column_of_that_name :
  forall (names : list string) (row : list pyvalue) (name : string),
    (forall i v,
        nth_error names i = Some name ->
        nth_error row i = Some v ->
        (forall j, i < j -> j < List.length row -> nth_error names j <> Some name) ->
        Row__getattr__ (Sqlite.Row names row) name = Return v) /\
    ((forall i, i < List.length row -> nth_error names i <> Some name) ->
     Row__getattr__ (Sqlite.Row names row) name = Raise AttributeError).
Proof.
  intros names row name. split.
  - revert row. induction names as [ | k ks IH]; intros row i v Hn Hr Hlast.
    + destruct i; discriminate.
    + destruct row as [ | v0 vs]; [destruct i; discriminate | ].
      unfold Row__getattr__. cbn [Sqlite.Row last_binding].
      destruct i as [ | i].
      * cbn [nth_error] in Hn, Hr. inversion Hn; inversion Hr; subst.
        rewrite last_binding_none.
        -- rewrite String.eqb_refl. reflexivity.
        -- intros j Hj. apply (Hlast (S j)); [lia | cbn [List.length]; lia].
      * cbn [nth_error] in Hn, Hr.
        assert (H : Row__getattr__ (Sqlite.Row ks vs) name = Return v).
        { apply (IH vs i v Hn Hr). intros j Hij Hj.
          apply (Hlast (S j)); [lia | cbn [List.length]; lia]. }
        unfold Row__getattr__ in H.
        destruct (last_binding (Sqlite.Row ks vs) name); [exact H | discriminate].
  - intros H. unfold Row__getattr__. rewrite last_binding_none; [reflexivity | exact H].
Qed.

(** ** The facts above on the samples *)

(** X3 on the address of the second thread of the sample listing. *)
Lemma thread_number_of_address_witness :
  _page_num "http://tieba.baidu.com/p/1002?pn=1" = Return 1002%Z /\
  new_PageItem (base_url (Some "/p/1002?pn=1")) (reply_date (Sample.item 0 "")) =
    Return {| url := "http://tieba.baidu.com/p/1002?pn=1";
              reply_date := reply_date (Sample.item 0 "");
              page_num := 1002; title := None; content := None; created_at := None |}.
Proof.
  refine (thread_number_of_address "http://tieba.baidu.com" "1002" "?pn=1"
            (reply_date (Sample.item 0 "")) _ _ _ _ _ _);
    try (vm_compute; reflexivity); discriminate.
Defined.

(** X4 on the same address, and on the address of the sample listing that
    has no [/p/]. *)
Lemma page_num_is_read_after_slash_p_witness :
  (exists pre ds rest,
      "http://tieba.baidu.com/p/1002?pn=1" = pre ++ "/p/" ++ ds ++ rest /\
      pre <> "" /\ all_chars not_newline pre = true /\
      ds <> "" /\ all_chars is_digit ds = true /\
      starts_with_digit rest = false /\
      1002%Z = int_of_digits 0 ds) /\
  _page_num "http://tieba.baidu.com/f?kz=1001" = Raise AttributeError.
Proof.
  split.
  - refine (proj1 (page_num_is_read_after_slash_p "http://tieba.baidu.com/p/1002?pn=1")
              1002%Z _).
    vm_compute. reflexivity.
  - refine (proj2 (page_num_is_read_after_slash_p "http://tieba.baidu.com/f?kz=1001") _).
    vm_compute. reflexivity.
Defined.

(** X5 on the header of the sample responses, and on one with a parameter
    after the charset. *)
Lemma charset_is_the_rest_of_the_line_witness :
  regex_charset "text/html; charset=GBK" = Some "GBK" /\
  regex_charset "text/html; charset=gbk; q=1" = Some "gbk; q=1" /\
  regex_charset "text/html" = None.
Proof.
  split; [ | split].
  - refine (proj1 (charset_is_the_rest_of_the_line "text/html; charset=GBK")
              "text/html; " "GBK" _ _ _ _ _ _);
      try (vm_compute; reflexivity); discriminate.
  - refine (proj1 (charset_is_the_rest_of_the_line "text/html; charset=gbk; q=1")
              "text/html; " "gbk; q=1" _ _ _ _ _ _);
      try (vm_compute; reflexivity); discriminate.
  - refine (proj2 (proj2 (charset_is_the_rest_of_the_line "text/html")) _).
    vm_compute. reflexivity.
Defined.

(** X6 on a keyword for which the sample site has no listing: the fetch
    raises, and so does [main]. *)
Lemma listing_that_cannot_be_loaded_witness :
  exists w2,
    main (L := Sample.sample_library Sample.no_arrivals) 3
      ["fetch_data.py"; "none"] (Sample.world0 Sample.no_arrivals) =
    (Raise HTTPError, w2).
Proof.
  refine (proj2 (proj2 (listing_that_cannot_be_loaded_ends_the_run
                          (L := Sample.sample_library Sample.no_arrivals)
                          "http://tieba.baidu.com/f/good?kw=none" HTTPError _))
            3 ["fetch_data.py"; "none"] "none" (Sample.world0 Sample.no_arrivals) _ _);
    try reflexivity.
  apply fetch_raises. reflexivity.
Defined.

(** X7 on the sample listing whose first entry has no thread number. *)
Lemma listing_is_parsed_iff_witness :
  fst (parse_summary_page (L := Sample.sample_library Sample.no_arrivals) "listing_bad"
         (Sample.world1 Sample.no_arrivals)) = Raise AttributeError.
Proof.
  refine (proj2 (proj2 (listing_is_parsed_iff_every_entry_is_complete
                          (L := Sample.sample_library Sample.no_arrivals)
                          "listing_bad" Sample.listing_bad
                          (Sample.world1 Sample.no_arrivals) _))
            [] (Sample.entry "/f?kz=1001" "10-01") [Sample.entry "/p/1002" "10-02"]
            _ _ _);
    vm_compute; reflexivity.
Defined.

(** X8 on the sample page of the authors 1, 1, 2, 1: the row of thread
    1001. *)
Lemma detail_page_is_stored_witness :
  let r := parse_detail_page (L := Sample.sample_library Sample.no_arrivals)
             (Sample.item 1001 "http://tieba.baidu.com/p/1001") "AABA"
             (Sample.world1 Sample.no_arrivals) in
  Sample.page_items (server (snd r)) =
    [[PyInt 1001; PyStr "Thread"; PyStr ("one" ++ newline ++ newline ++ "two");
      PyStr "d3"]] /\
  stdout (snd r) = ["Thread"].
Proof.
  pose proof (detail_page_is_stored
                (L := Sample.sample_library Sample.no_arrivals)
                (Sample.item 1001 "http://tieba.baidu.com/p/1001") "AABA"
                Sample.page_AABA
                (Element "div" [("class", "core")] None
                   (Element "h1" [("class", "core_title_txt")] (Some "Thread") [] None
                    :: [Sample.post "{author:{id:1},content:{date:d1}}" "one";
                        Sample.post "{author:{id:1},content:{date:d2}}" "two";
                        Sample.post "{author:{id:2},content:{date:d3}}" "three";
                        Sample.post "{author:{id:1},content:{date:d4}}" "four"])
                   None)
                []
                {| main_author := PyInt 1; contents := ["one"; "two"];
                   lv_created_at := PyStr "d3" |}
                (Element "h1" [("class", "core_title_txt")] (Some "Thread") [] None)
                [] "Thread" (Sample.world1 Sample.no_arrivals)
                eq_refl eq_refl eq_refl eq_refl eq_refl eq_refl) as H.
  cbv zeta in H. destruct H as (_ & Hserver & Hout).
  cbv zeta. split.
  - rewrite Hserver. vm_compute. reflexivity.
  - rewrite Hout. vm_compute. reflexivity.
Defined.

(** X9 on a page of two fragments of author 1, the second without a text
    node: nothing of the page is stored. *)
Lemma failure_inside_a_fragment_witness :
  parse_detail_page (L := Faulty.faulty_library Sample.no_arrivals)
    (Sample.item 1001 "http://tieba.baidu.com/p/1001") "no_text"
    (Faulty.world1 Sample.no_arrivals) =
  (Raise IndexError, Faulty.world1 Sample.no_arrivals).
Proof.
  refine (failure_inside_a_fragment_drops_the_page
            (L := Faulty.faulty_library Sample.no_arrivals)
            (Sample.item 1001 "http://tieba.baidu.com/p/1001") "no_text"
            Faulty.page_no_text
            (Element "div" [("class", "core")] None
               (Element "h1" [("class", "core_title_txt")] (Some "Thread") [] None
                :: [Sample.post "{author:{id:1},content:{date:d1}}" "one";
                    Faulty.bare_post "{author:{id:1},content:{date:d2}}"])
               None)
            [] (PyInt 1)
            {| f_node := Sample.post "{author:{id:1},content:{date:d1}}" "one";
               f_date := PyStr "d1"; f_text := "one" |}
            []
            (Faulty.bare_post "{author:{id:1},content:{date:d2}}") []
            IndexError (Faulty.world1 Sample.no_arrivals)
            eq_refl eq_refl eq_refl _ _ eq_refl eq_refl _ _).
  - discriminate.
  - unfold decodes. do 3 eexists. repeat split; reflexivity.
  - constructor.
  - apply (fragment_without_text (L := Faulty.faulty_library Sample.no_arrivals)
             (PyInt 1) _ IndexError (PyInt 1) (PyStr "d2")).
    + unfold decodes. do 3 eexists. repeat split; reflexivity.
    + reflexivity.
    + reflexivity.
Defined.

(** X10 on a page whose [div.core] has a fragment and no title. *)
Lemma page_without_title_witness :
  let r := parse_detail_page (L := Faulty.faulty_library Sample.no_arrivals)
             (Sample.item 1001 "http://tieba.baidu.com/p/1001") "no_title"
             (Faulty.world1 Sample.no_arrivals) in
  fst r = Raise IndexError /\
  server (snd r) = server (Faulty.world1 Sample.no_arrivals).
Proof.
  refine (proj1 (page_without_title_is_not_stored
                   (L := Faulty.faulty_library Sample.no_arrivals)
                   (Sample.item 1001 "http://tieba.baidu.com/p/1001") "no_title"
                   Faulty.page_no_title
                   (Element "div" [("class", "core")] None
                      [Sample.post "{author:{id:1},content:{date:d1}}" "one"] None)
                   []
                   {| main_author := PyInt 1; contents := ["one"];
                      lv_created_at := PyStr "d1" |}
                   (Faulty.world1 Sample.no_arrivals) eq_refl eq_refl eq_refl) eq_refl).
Defined.

(** X13 on the two sample pages, the response of the second request
    arriving first: [async_fetch] returns. *)
Lemma async_fetch_returns_iff_witness :
  fst (async_fetch (L := Sample.sample_library Sample.second_first)
         Sample.two_items (Sample.world1 Sample.second_first)) = Return tt.
Proof.
  refine (async_fetch_returns_iff_the_last_request_is_answered
            (L := Sample.sample_library Sample.second_first)
            Sample.two_items (Sample.world1 Sample.second_first) _ _ _ _).
  - discriminate.
  - reflexivity.
  - reflexivity.
  - constructor.
Defined.

(** X14 on the same run: the first request is still waiting, and the loop
    is as before. *)
Lemma requests_not_answered_witness :
  let w' := snd (async_fetch (L := Sample.sample_library Sample.second_first)
                   Sample.two_items (Sample.world1 Sample.second_first)) in
  stopped w' = false /\
  requests w' = 2 /\
  loop_runs w' = 1 /\
  Forall (waits_below (requests w')) (pending w') /\
  In 0 (map fst (pending w')).
Proof.
  pose proof (requests_not_answered_before_the_last_stay_waiting
                (L := Sample.sample_library Sample.second_first)
                Sample.two_items (Sample.world1 Sample.second_first)
                (Sample.ok_response "GBK" "AABA")
                ltac:(discriminate) eq_refl eq_refl ltac:(constructor)
                eq_refl eq_refl) as H.
  cbv zeta in H. destruct H as (H1 & H2 & H3 & H4 & H5).
  cbv zeta. repeat split; try assumption.
  apply (H5 0); [cbn; lia | right; cbn; lia | reflexivity].
Defined.

(** X15 on two pages of which the client refuses the second: the loop is
    started and nothing stops it, though both responses would arrive. *)
Lemma refused_last_fetch_witness :
  fst (async_fetch (L := Faulty.faulty_library Faulty.in_order)
         ([Sample.item 1001 "http://tieba.baidu.com/p/1001"] ++
          [Sample.item 0 "http://tieba.baidu.com/p/0"])
         (Faulty.world1 Faulty.in_order)) = Blocks.
Proof.
  refine (proj1 (refused_last_fetch_blocks_async_fetch
                   (L := Faulty.faulty_library Faulty.in_order)
                   [Sample.item 1001 "http://tieba.baidu.com/p/1001"]
                   (Sample.item 0 "http://tieba.baidu.com/p/0")
                   (Faulty.world1 Faulty.in_order) _ _ _)).
  - reflexivity.
  - reflexivity.
  - constructor.
Defined.

(** X18 on an [execute] of the sample connection. *)
Lemma opened_cursor_is_closed_witness :
  exists added,
    Sqlite.trace (snd (snd (Sqlite.run (E := Faulty.faulty_sqlite3)
                              (Sqlite.Execute "insert into t values (1)" [])
                              Faulty.live))) =
      (Sqlite.trace (snd Faulty.live) ++ added)%list /\
    (forallb (fun ev => negb (is_cursor ev || is_cursor_close ev)) added = true \/
     exists pre mid h,
       forallb (fun ev => negb (is_cursor ev || is_cursor_close ev)) (pre ++ mid) = true /\
       added = (pre ++ Sqlite.EvCursor h :: mid ++ [Sqlite.EvCursorClose h])%list).
Proof.
  exact (opened_cursor_is_closed_at_the_end (E := Faulty.faulty_sqlite3)
           (Sqlite.Execute "insert into t values (1)" []) Faulty.live eq_refl).
Defined.

(** X19 on a [query] of the sample connection, which is live. *)
Lemma live_connection_is_reused_witness :
  exists r st added,
    Sqlite.run (E := Faulty.faulty_sqlite3) (Sqlite.Query "select * from t" [])
      (fst Faulty.live, snd Faulty.live) =
    (r, (used_at (@Sqlite.clock Faulty.faulty_sqlite3
                    (S (Sqlite.ticks (snd Faulty.live)))) (fst Faulty.live),
         {| Sqlite.ticks := S (S (Sqlite.ticks (snd Faulty.live)));
            Sqlite.connects := Sqlite.connects (snd Faulty.live);
            Sqlite.statements := st;
            Sqlite.trace := (Sqlite.trace (snd Faulty.live) ++ added)%list |})) /\
    forallb (fun ev => negb (is_connection_event ev)) added = true.
Proof.
  refine (live_connection_is_reused (E := Faulty.faulty_sqlite3)
            (Sqlite.Query "select * from t" [])
            (fst Faulty.live) (snd Faulty.live) _ _).
  - reflexivity.
  - vm_compute. reflexivity.
Defined.

(** X20 on the connection to a database that cannot be opened. *)
Lemma operation_on_a_database_that_cannot_be_opened_witness :
  fst (Sqlite.run (E := Faulty.faulty_sqlite3) (Sqlite.Execute "insert into t values (1)" [])
         (fst Faulty.dead, snd Faulty.dead)) = Raise OperationalError.
Proof.
  pose proof (operation_on_a_database_that_cannot_be_opened (E := Faulty.faulty_sqlite3)
                (Sqlite.Execute "insert into t values (1)" [])
                (fst Faulty.dead) (snd Faulty.dead) OperationalError
                eq_refl eq_refl) as H.
  destruct H as (H & _). rewrite H. reflexivity.
Defined.

(** X21 on an [execute] of the sample connection. *)
Lemma execute_commits_witness :
  fst (Sqlite.execute (E := Faulty.faulty_sqlite3) "insert into t values (1)" []
         (fst Faulty.live, snd Faulty.live)) = Return (PyInt 0) /\
  Sqlite.trace (snd (snd (Sqlite.execute (E := Faulty.faulty_sqlite3)
                            "insert into t values (1)" []
                            (fst Faulty.live, snd Faulty.live)))) =
    [Sqlite.EvConnect "bar.db" 0; Sqlite.EvCursor 0;
     Sqlite.EvExecute 0 "insert into t values (1)" [];
     Sqlite.EvCommit 0; Sqlite.EvCursorClose 0].
Proof.
  pose proof (execute_commits_and_returns_lastrowid (E := Faulty.faulty_sqlite3)
                "insert into t values (1)" [] (fst Faulty.live) (snd Faulty.live) 0
                {| Sqlite.description := None; Sqlite.rows := [];
                   Sqlite.lastrowid := PyInt 0 |}
                eq_refl eq_refl eq_refl eq_refl) as H.
  rewrite H. split; reflexivity.
Defined.

(** X22 on a statement that [sqlite3] refuses: logged, not committed, the
    cursor closed. *)
Lemma failed_statement_witness :
  fst (Sqlite.execute (E := Faulty.faulty_sqlite3) "select * from missing" []
         (fst Faulty.live, snd Faulty.live)) = Raise OperationalError /\
  Sqlite.trace (snd (snd (Sqlite.execute (E := Faulty.faulty_sqlite3)
                            "select * from missing" []
                            (fst Faulty.live, snd Faulty.live)))) =
    [Sqlite.EvConnect "bar.db" 0; Sqlite.EvCursor 0;
     Sqlite.EvExecute 0 "select * from missing" [];
     Sqlite.EvLogError "Error connecting to SQLite3 on localhost";
     Sqlite.EvCursorClose 0].
Proof.
  pose proof (proj1 (failed_statement_is_raised_after_closing_the_cursor
                       (E := Faulty.faulty_sqlite3)
                       "select * from missing" [] (fst Faulty.live) (snd Faulty.live) 0
                       OperationalError eq_refl eq_refl) eq_refl) as H.
  rewrite H. split; reflexivity.
Defined.

(** X23 on a query that gives one row, and on an [insert], whose cursor
    has no description: the row is stored and [get] raises. *)
Lemma get_returns_the_only_row_witness :
  fst (Sqlite.get (E := Faulty.faulty_sqlite3) "select * from t" []
         (fst Faulty.live, snd Faulty.live)) =
    Return (Some [("id", PyInt 1); ("name", PyStr "a")]) /\
  Sqlite.trace (snd (snd (Sqlite.get (E := Faulty.faulty_sqlite3) "select * from t" []
                            (fst Faulty.live, snd Faulty.live)))) =
    [Sqlite.EvConnect "bar.db" 0; Sqlite.EvCursor 0;
     Sqlite.EvExecute 0 "select * from t" []; Sqlite.EvCommit 0] /\
  fst (Sqlite.get (E := Faulty.faulty_sqlite3) "insert into t values (1)" []
         (fst Faulty.live, snd Faulty.live)) = Raise TypeError /\
  Sqlite.trace (snd (snd (Sqlite.get (E := Faulty.faulty_sqlite3)
                            "insert into t values (1)" []
                            (fst Faulty.live, snd Faulty.live)))) =
    [Sqlite.EvConnect "bar.db" 0; Sqlite.EvCursor 0;
     Sqlite.EvExecute 0 "insert into t values (1)" []; Sqlite.EvCommit 0].
Proof.
  pose proof (get_returns_the_only_row (E := Faulty.faulty_sqlite3)
                "select * from t" [] (fst Faulty.live) (snd Faulty.live) 0
                {| Sqlite.description := Some ["id"; "name"];
                   Sqlite.rows := [[PyInt 1; PyStr "a"]];
                   Sqlite.lastrowid := PyInt 0 |}
                eq_refl eq_refl eq_refl eq_refl) as H.
  pose proof (get_returns_the_only_row (E := Faulty.faulty_sqlite3)
                "insert into t values (1)" [] (fst Faulty.live) (snd Faulty.live) 0
                {| Sqlite.description := None; Sqlite.rows := [];
                   Sqlite.lastrowid := PyInt 0 |}
                eq_refl eq_refl eq_refl eq_refl) as H'.
  rewrite H, H'. repeat split; reflexivity.
Defined.

(** X26 on the sample connection. *)
Lemma iter_returns_the_rows_of_query_witness :
  fst (Sqlite.iter (E := Faulty.faulty_sqlite3) "select * from t" []
         (fst Faulty.live, snd Faulty.live)) =
  fst (Sqlite.query (E := Faulty.faulty_sqlite3) "select * from t" []
         (fst Faulty.live, snd Faulty.live)).
Proof.
  exact (proj2 (iter_returns_the_rows_of_query (E := Faulty.faulty_sqlite3)
                  "select * from t" [] (fst Faulty.live) (snd Faulty.live)
                  (fun n => eq_refl))).
Defined.

(** The sample connection to the database that cannot be opened: the
    constructor has logged the failure, and the object has no connection. *)
Example dead_connection :
  Sqlite._db (fst Faulty.dead) = None /\
  Sqlite.trace (snd Faulty.dead) =
    [Sqlite.EvLogError "Cannot connect to Sqlite3 on localhost"].
Proof. split; reflexivity. Qed.

(** A row of two columns of the same name: the attribute is the last. *)
Example row_with_a_repeated_column :
  Row__getattr__ (Sqlite.Row ["id"; "name"; "id"] [PyInt 1; PyStr "a"; PyInt 2]) "id" =
    Return (PyInt 2) /\
  Row__getattr__ (Sqlite.Row ["id"; "name"] [PyInt 1; PyStr "a"]) "title" =
    Raise AttributeError.
Proof. split; reflexivity. Qed.

(** X1 on an author with the id 0 and a name, and on the sample page of
    two fragments of an author without identity, one of author 2 and one
    more without: the first three are fused, and author 2 is the main
    author. *)
Lemma author_identity_witness :
  user_id_of (PyDict [("id", PyInt 0); ("name", PyStr "bob")]) = Return (PyStr "bob") /\
  for_each (L := Sample.sample_library Sample.no_arrivals) post_body
    (map f_node
       [{| f_node := Sample.post "{author:{},content:{date:d1}}" "one";
           f_date := PyStr "d1"; f_text := "one" |};
        {| f_node := Sample.post "{author:{},content:{date:d2}}" "two";
           f_date := PyStr "d2"; f_text := "two" |}] ++
     f_node {| f_node := Sample.post "{author:{id:2},content:{date:d3}}" "three";
               f_date := PyStr "d3"; f_text := "three" |}
     :: [Sample.post "{author:{},content:{date:d4}}" "four"])
    Sample.vars0 (Sample.world1 Sample.no_arrivals) =
  for_each (L := Sample.sample_library Sample.no_arrivals) post_body
    [Sample.post "{author:{},content:{date:d4}}" "four"]
    {| main_author := PyInt 2;
       contents := ([] ++ map f_text
                      [{| f_node := Sample.post "{author:{},content:{date:d1}}" "one";
                          f_date := PyStr "d1"; f_text := "one" |};
                       {| f_node := Sample.post "{author:{},content:{date:d2}}" "two";
                          f_date := PyStr "d2"; f_text := "two" |}] ++ ["three"])%list;
       lv_created_at := PyStr "d3" |}
    (Sample.world1 Sample.no_arrivals).
Proof.
  split.
  - exact (proj1 (author_identity_is_id_or_name
                    (L := Sample.sample_library Sample.no_arrivals))
             [("id", PyInt 0); ("name", PyStr "bob")]).
  - refine (proj2 (proj2 (author_identity_is_id_or_name
                            (L := Sample.sample_library Sample.no_arrivals))
                     _ _ Sample.vars0 (Sample.world1 Sample.no_arrivals) eq_refl _)
              {| f_node := Sample.post "{author:{id:2},content:{date:d3}}" "three";
                 f_date := PyStr "d3"; f_text := "three" |}
              (PyInt 2) _ eq_refl eq_refl).
    + constructor; [ | constructor; [ | constructor]];
        (exists PyNone; split; [ | split; reflexivity];
         unfold decodes; do 3 eexists; repeat split; reflexivity).
    + unfold decodes. do 3 eexists. repeat split; reflexivity.
Defined.

(** A statement that never returns on the sample connection: the cursor
    is opened and not closed. *)
Example statement_that_never_returns :
  fst (Sqlite.run (E := Faulty.faulty_sqlite3) (Sqlite.Execute "select * from busy" [])
         Faulty.live) = Blocks /\
  Sqlite.trace (snd (snd (Sqlite.run (E := Faulty.faulty_sqlite3)
                            (Sqlite.Execute "select * from busy" []) Faulty.live))) =
    [Sqlite.EvConnect "bar.db" 0; Sqlite.EvCursor 0;
     Sqlite.EvExecute 0 "select * from busy" []].
Proof. split; reflexivity. Qed.

(** An [insert] through [query] and through [iter]: both raise [TypeError]
    after the statement is committed. *)
Example insert_through_query :
  fst (Sqlite.query (E := Faulty.faulty_sqlite3) "insert into t values (1)" []
         Faulty.live) = Raise TypeError /\
  fst (Sqlite.iter (E := Faulty.faulty_sqlite3) "insert into t values (1)" []
         Faulty.live) = Raise TypeError /\
  Sqlite.trace (snd (snd (Sqlite.iter (E := Faulty.faulty_sqlite3)
                            "insert into t values (1)" [] Faulty.live))) =
    [Sqlite.EvConnect "bar.db" 0; Sqlite.EvCursor 0;
     Sqlite.EvExecute 0 "insert into t values (1)" [];
     Sqlite.EvCommit 0; Sqlite.EvCursorClose 0].
Proof. repeat split; reflexivity. Qed.
